(** * Thermal manager and temp reaper of dsme: model and properties

    Shallow embedding of [modules/thermalmanager.c] and
    [modules/tempreaper.c].

    Conventions of the model:
    - a C [int] is a [Z]; the arithmetic the modules perform on readings
      ([/ 1000], [- 273]) is shown to stay inside the 32-bit range
      ([convert_in_int_range]), so no wrap-around is involved; what
      [fscanf] stores through [%d] and the sum [mintime + 10] are 32-bit
      two's complement values ([stored_by_d], [to_int]);
    - [THERMAL_STATUS] is the four-valued enumeration of
      [thermalmanager.h]; arrays indexed by it are records with one field
      per band;
    - thermal objects live in a heap (a list, the index is the address);
      the registry [thermal_objects] is the [GSList] of addresses;
    - what the module sends (D-Bus signal, internal broadcasts, the call
      of the sensor's [request_temperature]) is collected in a trace of
      [output]s;
    - [dsme_log] calls and the optional temperature log
      ([DSME_THERMAL_LOGGING]) only write text and are left out. *)

From Equations Require Import Equations.
From stdpp Require Import base list strings.
From Stdlib Require Import ZArith Lia Ascii String.

Local Open Scope Z_scope.

Module ThermalManager.

(** ** Data model ([thermalmanager.h]) *)

Inductive THERMAL_STATUS : Type :=
| THERMAL_STATUS_NORMAL
| THERMAL_STATUS_WARNING
| THERMAL_STATUS_ALERT
| THERMAL_STATUS_FATAL.

Definition THERMAL_STATUS_COUNT : Z := 4.

(** The integer value of an enumerator. *)
Definition status_ord (s : THERMAL_STATUS) : Z :=
  match s with
  | THERMAL_STATUS_NORMAL => 0
  | THERMAL_STATUS_WARNING => 1
  | THERMAL_STATUS_ALERT => 2
  | THERMAL_STATUS_FATAL => 3
  end.

Definition status_eqb (a b : THERMAL_STATUS) : bool := status_ord a =? status_ord b.
Definition status_ltb (a b : THERMAL_STATUS) : bool := status_ord a <? status_ord b.
Definition status_le (a b : THERMAL_STATUS) : Prop := status_ord a <= status_ord b.
Definition status_lt (a b : THERMAL_STATUS) : Prop := status_ord a < status_ord b.

(** [--new_status]; the loop guard keeps it away from [NORMAL]. *)
Definition status_dec (s : THERMAL_STATUS) : THERMAL_STATUS :=
  match s with
  | THERMAL_STATUS_NORMAL => THERMAL_STATUS_NORMAL
  | THERMAL_STATUS_WARNING => THERMAL_STATUS_NORMAL
  | THERMAL_STATUS_ALERT => THERMAL_STATUS_WARNING
  | THERMAL_STATUS_FATAL => THERMAL_STATUS_ALERT
  end.

(** [++new_status]; the loop guard keeps it away from [FATAL]. *)
Definition status_inc (s : THERMAL_STATUS) : THERMAL_STATUS :=
  match s with
  | THERMAL_STATUS_NORMAL => THERMAL_STATUS_WARNING
  | THERMAL_STATUS_WARNING => THERMAL_STATUS_ALERT
  | THERMAL_STATUS_ALERT => THERMAL_STATUS_FATAL
  | THERMAL_STATUS_FATAL => THERMAL_STATUS_FATAL
  end.

Record thermal_status_configuration_t : Type := {
  min : Z;
  max : Z;
  mintime : Z;
  maxtime : Z
}.

(** [thermal_status_configuration_t state[THERMAL_STATUS_COUNT]]. *)
Record state_array : Type := {
  at_normal : thermal_status_configuration_t;
  at_warning : thermal_status_configuration_t;
  at_alert : thermal_status_configuration_t;
  at_fatal : thermal_status_configuration_t
}.

Definition state_get (a : state_array) (i : THERMAL_STATUS) : thermal_status_configuration_t :=
  match i with
  | THERMAL_STATUS_NORMAL => at_normal a
  | THERMAL_STATUS_WARNING => at_warning a
  | THERMAL_STATUS_ALERT => at_alert a
  | THERMAL_STATUS_FATAL => at_fatal a
  end.

Definition state_set (a : state_array) (i : THERMAL_STATUS)
    (v : thermal_status_configuration_t) : state_array :=
  match i with
  | THERMAL_STATUS_NORMAL =>
      {| at_normal := v; at_warning := at_warning a; at_alert := at_alert a; at_fatal := at_fatal a |}
  | THERMAL_STATUS_WARNING =>
      {| at_normal := at_normal a; at_warning := v; at_alert := at_alert a; at_fatal := at_fatal a |}
  | THERMAL_STATUS_ALERT =>
      {| at_normal := at_normal a; at_warning := at_warning a; at_alert := v; at_fatal := at_fatal a |}
  | THERMAL_STATUS_FATAL =>
      {| at_normal := at_normal a; at_warning := at_warning a; at_alert := at_alert a; at_fatal := v |}
  end.

(** The sensor's [request_temperature] function pointer is code of the
    sensor module; what it does is an input of the poll functions below
    (see [request_outcome]). *)
Record thermal_object_configuration_t : Type := {
  name : string;
  state : state_array
}.

Record thermal_object_t : Type := {
  conf : thermal_object_configuration_t;
  status : THERMAL_STATUS;
  request_pending : bool
}.

(** ** Classification of a reading ([receive_temperature_response], lines 189-220) *)

(** "heuristics to convert to degrees C" *)
Definition convert_to_degrees_C (temperature : Z) : Z :=
  let temperature :=
    if temperature >? 1000 then temperature ÷ 1000 else temperature in
  let temperature :=
    if temperature >? 223 then temperature - 273 else temperature in
  temperature.

Definition status_rank (s : THERMAL_STATUS) : nat := Z.to_nat (status_ord s).
Definition status_room (s : THERMAL_STATUS) : nat := Z.to_nat (3 - status_ord s).

Definition inspect {A : Type} (a : A) : {b : A | a = b} := exist _ a eq_refl.

(** [while (new_status > THERMAL_STATUS_NORMAL && temperature < state[new_status].min) --new_status;] *)
Equations? lower_status (c : thermal_object_configuration_t) (temperature : Z)
    (new_status : THERMAL_STATUS) : THERMAL_STATUS by wf (status_rank new_status) lt :=
  lower_status c temperature new_status
    with inspect (status_ltb THERMAL_STATUS_NORMAL new_status
                  && (temperature <? min (state_get (state c) new_status))) := {
    | exist _ true _ => lower_status c temperature (status_dec new_status)
    | exist _ false _ => new_status
    }.
Proof.
  destruct new_status; cbn in *; try discriminate; unfold status_rank; cbn; lia.
Qed.

(** [while (new_status < THERMAL_STATUS_FATAL && temperature > state[new_status].max) ++new_status;] *)
Equations? raise_status (c : thermal_object_configuration_t) (temperature : Z)
    (new_status : THERMAL_STATUS) : THERMAL_STATUS by wf (status_room new_status) lt :=
  raise_status c temperature new_status
    with inspect (status_ltb new_status THERMAL_STATUS_FATAL
                  && (temperature >? max (state_get (state c) new_status))) := {
    | exist _ true _ => raise_status c temperature (status_inc new_status)
    | exist _ false _ => new_status
    }.
Proof.
  destruct new_status; cbn in *; try discriminate; unfold status_room; cbn; lia.
Qed.

(** "figure out the new thermal object status based on the temperature" *)
Definition new_thermal_object_status (c : thermal_object_configuration_t)
    (temperature : Z) (new_status : THERMAL_STATUS) : THERMAL_STATUS :=
  if temperature <? min (state_get (state c) new_status) then
    lower_status c temperature new_status
  else if temperature >? max (state_get (state c) new_status) then
    raise_status c temperature new_status
  else new_status.

(** The classifier: unit heuristics, then the band walk. *)
Definition classify (temperature : Z) (current : THERMAL_STATUS)
    (c : thermal_object_configuration_t) : THERMAL_STATUS :=
  new_thermal_object_status c (convert_to_degrees_C temperature) current.

(** *** The specification's reading of the walk, as step relations

    One step down is allowed while the band is above Normal and the
    temperature is below the band's [min]; one step up while the band is
    below Fatal and the temperature is above the band's [max]. *)

Inductive descends (c : thermal_object_configuration_t) (t : Z) :
    THERMAL_STATUS -> THERMAL_STATUS -> Prop :=
| descends_stop s : descends c t s s
| descends_step s r :
    status_lt THERMAL_STATUS_NORMAL s ->
    t < min (state_get (state c) s) ->
    descends c t (status_dec s) r ->
    descends c t s r.

Inductive ascends (c : thermal_object_configuration_t) (t : Z) :
    THERMAL_STATUS -> THERMAL_STATUS -> Prop :=
| ascends_stop s : ascends c t s s
| ascends_step s r :
    status_lt s THERMAL_STATUS_FATAL ->
    t > max (state_get (state c) s) ->
    ascends c t (status_inc s) r ->
    ascends c t s r.

(** No step, in either direction, applies at [r]. *)
Definition settled (c : thermal_object_configuration_t) (t : Z) (r : THERMAL_STATUS) : Prop :=
  ~ (status_lt THERMAL_STATUS_NORMAL r /\ t < min (state_get (state c) r)) /\
  ~ (status_lt r THERMAL_STATUS_FATAL /\ t > max (state_get (state c) r)).

(** The spec's wording read as two loops in sequence. *)
Definition ratchet_in_sequence (c : thermal_object_configuration_t) (t : Z)
    (s : THERMAL_STATUS) : THERMAL_STATUS :=
  raise_status c t (lower_status c t s).

(** Ranges of the four bands are non-empty and adjacent: the next band
    starts at the previous band's [max] or right after it. *)
Definition contiguous_increasing (c : thermal_object_configuration_t) : Prop :=
  (forall s, min (state_get (state c) s) <= max (state_get (state c) s)) /\
  (forall s, status_lt s THERMAL_STATUS_FATAL ->
     max (state_get (state c) s) <= min (state_get (state c) (status_inc s)) /\
     min (state_get (state c) (status_inc s)) <= max (state_get (state c) s) + 1).

Definition range_of (c : thermal_object_configuration_t) (s : THERMAL_STATUS) : Z * Z :=
  (min (state_get (state c) s), max (state_get (state c) s)).

(** Normal=[0,39], Warning=[40,59], Alert=[60,79], Fatal=[80,999], any
    name and any poll intervals. *)
Definition has_ladder_ranges (c : thermal_object_configuration_t) : Prop :=
  range_of c THERMAL_STATUS_NORMAL = (0, 39) /\
  range_of c THERMAL_STATUS_WARNING = (40, 59) /\
  range_of c THERMAL_STATUS_ALERT = (60, 79) /\
  range_of c THERMAL_STATUS_FATAL = (80, 999).

Definition band (lo hi lo_time hi_time : Z) : thermal_status_configuration_t :=
  {| min := lo; max := hi; mintime := lo_time; maxtime := hi_time |}.

Definition ladder : thermal_object_configuration_t :=
  {| name := "ladder";
     state := {| at_normal := band 0 39 55 60; at_warning := band 40 59 30 35;
                 at_alert := band 60 79 10 15; at_fatal := band 80 999 2 5 |} |}.

(** Which side of the current band the temperature breaches: the test
    order of the [if ... else if] in the source. *)
Inductive direction : Type := Below | Above | Within.

Definition forces (c : thermal_object_configuration_t) (t : Z)
    (s : THERMAL_STATUS) : direction :=
  if t <? min (state_get (state c) s) then Below
  else if t >? max (state_get (state c) s) then Above
  else Within.

(** Monotonicity as the specification words it, on raw readings. *)
Definition monotone_in_raw_reading (r1 r2 : Z) (s : THERMAL_STATUS)
    (c : thermal_object_configuration_t) : Prop :=
  r1 < r2 ->
  forces c (convert_to_degrees_C r1) s = forces c (convert_to_degrees_C r2) s ->
  forces c (convert_to_degrees_C r1) s <> Within ->
  status_le (classify r1 s c) (classify r2 s c).

(** ** Tuning file ([DSME_THERMAL_TUNING]) *)

Definition INT_MIN : Z := - 2 ^ 31.
Definition INT_MAX : Z := 2 ^ 31 - 1.

(** Conversion to [int]: the low 32 bits, read in two's complement.
    This is also what [int] addition gives where it overflows. *)
Definition to_int (z : Z) : Z := (z + 2 ^ 31) mod 2 ^ 32 - 2 ^ 31.

(** [strtol] on a 64-bit [long]: out of range it returns [LONG_MAX] or
    [LONG_MIN]. *)
Definition saturate_long (z : Z) : Z := Z.max (- 2 ^ 63) (Z.min z (2 ^ 63 - 1)).

(** What [%d] stores for the number [z] it read: the number is converted
    as [strtol] does and the result is stored as an [int]. *)
Definition stored_by_d (z : Z) : Z := to_int (saturate_long z).

Definition isspace (ch : ascii) : bool :=
  let n := N_of_ascii ch in
  ((n =? 32) || ((9 <=? n) && (n <=? 13)))%N.

Definition isdigit (ch : ascii) : bool :=
  let n := N_of_ascii ch in
  ((48 <=? n) && (n <=? 57))%N.

Definition digit_value (ch : ascii) : Z := Z.of_N (N_of_ascii ch) - 48.

Fixpoint skip_space (f : string) : string :=
  match f with
  | String ch rest => if isspace ch then skip_space rest else f
  | EmptyString => f
  end.

(** The number a run of decimal digits denotes, and the rest of the
    stream; [scan_int] turns the number into the [int] that is stored. *)
Fixpoint scan_digits (acc : Z) (f : string) : Z * string :=
  match f with
  | String ch rest =>
      if isdigit ch then scan_digits (acc * 10 + digit_value ch) rest else (acc, f)
  | EmptyString => (acc, f)
  end.

Definition starts_with_digit (f : string) : bool :=
  match f with
  | String ch _ => isdigit ch
  | EmptyString => false
  end.

(** The conversion [%d]: white space is skipped, then an optional sign
    and at least one decimal digit are read; the value is the [int] that
    is stored ([stored_by_d]). *)
Definition scan_int (f : string) : option (Z * string) :=
  match skip_space f with
  | String "-" rest =>
      if starts_with_digit rest
      then let '(v, f') := scan_digits 0 rest in Some (stored_by_d (- v), f')
      else None
  | String "+" rest =>
      if starts_with_digit rest
      then let '(v, f') := scan_digits 0 rest in Some (stored_by_d v, f')
      else None
  | f0 =>
      if starts_with_digit f0
      then let '(v, f') := scan_digits 0 f0 in Some (stored_by_d v, f')
      else None
  end.

(** The literal [,] of the format: the next character must be a comma. *)
Definition scan_comma (f : string) : option string :=
  match f with
  | String "," rest => Some rest
  | _ => None
  end.

Definition EOF : Z := -1.

(** [fscanf(f, "%d, %d, %d", &a, &b, &c)]: the number of items assigned
    (or [EOF] when the input ends before the first one), the values
    assigned, in order, and the rest of the stream. *)
Definition fscanf_d_d_d (f : string) : Z * list Z * string :=
  match scan_int f with
  | None => ((if decide (skip_space f = EmptyString) then EOF else 0), [], f)
  | Some (a, f1) =>
      match scan_comma f1 with
      | None => (1, [a], f1)
      | Some f2 =>
          match scan_int (skip_space f2) with
          | None => (1, [a], f2)
          | Some (b, f3) =>
              match scan_comma f3 with
              | None => (2, [a; b], f3)
              | Some f4 =>
                  match scan_int (skip_space f4) with
                  | None => (2, [a; b], f4)
                  | Some (c, f5) => (3, [a; b; c], f5)
                  end
              end
          end
      end
  end.

(** What [fscanf] writes through [&state[i].min], [&state[i].max] and
    [&state[i].mintime]: only the items it assigned. *)
Definition store_scanned (v : thermal_status_configuration_t) (vals : list Z) :
    thermal_status_configuration_t :=
  match vals with
  | [] => v
  | [a] => {| min := a; max := max v; mintime := mintime v; maxtime := maxtime v |}
  | [a; b] => {| min := a; max := b; mintime := mintime v; maxtime := maxtime v |}
  | a :: b :: m :: _ => {| min := a; max := b; mintime := m; maxtime := maxtime v |}
  end.

Definition set_state (c : thermal_object_configuration_t) (i : THERMAL_STATUS)
    (v : thermal_status_configuration_t) : thermal_object_configuration_t :=
  {| name := name c; state := state_set (state c) i v |}.

Definition set_maxtime (v : thermal_status_configuration_t) (t : Z) :
    thermal_status_configuration_t :=
  {| min := min v; max := max v; mintime := mintime v; maxtime := t |}.

(** [for (i = 0; i < THERMAL_STATUS_COUNT; ++i)] *)
Definition all_statuses : list THERMAL_STATUS :=
  [THERMAL_STATUS_NORMAL; THERMAL_STATUS_WARNING; THERMAL_STATUS_ALERT; THERMAL_STATUS_FATAL].

(** The loop of [thermal_object_config_read] over the remaining indices:
    the [success] flag and [new_config] when the loop is left. *)
Fixpoint config_read_loop (indices : list THERMAL_STATUS)
    (new_config : thermal_object_configuration_t) (f : string) :
    bool * thermal_object_configuration_t :=
  match indices with
  | [] => (true, new_config)
  | i :: rest =>
      let '(n, vals, f') := fscanf_d_d_d f in
      let new_config :=
        set_state new_config i (store_scanned (state_get (state new_config) i) vals) in
      if negb (n =? 3) then (false, new_config)
      else
        let v := state_get (state new_config) i in
        let new_config :=
          set_state new_config i (set_maxtime v (to_int (mintime v + 10))) in
        config_read_loop rest new_config f'
  end.

(** Returns [success] and the value of [*config] afterwards. *)
Definition thermal_object_config_read (config : thermal_object_configuration_t)
    (f : string) : bool * thermal_object_configuration_t :=
  let '(success, new_config) := config_read_loop all_statuses config f in
  (success, if success then new_config else config).

Definition DSME_THERMAL_TUNING_CONF_PATH : string := "/etc/dsme/temp_".

(** The tuning file read record by record, as the interface describes
    it: [n] records [min, max, mintime], each one a successful
    [fscanf] of three items. *)
Definition tuning_line (f : string) : option (Z * Z * Z * string) :=
  match fscanf_d_d_d f with
  | (3, [a; b; m], f') => Some (a, b, m, f')
  | _ => None
  end.

Fixpoint tuning_lines (n : nat) (f : string) : option (list (Z * Z * Z)) :=
  match n with
  | O => Some []
  | S k =>
      match tuning_line f with
      | None => None
      | Some (a, b, m, f') =>
          match tuning_lines k f' with
          | None => None
          | Some ls => Some ((a, b, m) :: ls)
          end
      end
  end.

(** The band a record gives: [maxtime] is [mintime + 10], added in [int]. *)
Definition band_of_line (l : Z * Z * Z) : thermal_status_configuration_t :=
  let '(a, b, m) := l in
  {| min := a; max := b; mintime := m; maxtime := to_int (m + 10) |}.

(** *** The reload as the specification words it, by lines of text *)

Definition newline : ascii := "010"%char.






(** ** The supervisor state and what it sends *)

Inductive output : Type :=
| dbus_signal (payload : string)
    (* thermalmanager_state_change_ind, one string argument *)
| set_thermal_state (overheat : bool)
    (* DSM_MSGTYPE_SET_THERMAL_STATE, broadcast internally *)
| wait (min_time max_time pid : Z) (data : nat)
    (* DSM_MSGTYPE_WAIT, broadcast internally *)
| request_temperature (object : nat).
    (* call of conf->request_temperature(object, receive_temperature_response) *)

(** The file-scope statics of [thermalmanager.c] together with the
    memory the thermal objects live in. *)
Record manager : Type := {
  heap : list thermal_object_t;
  thermal_objects : list nat;
  current_status : THERMAL_STATUS;
  overheated : bool;
  is_in_ta_test : bool
}.

Definition initial : manager :=
  {| heap := []; thermal_objects := []; current_status := THERMAL_STATUS_NORMAL;
     overheated := false; is_in_ta_test := false |}.

Definition with_heap (m : manager) (h : list thermal_object_t) : manager :=
  {| heap := h; thermal_objects := thermal_objects m;
     current_status := current_status m; overheated := overheated m;
     is_in_ta_test := is_in_ta_test m |}.

Definition with_thermal_objects (m : manager) (l : list nat) : manager :=
  {| heap := heap m; thermal_objects := l;
     current_status := current_status m; overheated := overheated m;
     is_in_ta_test := is_in_ta_test m |}.

Definition with_current_status (m : manager) (s : THERMAL_STATUS) : manager :=
  {| heap := heap m; thermal_objects := thermal_objects m;
     current_status := s; overheated := overheated m;
     is_in_ta_test := is_in_ta_test m |}.

Definition with_overheated (m : manager) (b : bool) : manager :=
  {| heap := heap m; thermal_objects := thermal_objects m;
     current_status := current_status m; overheated := b;
     is_in_ta_test := is_in_ta_test m |}.

Definition with_is_in_ta_test (m : manager) (b : bool) : manager :=
  {| heap := heap m; thermal_objects := thermal_objects m;
     current_status := current_status m; overheated := overheated m;
     is_in_ta_test := b |}.

Definition with_status (o : thermal_object_t) (s : THERMAL_STATUS) : thermal_object_t :=
  {| conf := conf o; status := s; request_pending := request_pending o |}.

Definition with_request_pending (o : thermal_object_t) (b : bool) : thermal_object_t :=
  {| conf := conf o; status := status o; request_pending := b |}.

Definition with_conf (o : thermal_object_t) (c : thermal_object_configuration_t) :
    thermal_object_t :=
  {| conf := c; status := status o; request_pending := request_pending o |}.

(** A computation of the module: it reads and writes the statics, sends
    outputs, and is undefined ([None]) when it dereferences an address
    that holds no thermal object. *)
Definition M (A : Type) : Type := manager -> option (A * manager * list output).

Definition ret {A : Type} (a : A) : M A := fun m => Some (a, m, []).

Definition bind {A B : Type} (x : M A) (k : A -> M B) : M B :=
  fun m =>
    match x m with
    | None => None
    | Some (a, m1, out1) =>
        match k a m1 with
        | None => None
        | Some (b, m2, out2) => Some (b, m2, out1 ++ out2)
        end
    end.

Notation "x <- e1 ;; e2" := (bind e1 (fun x => e2))
  (at level 100, e1 at next level, right associativity).
Notation "e1 ;;; e2" := (bind e1 (fun _ => e2))
  (at level 100, right associativity).

Definition get : M manager := fun m => Some (m, m, []).
Definition modify (f : manager -> manager) : M unit := fun m => Some (tt, f m, []).
Definition send (o : output) : M unit := fun m => Some (tt, m, [o]).
Definition when (b : bool) (x : M unit) : M unit := if b then x else ret tt.

(** [*p] *)
Definition deref (p : nat) : M thermal_object_t :=
  fun m => match heap m !! p with
           | Some o => Some (o, m, [])
           | None => None
           end.

(** [*p = f( *p )] *)
Definition update (p : nat) (f : thermal_object_t -> thermal_object_t) : M unit :=
  o <- deref p ;;
  modify (fun m => with_heap m (<[p := f o]> (heap m))).

(** What the two [malloc] calls of [thermal_object_copy] return: whether
    each gave memory. *)
Record allocation : Type := {
  copy_object : bool;
  copy_config : bool
}.

(** What a sensor's [request_temperature] does when it is called: it may
    hand a reading to the callback before it returns ([delivered]), and
    it returns whether the request was started ([accepted]).  A sensor
    that answers later does so through [receive_temperature_response]
    called from the main loop ([temperature_response] below). *)
Record request_outcome : Type := {
  delivered : option Z;
  accepted : bool
}.

Definition thermal_status_name (s : THERMAL_STATUS) : string :=
  match s with
  | THERMAL_STATUS_NORMAL => "normal"
  | THERMAL_STATUS_WARNING => "warning"
  | THERMAL_STATUS_ALERT => "alert"
  | THERMAL_STATUS_FATAL => "fatal"
  end.

Definition current_status_name : M string :=
  m <- get ;; ret (thermal_status_name (current_status m)).

(** The [for] loop of [worst_current_thermal_object_status] from [node] on. *)
Fixpoint worst_from (node : list nat) (worst : THERMAL_STATUS) : M THERMAL_STATUS :=
  match node with
  | [] => ret worst
  | data :: next =>
      o <- deref data ;;
      worst_from next (if status_ltb worst (status o) then status o else worst)
  end.

Definition worst_current_thermal_object_status : M THERMAL_STATUS :=
  m <- get ;; worst_from (thermal_objects m) THERMAL_STATUS_NORMAL.

Definition send_overheat_status (overheat : bool) : M unit :=
  send (set_thermal_state overheat).

Definition send_thermal_indication : M unit :=
  (* first send an indication to D-Bus *)
  nm <- current_status_name ;;
  send (dbus_signal nm) ;;;
  (* then broadcast an indication internally *)
  m <- get ;;
  if status_eqb (current_status m) THERMAL_STATUS_FATAL then
    send_overheat_status true ;;;
    modify (fun m => with_overheated m true)
  else if overheated m then
    send_overheat_status false ;;;
    modify (fun m => with_overheated m false)
  else ret tt.

Section Supervisor.

(** Whether the module is built with [DSME_THERMAL_TUNING]. *)
Variable DSME_THERMAL_TUNING : bool.

(** [fopen(path, "r")]: the content of the file, if it can be opened. *)
Variable fopen : string -> option string.

(** [snprintf(name, 1024, "%s%s", ...)] keeps at most 1023 characters. *)
Definition thermal_tuning_file (thermal_object_name : string) : option string :=
  fopen (substring 0 1023 (DSME_THERMAL_TUNING_CONF_PATH +:+ thermal_object_name)).

Definition thermal_object_try_to_read_config (p : nat) : M unit :=
  o <- deref p ;;
  match thermal_tuning_file (name (conf o)) with
  | Some f =>
      let '(_, config) := thermal_object_config_read (conf o) f in
      update p (fun o => with_conf o config)
  | None => ret tt
  end.

Definition receive_temperature_response (p : nat) (temperature : Z) : M unit :=
  update p (fun o => with_request_pending o false) ;;;
  if temperature =? -1 then ret tt
  else
    o <- deref p ;;
    let previous_status := status o in
    m <- get ;;
    when (DSME_THERMAL_TUNING && is_in_ta_test m) (thermal_object_try_to_read_config p) ;;;
    o <- deref p ;;
    let new_status := classify temperature (status o) (conf o) in
    update p (fun o => with_status o new_status) ;;;
    when (negb (status_eqb new_status previous_status)) (
      (* see if the new status affects global thermal status *)
      m <- get ;;
      let previously_indicated_status := current_status m in
      worst <- worst_current_thermal_object_status ;;
      modify (fun m => with_current_status m worst) ;;;
      when (negb (status_eqb worst previously_indicated_status))
        send_thermal_indication).

Definition send_temperature_request (sensor : request_outcome) (p : nat) : M unit :=
  o <- deref p ;;
  if negb (request_pending o) then
    update p (fun o => with_request_pending o true) ;;;
    send (request_temperature p) ;;;
    match delivered sensor with
    | Some temperature => receive_temperature_response p temperature
    | None => ret tt
    end ;;;
    when (negb (accepted sensor)) (update p (fun o => with_request_pending o false))
  else ret tt.

Definition thermal_object_polling_interval_expired (sensor : request_outcome)
    (p : nat) : M unit :=
  send_temperature_request sensor p ;;;
  (* set up heartbeat service to poll the temperature of the object *)
  o <- deref p ;;
  let c := state_get (state (conf o)) (status o) in
  send (wait (mintime c) (maxtime c) 0 p).

(** [thermal_object_copy]: the address of the copy, placed at a fresh
    address, or [None] for the null pointer when one of the two [malloc]
    calls returned null (both are freed). *)
Definition thermal_object_copy (memory : allocation) (p : nat) : M (option nat) :=
  if copy_object memory && copy_config memory then
    o <- deref p ;;
    m <- get ;;
    modify (fun m => with_heap m (heap m ++ [o])) ;;;
    ret (Some (List.length (heap m)))
  else ret None.

(** Reading through the null pointer: the handler does not return. *)
Definition null_pointer_dereferenced : M unit := fun _ => None.

Definition dsme_register_thermal_object (memory : allocation) (sensor : request_outcome)
    (p : nat) : M unit :=
  q <- (if DSME_THERMAL_TUNING then thermal_object_copy memory p else ret (Some p)) ;;
  match q with
  | Some q =>
      (* add the thermal object to the list of know thermal objects *)
      modify (fun m => with_thermal_objects m (thermal_objects m ++ [q])) ;;;
      thermal_object_polling_interval_expired sensor q
  | None =>
      (* the null pointer is appended to the list and polled at once:
         send_temperature_request reads its request_pending *)
      null_pointer_dereferenced
  end.

Definition dsme_unregister_thermal_object (p : nat) : M unit := ret tt.

(** What the main loop delivers to the module. *)
Inductive event : Type :=
| register (p : nat) (sensor : request_outcome) (memory : allocation)
| unregister (p : nat)
| WAKEUP (data : nat) (sensor : request_outcome)
| SET_TA_TEST_MODE
| temperature_response (p : nat) (temperature : Z).

Definition deliver (e : event) : M unit :=
  match e with
  | register p sensor memory => dsme_register_thermal_object memory sensor p
  | unregister p => dsme_unregister_thermal_object p
  | WAKEUP data sensor => thermal_object_polling_interval_expired sensor data
  | SET_TA_TEST_MODE =>
      when DSME_THERMAL_TUNING (modify (fun m => with_is_in_ta_test m true))
  | temperature_response p temperature => receive_temperature_response p temperature
  end.

End Supervisor.

(** Every registered address holds a thermal object. *)
Definition registry_ok (m : manager) : bool :=
  forallb (fun p => bool_decide (is_Some (heap m !! p))) (thermal_objects m).

(** The statuses of the registered objects, in registry order. *)
Definition registered_statuses (m : manager) : list THERMAL_STATUS :=
  omap (fun p => status <$> heap m !! p) (thermal_objects m).

(** [w] is the greatest of [l] in the order of the enumeration, and
    Normal when there is none. *)
Definition is_worst_of (l : list THERMAL_STATUS) (w : THERMAL_STATUS) : Prop :=
  Forall (fun s => status_le s w) l /\
  (w ∈ l \/ (l = [] /\ w = THERMAL_STATUS_NORMAL)).

Definition is_wait (o : output) : bool :=
  match o with wait _ _ _ _ => true | _ => false end.

Definition is_request (o : output) : bool :=
  match o with request_temperature _ => true | _ => false end.

Definition is_overheat (o : output) : bool :=
  match o with set_thermal_state _ => true | _ => false end.

Definition is_signal (o : output) : bool :=
  match o with dbus_signal _ => true | _ => false end.

(** The configuration with the bands at [indices] replaced by the
    records [ls], in order. *)
Fixpoint with_lines (c : thermal_object_configuration_t) (indices : list THERMAL_STATUS)
    (ls : list (Z * Z * Z)) : thermal_object_configuration_t :=
  match indices, ls with
  | i :: indices', l :: ls' => with_lines (set_state c i (band_of_line l)) indices' ls'
  | _, _ => c
  end.

(** ** States and inputs used in the examples *)

Definition no_tuning_file : string -> option string := fun _ => None.

Definition sensor_at (s : THERMAL_STATUS) (pending : bool) : thermal_object_t :=
  {| conf := ladder; status := s; request_pending := pending |}.

Definition two_sensors : manager :=
  {| heap := [sensor_at THERMAL_STATUS_WARNING true; sensor_at THERMAL_STATUS_ALERT false];
     thermal_objects := [0%nat; 1%nat];
     current_status := THERMAL_STATUS_ALERT;
     overheated := false;
     is_in_ta_test := false |}.

(** Registration gets an object to poll: the object itself, or in a
    tuning build its copy when both allocations succeeded. *)
Definition copy_available (tuning : bool) (memory : allocation) : bool :=
  negb tuning || (copy_object memory && copy_config memory).

Definition enough_memory : allocation := {| copy_object := true; copy_config := true |}.
Definition no_memory : allocation := {| copy_object := true; copy_config := false |}.


(** A tuning file whose last mintime is [INT_MAX]. *)
Definition overflowing_tuning_file : string :=
  "0, 39, 60" +:+ String newline ("40, 59, 30" +:+ String newline
  ("60, 79, 10" +:+ String newline ("80, 999, 2147483647" +:+ String newline EmptyString))).

Definition answers_later : request_outcome := {| delivered := None; accepted := true |}.
Definition answers_now (t : Z) : request_outcome := {| delivered := Some t; accepted := true |}.

Definition good_tuning_file : string :=
  "0, 39, 60" +:+ String "010"%char ("40, 59, 30" +:+ String "010"%char
  ("60, 79, 10" +:+ String "010"%char ("80, 999, 2" +:+ String "010"%char EmptyString))).


(** The ordering guarantee as the specification words it: the completion of a
    reading, delivered from the main loop, sends exactly one wake request,
    with the window of the object's band after classification. *)
Definition rearmed_once_after_response (tuning : bool) (fopen : string -> option string)
    (p : nat) (t : Z) (m : manager) : Prop :=
  exists m' out o',
    deliver tuning fopen (temperature_response p t) m = Some (tt, m', out) /\
    heap m' !! p = Some o' /\
    List.filter is_wait out =
      [wait (mintime (state_get (state (conf o')) (status o')))
            (maxtime (state_get (state (conf o')) (status o'))) 0 p].

(** ** The status query, runs of the main loop, and what they keep *)

(** The D-Bus method [get_thermal_state]: the string appended to the reply. *)
Definition get_thermal_state : M string := current_status_name.

(** The events of a list delivered one after the other. *)
Fixpoint deliver_all (tuning : bool) (fopen : string -> option string)
    (es : list event) : M unit :=
  match es with
  | [] => ret tt
  | e :: es' => deliver tuning fopen e ;;; deliver_all tuning fopen es'
  end.

(** The static [overheated] of [send_thermal_indication] says whether the
    indicated status is Fatal. *)
Definition flag_consistent (m : manager) : Prop :=
  overheated m = status_eqb (current_status m) THERMAL_STATUS_FATAL.

(** The indicated status is the worst status of the registered objects. *)
Definition aggregate_consistent (m : manager) : Prop :=
  is_worst_of (registered_statuses m) (current_status m).

(** A registration is of an object that is still in Normal. *)
Definition registers_normal (e : event) (m : manager) : Prop :=
  match e with
  | register p _ _ => forall o, heap m !! p = Some o -> status o = THERMAL_STATUS_NORMAL
  | _ => True
  end.

(** The payload of the last status-change signal in [out], [prev] if
    there is none. *)
Fixpoint last_signal (prev : string) (out : list output) : string :=
  match out with
  | [] => prev
  | dbus_signal payload :: rest => last_signal payload rest
  | _ :: rest => last_signal prev rest
  end.

(** Every status-change signal in [out] carries another payload than the
    one before it ([prev] before the first). *)
Fixpoint signals_change (prev : string) (out : list output) : Prop :=
  match out with
  | [] => True
  | dbus_signal payload :: rest => payload <> prev /\ signals_change payload rest
  | _ :: rest => signals_change prev rest
  end.

(** The value of the last overheat broadcast in [out], [prev] if there
    is none. *)
Fixpoint last_overheat (prev : bool) (out : list output) : bool :=
  match out with
  | [] => prev
  | set_thermal_state b :: rest => last_overheat b rest
  | _ :: rest => last_overheat prev rest
  end.

(** Every overheat broadcast in [out] negates the one before it ([prev]
    before the first). *)
Fixpoint overheat_alternates (prev : bool) (out : list output) : Prop :=
  match out with
  | [] => True
  | set_thermal_state b :: rest => b = negb prev /\ overheat_alternates b rest
  | _ :: rest => overheat_alternates prev rest
  end.

(** A part of a handler that neither changes nor reports the aggregate. *)
Definition silent (m : manager) (out : list output) (m' : manager) : Prop :=
  registry_ok m' = true /\
  (forall q, is_Some (heap m !! q) -> is_Some (heap m' !! q)) /\
  current_status m' = current_status m /\
  overheated m' = overheated m /\
  List.filter is_signal out = [] /\
  List.filter is_overheat out = [] /\
  registered_statuses m' = registered_statuses m.

(** What one handler reports about the aggregate it leaves behind. *)
Definition reports (m : manager) (out : list output) (m' : manager) : Prop :=
  registry_ok m' = true /\
  (forall q, is_Some (heap m !! q) -> is_Some (heap m' !! q)) /\
  List.filter is_signal out =
    (if status_eqb (current_status m') (current_status m) then []
     else [dbus_signal (thermal_status_name (current_status m'))]) /\
  List.filter is_overheat out =
    (if status_eqb (current_status m') (current_status m) then []
     else if status_eqb (current_status m') THERMAL_STATUS_FATAL then [set_thermal_state true]
     else if overheated m then [set_thermal_state false] else []) /\
  overheated m' =
    (if status_eqb (current_status m') (current_status m) then overheated m
     else status_eqb (current_status m') THERMAL_STATUS_FATAL).

(** A handler that reports the aggregate and keeps it the worst status. *)
Definition step_ok (m : manager) (out : list output) (m' : manager) : Prop :=
  reports m out m' /\
  (aggregate_consistent m -> aggregate_consistent m').

(** The ranges tile the integers between Normal's min and Fatal's max:
    each band starts right after the one below it. *)
Definition tiles (c : thermal_object_configuration_t) : Prop :=
  (forall s, min (state_get (state c) s) <= max (state_get (state c) s)) /\
  (forall s, status_lt s THERMAL_STATUS_FATAL ->
     min (state_get (state c) (status_inc s)) = max (state_get (state c) s) + 1).

(** Bands that leave a gap between Normal and Warning. *)
Definition gapped : thermal_object_configuration_t :=
  {| name := "gapped";
     state := {| at_normal := band 0 10 55 60; at_warning := band 20 30 30 35;
                 at_alert := band 31 40 10 15; at_fatal := band 41 99 2 5 |} |}.

(** Bands that share their boundary values. *)
Definition shared : thermal_object_configuration_t :=
  {| name := "shared";
     state := {| at_normal := band 0 40 55 60; at_warning := band 40 60 30 35;
                 at_alert := band 60 80 10 15; at_fatal := band 80 999 2 5 |} |}.

(** The configuration in force when a reading is classified: the tuning
    file of the object, if the build and the mode ask for it and the file
    is there. *)
Definition conf_in_force (tuning : bool) (fopen : string -> option string)
    (m : manager) (o : thermal_object_t) : thermal_object_configuration_t :=
  if tuning && is_in_ta_test m then
    match thermal_tuning_file fopen (name (conf o)) with
    | Some f => snd (thermal_object_config_read (conf o) f)
    | None => conf o
    end
  else conf o.

Definition tuning_file_at (path content : string) : string -> option string :=
  fun q => if String.eqb q path then Some content else None.

Definition two_sensors_in_test : manager := with_is_in_ta_test two_sensors true.

(** A run on [two_sensors]: sensor 1 reads 95 at once, the pending
    reading of sensor 0 arrives as 10, sensor 1 reads 50 at once. *)
Definition busy_run : list event :=
  [WAKEUP 1 (answers_now 95); temperature_response 0 10; WAKEUP 1 (answers_now 50)].

End ThermalManager.

(** * Temp reaper ([modules/tempreaper.c]) *)

Module TempReaper.

(** What [fork] returns in dsme itself: the child's pid, or -1.  The
    child's side of [reaper_process_new] (priority, privileges, [execv])
    runs in another process and is not part of dsme's state. *)
Inductive fork_result : Type :=
| fork_failed
| forked (child : positive).

Definition pid_of (r : fork_result) : Z :=
  match r with
  | fork_failed => -1
  | forked child => Z.pos child
  end.

Inductive action : Type :=
| fork_rpdir                     (* fork(); the child execs RPDIR_PATH *)
| child_watch_add (pid : Z).     (* g_child_watch_add(pid, temp_reaper_finished, ...) *)

(** [DSM_MSGTYPE_DISK_SPACE]: the extra data is the mount path. *)
Record DSM_MSGTYPE_DISK_SPACE : Type := {
  mount_path : string
}.

Definition initial_reaper_pid : Z := -1.

Definition reaper_process_new (r : fork_result) : Z * list action :=
  (pid_of r, [fork_rpdir]).

Definition temp_reaper_finished (reaper_pid : Z) : Z := -1.

(** [strcmp(mount_path, "/") == 0] *)
Definition disk_space_running_out (msg : DSM_MSGTYPE_DISK_SPACE) : bool :=
  String.eqb (mount_path msg) "/".

(** The handler of [DSM_MSGTYPE_DISK_SPACE]: the new [reaper_pid] and
    what was done. *)
Definition handle_DISK_SPACE (reaper_pid : Z) (msg : DSM_MSGTYPE_DISK_SPACE)
    (r : fork_result) : Z * list action :=
  if negb (reaper_pid =? -1) then (reaper_pid, [])
  else if disk_space_running_out msg then
    let '(reaper_pid, done) := reaper_process_new r in
    if negb (reaper_pid =? -1)
    then (reaper_pid, done ++ [child_watch_add reaper_pid])
    else (reaper_pid, done)
  else (reaper_pid, []).

Definition forks (done : list action) : Prop := fork_rpdir ∈ done.

(** ** Shutdown, the life of the reaper, and the child's side *)

(** [module_fini]: the pids [kill(pid, SIGKILL)] is called with. *)
Definition module_fini (reaper_pid : Z) : list Z :=
  if negb (reaper_pid =? -1) then [reaper_pid] else [].

(** What the main loop delivers to the module: a disk-space message
    (with what [fork] will return), or the exit of the watched child,
    for which glib calls [temp_reaper_finished]. *)
Inductive reaper_event : Type :=
| DISK_SPACE (msg : DSM_MSGTYPE_DISK_SPACE) (r : fork_result)
| child_exited (pid status : Z).

Definition reaper_step (reaper_pid : Z) (e : reaper_event) : Z * list action :=
  match e with
  | DISK_SPACE msg r => handle_DISK_SPACE reaper_pid msg r
  | child_exited _ _ => (temp_reaper_finished reaper_pid, [])
  end.

Fixpoint reaper_run (reaper_pid : Z) (es : list reaper_event) : Z * list action :=
  match es with
  | [] => (reaper_pid, [])
  | e :: es' =>
      let '(pid1, done1) := reaper_step reaper_pid e in
      let '(pid2, done2) := reaper_run pid1 es' in
      (pid2, done1 ++ done2)
  end.

(** Whether a reaper is taken to be running. *)
Definition live (reaper_pid : Z) : nat := if reaper_pid =? -1 then 0%nat else 1%nat.

Definition is_watch (a : action) : bool :=
  match a with child_watch_add _ => true | _ => false end.

Definition is_exit (e : reaper_event) : bool :=
  match e with child_exited _ _ => true | _ => false end.

(** [struct passwd], the two fields the module reads. *)
Record passwd : Type := {
  pw_uid : Z;
  pw_gid : Z
}.

(** What the system answers to the child's calls. *)
Record child_world : Type := {
  setpriority_returns : Z;
  getpwnam_r_result : string -> option passwd;
  setgid_returns : Z -> Z;
  setuid_returns : Z -> Z;
  execv_fails : bool
}.

Inductive syscall : Type :=
| sys_setpriority (which who prio : Z)
| sys_getpwnam_r (login : string)
| sys_setgid (gid : Z)
| sys_setuid (uid : Z)
| sys_execv (path : string) (argv : list string)
| sys__exit (code : Z).

Definition PRIO_PROCESS : Z := 0.
Definition MIN_PRIORITY : Z := 5.
Definition EXIT_FAILURE : Z := 1.

(** [drop_privileges]: its result and the calls it makes. *)
Definition drop_privileges (w : child_world) : bool * list syscall :=
  let '(result, calls) :=
    match getpwnam_r_result w "user" with
    | Some pwd => (Some pwd, [sys_getpwnam_r "user"])
    | None => (getpwnam_r_result w "nobody", [sys_getpwnam_r "user"; sys_getpwnam_r "nobody"])
    end in
  match result with
  | None => (false, calls)
  | Some pwd =>
      if negb (setgid_returns w (pw_gid pwd) =? 0)
      then (false, calls ++ [sys_setgid (pw_gid pwd)])
      else if negb (setuid_returns w (pw_uid pwd) =? 0)
      then (false, calls ++ [sys_setgid (pw_gid pwd); sys_setuid (pw_uid pwd)])
      else (true, calls ++ [sys_setgid (pw_gid pwd); sys_setuid (pw_uid pwd)])
  end.

Section Child.

(** [DSME_SBIN_PATH "/rpdir"]; the directory is fixed when dsme is built. *)
Variable RPDIR_PATH : string.

(** The branch [pid == 0] of [reaper_process_new]: the calls of the
    child until it is replaced by rpdir or exits. *)
Definition reaper_child (w : child_world) : list syscall :=
  let argv := ["rpdir"; "/var/tmp"]%string in
  if negb (setpriority_returns w =? 0)
  then [sys_setpriority PRIO_PROCESS 0 MIN_PRIORITY; sys__exit EXIT_FAILURE]
  else
    let '(ok, calls) := drop_privileges w in
    if negb ok
    then sys_setpriority PRIO_PROCESS 0 MIN_PRIORITY :: calls ++ [sys__exit EXIT_FAILURE]
    else
      sys_setpriority PRIO_PROCESS 0 MIN_PRIORITY :: calls ++
      (sys_execv RPDIR_PATH argv :: if execv_fails w then [sys__exit EXIT_FAILURE] else []).

End Child.

(** The account whose identity the child takes: "user", or "nobody" when
    there is no "user". *)
Definition unprivileged_account (w : child_world) : option passwd :=
  match getpwnam_r_result w "user" with
  | Some pwd => Some pwd
  | None => getpwnam_r_result w "nobody"
  end.

Definition friendly_world : child_world :=
  {| setpriority_returns := 0;
     getpwnam_r_result := fun login =>
       if String.eqb login "nobody" then Some {| pw_uid := 65534; pw_gid := 65534 |} else None;
     setgid_returns := fun _ => 0;
     setuid_returns := fun _ => 0;
     execv_fails := false |}.

End TempReaper.

(** * Properties of the classifier *)

Import ThermalManager.

Lemma lower_status_unfold c t s :
  lower_status c t s =
  if status_ltb THERMAL_STATUS_NORMAL s && (t <? min (state_get (state c) s))
  then lower_status c t (status_dec s) else s.
Proof. funelim (lower_status c t s); rewrite e; reflexivity. Qed.

Lemma raise_status_unfold c t s :
  raise_status c t s =
  if status_ltb s THERMAL_STATUS_FATAL && (t >? max (state_get (state c) s))
  then raise_status c t (status_inc s) else s.
Proof. funelim (raise_status c t s); rewrite e; reflexivity. Qed.

Arguments lower_status : simpl never.
Arguments raise_status : simpl never.

(** Decide every comparison in the goal, then run the loops one turn at
    a time on a concrete band. *)
Ltac split_test :=
  match goal with
  | |- context [?a >? ?b] => rewrite (Z.gtb_ltb a b)
  | H : (?a <? ?b) = _ |- context [?a <? ?b] => rewrite H
  | |- context [?a <? ?b] => destruct (a <? b) eqn:?
  end; cbn.

Ltac turn :=
  first [rewrite lower_status_unfold | rewrite raise_status_unfold]; cbn.

Ltac tests_to_props :=
  repeat match goal with
         | H : (_ <? _) = true |- _ => apply Z.ltb_lt in H
         | H : (_ <? _) = false |- _ => apply Z.ltb_ge in H
         end.

Ltac walk := repeat first [split_test | turn]; tests_to_props.

Lemma lower_descends c t s : descends c t s (lower_status c t s).
Proof.
  funelim (lower_status c t s).
  - destruct (andb_prop _ _ e) as [Hs Ht].
    apply descends_step; [apply Z.ltb_lt, Hs | apply Z.ltb_lt, Ht | assumption].
  - apply descends_stop.
Qed.

Lemma raise_ascends c t s : ascends c t s (raise_status c t s).
Proof.
  funelim (raise_status c t s).
  - destruct (andb_prop _ _ e) as [Hs Ht].
    apply ascends_step; [apply Z.ltb_lt, Hs | apply Z.gtb_gt, Ht | assumption].
  - apply ascends_stop.
Qed.

Lemma descends_le c t s r : descends c t s r -> status_le r s.
Proof.
  induction 1 as [s | s r Hs Ht _ IH]; unfold status_le, status_lt in *; [lia |].
  destruct s; cbn in *; lia.
Qed.

Lemma ascends_ge c t s r : ascends c t s r -> status_le s r.
Proof.
  induction 1 as [s | s r Hs Ht _ IH]; unfold status_le, status_lt in *; [lia |].
  destruct s; cbn in *; lia.
Qed.

(** The lower loop leaves no further step down, the upper loop none up. *)
Lemma lower_status_stops c t s :
  let r := lower_status c t s in
  ~ (status_lt THERMAL_STATUS_NORMAL r /\ t < min (state_get (state c) r)).
Proof.
  funelim (lower_status c t s); [assumption |].
  cbn. intros [Hs Ht]. destruct (proj1 (andb_false_iff _ _) e) as [e' | e'].
  - apply Z.ltb_ge in e'. unfold status_lt in Hs. lia.
  - apply Z.ltb_ge in e'. lia.
Qed.

Lemma raise_status_stops c t s :
  let r := raise_status c t s in
  ~ (status_lt r THERMAL_STATUS_FATAL /\ t > max (state_get (state c) r)).
Proof.
  funelim (raise_status c t s); [assumption |].
  cbn. intros [Hs Ht]. destruct (proj1 (andb_false_iff _ _) e) as [e' | e'].
  - apply Z.ltb_ge in e'. unfold status_lt in Hs. lia.
  - rewrite Z.gtb_ltb in e'. apply Z.ltb_ge in e'. lia.
Qed.

Lemma contiguous_facts c :
  contiguous_increasing c ->
  let a := state c in
  (min (at_normal a) <= max (at_normal a) /\ min (at_warning a) <= max (at_warning a) /\
   min (at_alert a) <= max (at_alert a) /\ min (at_fatal a) <= max (at_fatal a)) /\
  (max (at_normal a) <= min (at_warning a) <= max (at_normal a) + 1 /\
   max (at_warning a) <= min (at_alert a) <= max (at_warning a) + 1 /\
   max (at_alert a) <= min (at_fatal a) <= max (at_alert a) + 1).
Proof.
  intros [Hne Hadj]. cbn.
  pose proof (Hne THERMAL_STATUS_NORMAL). pose proof (Hne THERMAL_STATUS_WARNING).
  pose proof (Hne THERMAL_STATUS_ALERT). pose proof (Hne THERMAL_STATUS_FATAL).
  pose proof (Hadj THERMAL_STATUS_NORMAL). pose proof (Hadj THERMAL_STATUS_WARNING).
  pose proof (Hadj THERMAL_STATUS_ALERT).
  unfold status_lt in *. cbn in *. lia.
Qed.

(** With contiguous ranges the band the source computes is at rest. *)
Lemma new_status_settled c t s :
  contiguous_increasing c -> settled c t (new_thermal_object_status c t s).
Proof.
  intros Hc. apply contiguous_facts in Hc. cbn in Hc.
  unfold new_thermal_object_status, settled, status_lt.
  destruct s; cbn; walk; cbn; lia.
Qed.

(** With contiguous ranges the [if ... else if] of the source is the same
    as running the lower loop and then the upper loop. *)
Lemma new_status_in_sequence c t s :
  contiguous_increasing c ->
  new_thermal_object_status c t s = ratchet_in_sequence c t s.
Proof.
  intros Hc. apply contiguous_facts in Hc. cbn in Hc.
  unfold new_thermal_object_status, ratchet_in_sequence.
  destruct s; cbn; walk; try reflexivity; lia.
Qed.

(** Without that assumption the two readings of the walk differ. *)
Lemma in_sequence_needs_contiguity :
  let c := {| name := "odd";
              state := {| at_normal := band 10 5 1 1; at_warning := band 6 20 1 1;
                          at_alert := band 21 30 1 1; at_fatal := band 31 99 1 1 |} |} in
  new_thermal_object_status c 7 THERMAL_STATUS_NORMAL = THERMAL_STATUS_NORMAL /\
  ratchet_in_sequence c 7 THERMAL_STATUS_NORMAL = THERMAL_STATUS_WARNING.
Proof. split; vm_compute; reflexivity. Qed.

Lemma new_status_monotone c t1 t2 s :
  t1 <= t2 ->
  status_le (new_thermal_object_status c t1 s) (new_thermal_object_status c t2 s).
Proof.
  intros Ht. unfold new_thermal_object_status, status_le.
  destruct s; cbn; walk; cbn; lia.
Qed.

Lemma quot_1000_bounds z : 1000 < z -> 1 <= z ÷ 1000 /\ 1000 * (z ÷ 1000) <= z < 1000 * (z ÷ 1000) + 1000.
Proof.
  intros Hz.
  pose proof (Z.quot_rem' z 1000) as Hq.
  pose proof (Z.rem_bound_pos z 1000 ltac:(lia) ltac:(lia)) as Hr.
  lia.
Qed.

(** The closed form of the unit heuristics over the four ranges of raw
    readings. *)
Lemma convert_by_range raw :
  convert_to_degrees_C raw =
  if raw <=? 223 then raw
  else if raw <=? 1000 then raw - 273
  else if raw <? 224000 then raw ÷ 1000
  else raw ÷ 1000 - 273.
Proof.
  unfold convert_to_degrees_C. rewrite !Z.gtb_ltb.
  destruct (Z.ltb_spec 1000 raw) as [Hbig | Hsmall].
  - pose proof (quot_1000_bounds raw Hbig).
    destruct (Z.ltb_spec 223 (raw ÷ 1000)), (Z.leb_spec raw 223),
      (Z.leb_spec raw 1000), (Z.ltb_spec raw 224000); try reflexivity; lia.
  - destruct (Z.ltb_spec 223 raw), (Z.leb_spec raw 223), (Z.leb_spec raw 1000);
      try reflexivity; lia.
Qed.

(** The conversion of an [int] is an [int]: no overflow in the source. *)
Lemma convert_in_int_range raw :
  - 2 ^ 31 <= raw <= 2 ^ 31 - 1 ->
  - 2 ^ 31 <= convert_to_degrees_C raw <= 2 ^ 31 - 1.
Proof.
  intros Hraw. rewrite convert_by_range.
  destruct (Z.leb_spec raw 223); [lia |].
  destruct (Z.leb_spec raw 1000); [lia |].
  pose proof (quot_1000_bounds raw ltac:(lia)).
  destruct (Z.ltb_spec raw 224000); lia.
Qed.

Lemma ladder_has_ladder_ranges : has_ladder_ranges ladder.
Proof. repeat split. Qed.

Lemma ladder_ranges_contiguous c : has_ladder_ranges c -> contiguous_increasing c.
Proof.
  unfold has_ladder_ranges, range_of. intros (H0 & H1 & H2 & H3).
  inversion H0. inversion H1. inversion H2. inversion H3.
  split; intros s; destruct s; unfold status_lt; cbn; lia.
Qed.

(** C1. From the current band the classifier walks down while the
    converted temperature is below the band's min and the band is above
    Normal, or up while it is above the band's max and the band is below
    Fatal, one band at a time and only toward the breached side; with
    contiguous increasing ranges the band it returns admits no further
    step.  With the ranges [0,39], [40,59], [60,79], [80,999] a reading of
    95 takes Normal to Fatal in one call. *)
Theorem classify_is_ratchet raw cur c :
  contiguous_increasing c ->
  let t := convert_to_degrees_C raw in
  let r := classify raw cur c in
  (t < min (state_get (state c) cur) -> descends c t cur r) /\
  (t > max (state_get (state c) cur) -> ascends c t cur r) /\
  (min (state_get (state c) cur) <= t <= max (state_get (state c) cur) -> r = cur) /\
  settled c t r /\
  r = ratchet_in_sequence c t cur /\
  (has_ladder_ranges c -> classify 95 THERMAL_STATUS_NORMAL c = THERMAL_STATUS_FATAL).
Proof.
  intros Hc t r. subst r. unfold classify. fold t.
  pose proof (contiguous_facts c Hc) as Hf. cbn in Hf.
  repeat split.
  - intros Hlo. unfold new_thermal_object_status.
    apply Z.ltb_lt in Hlo. rewrite Hlo. apply lower_descends.
  - intros Hhi. unfold new_thermal_object_status.
    destruct Hc as [Hne _]. specialize (Hne cur).
    destruct (Z.ltb_spec t (min (state_get (state c) cur))) as [Hlo | Hlo]; [lia |].
    apply Z.gtb_gt in Hhi. rewrite Hhi. apply raise_ascends.
  - intros [Hlo Hhi]. unfold new_thermal_object_status.
    apply Z.ltb_ge in Hlo. rewrite Hlo.
    rewrite Z.gtb_ltb. apply Z.ltb_ge in Hhi. rewrite Hhi. reflexivity.
  - apply new_status_settled, Hc.
  - apply new_status_settled, Hc.
  - apply new_status_in_sequence, Hc.
  - unfold has_ladder_ranges, range_of. intros (H0 & H1 & H2 & H3).
    inversion H0 as [[Ha Hb]]. inversion H1 as [[Hd He]]. inversion H2 as [[Hg Hh]].
    unfold new_thermal_object_status. cbn. rewrite Ha, Hb. cbn.
    rewrite raise_status_unfold. cbn. rewrite Hb. cbn.
    rewrite raise_status_unfold. cbn. rewrite He. cbn.
    rewrite raise_status_unfold. cbn. rewrite Hh. cbn.
    rewrite raise_status_unfold. reflexivity.
Qed.

Lemma classify_is_ratchet_witness :
  contiguous_increasing ladder /\
  descends ladder 30 THERMAL_STATUS_FATAL (classify 30 THERMAL_STATUS_FATAL ladder) /\
  ascends ladder 95 THERMAL_STATUS_NORMAL (classify 95 THERMAL_STATUS_NORMAL ladder) /\
  classify 95 THERMAL_STATUS_NORMAL ladder = THERMAL_STATUS_FATAL.
Proof.
  assert (Hc : contiguous_increasing ladder)
    by (split; intros s; destruct s; unfold status_lt; cbn; lia).
  split; [exact Hc |].
  split; [| split].
  - apply (proj1 (classify_is_ratchet 30 THERMAL_STATUS_FATAL ladder Hc)). cbn. lia.
  - apply (proj1 (proj2 (classify_is_ratchet 95 THERMAL_STATUS_NORMAL ladder Hc))). cbn. lia.
  - apply (proj2 (proj2 (proj2 (proj2 (proj2
            (classify_is_ratchet 95 THERMAL_STATUS_NORMAL ladder Hc)))))).
    repeat split.
Defined.

(** C2 as stated fails: on the ladder, from Normal, the raw reading
    1500000 is classified Fatal and the raw reading 1500 Normal. *)
Lemma classify_1500000_differs_from_1500 :
  classify 1500000 THERMAL_STATUS_NORMAL ladder = THERMAL_STATUS_FATAL /\
  classify 1500 THERMAL_STATUS_NORMAL ladder = THERMAL_STATUS_NORMAL /\
  classify 1500000 THERMAL_STATUS_NORMAL ladder <> classify 1500 THERMAL_STATUS_NORMAL ladder.
Proof. repeat split; vm_compute; congruence. Qed.

(** C2, amended. The unit heuristics are two rules, applied in this
    order and each at most once: a raw reading above 1000 is divided by
    1000 (truncating), and a value above 223 after that step is lowered
    by 273.  So the raw reading 1500000 is classified as the temperature
    1227 (1500 after the one division, minus 273) and the raw reading
    1500 as the temperature 1, for every starting band and
    configuration. *)
Theorem convert_two_rules_once raw cur c :
  convert_to_degrees_C raw =
    (if raw <=? 223 then raw
     else if raw <=? 1000 then raw - 273
     else if raw <? 224000 then raw ÷ 1000
     else raw ÷ 1000 - 273) /\
  classify raw cur c = new_thermal_object_status c (convert_to_degrees_C raw) cur /\
  classify 1500000 cur c = new_thermal_object_status c 1227 cur /\
  classify 1500 cur c = new_thermal_object_status c 1 cur /\
  classify 300 cur c = new_thermal_object_status c 27 cur.
Proof.
  split; [apply convert_by_range |]. repeat split.
Qed.

(** C9 as stated fails: the raw readings 223 < 313 both breach the
    Normal band of the ladder upward, yet 223 (taken as degrees) ends in
    Fatal and 313 (taken as kelvin, 40 degrees) in Warning. *)
Lemma raw_monotonicity_fails :
  ~ monotone_in_raw_reading 223 313 THERMAL_STATUS_NORMAL ladder.
Proof.
  unfold monotone_in_raw_reading. intros H.
  assert (Hle : status_le (classify 223 THERMAL_STATUS_NORMAL ladder)
                          (classify 313 THERMAL_STATUS_NORMAL ladder)).
  { apply H; [lia | vm_compute; reflexivity | vm_compute; discriminate]. }
  vm_compute in Hle. apply Hle. reflexivity.
Qed.

(** C9, amended. Classification is monotone in the converted
    temperature: for two raw readings whose temperatures after the unit
    heuristics satisfy t1 < t2 and which breach the same side of the same
    starting band, the band for the second is at least the band for the
    first. *)
Theorem classify_monotone_in_degrees r1 r2 s c :
  convert_to_degrees_C r1 < convert_to_degrees_C r2 ->
  forces c (convert_to_degrees_C r1) s = forces c (convert_to_degrees_C r2) s ->
  status_le (classify r1 s c) (classify r2 s c).
Proof.
  intros Hlt _. unfold classify. apply new_status_monotone. lia.
Qed.

Lemma classify_monotone_in_degrees_witness :
  status_le (classify 313 THERMAL_STATUS_NORMAL ladder)
            (classify 223 THERMAL_STATUS_NORMAL ladder).
Proof.
  apply (classify_monotone_in_degrees 313 223 THERMAL_STATUS_NORMAL ladder).
  - vm_compute. reflexivity.
  - vm_compute. reflexivity.
Defined.

(** * Properties of the supervisor *)

Arguments classify : simpl never.

Section SupervisorFacts.

Variable DSME_THERMAL_TUNING : bool.
Variable fopen : string -> option string.

Local Abbreviation receive := (receive_temperature_response DSME_THERMAL_TUNING fopen).
Local Abbreviation poll := (thermal_object_polling_interval_expired DSME_THERMAL_TUNING fopen).

Lemma bind_Some {A B : Type} (x : M A) (k : A -> M B) m a m1 out1 :
  x m = Some (a, m1, out1) ->
  bind x k m =
  match k a m1 with
  | None => None
  | Some (b, m2, out2) => Some (b, m2, out1 ++ out2)
  end.
Proof. intros H. unfold bind. rewrite H. reflexivity. Qed.

Lemma deref_Some p o m : heap m !! p = Some o -> deref p m = Some (o, m, []).
Proof. intros H. unfold deref. rewrite H. reflexivity. Qed.

Lemma update_Some p f o m :
  heap m !! p = Some o ->
  update p f m = Some (tt, with_heap m (<[p := f o]> (heap m)), []).
Proof. intros H. unfold update. rewrite (bind_Some _ _ _ _ _ _ (deref_Some _ _ _ H)). reflexivity. Qed.

Lemma lookup_updated (h : list thermal_object_t) p o o' :
  h !! p = Some o -> <[p := o']> h !! p = Some o'.
Proof. intros H. apply list_lookup_insert_eq. eapply lookup_lt_Some, H. Qed.

Lemma receive_failure p o m :
  heap m !! p = Some o ->
  receive p (-1) m =
  Some (tt, with_heap m (<[p := with_request_pending o false]> (heap m)), []).
Proof.
  intros H. unfold receive_temperature_response.
  rewrite (bind_Some _ _ _ _ _ _ (update_Some _ _ _ _ H)). reflexivity.
Qed.


Lemma worst_from_ok m node w :
  forallb (fun p => bool_decide (is_Some (heap m !! p))) node = true ->
  exists w',
    worst_from node w m = Some (w', m, []) /\
    status_le w w' /\
    Forall (fun s => status_le s w') (omap (fun p => status <$> heap m !! p) node) /\
    (w' = w \/ w' ∈ omap (fun p => status <$> heap m !! p) node).
Proof.
  revert w. induction node as [| data next IH]; intros w Hok.
  - exists w. cbn. unfold status_le. repeat split; [lia | constructor | now left].
  - cbn in Hok. apply andb_prop in Hok as [Hd Hn].
    apply bool_decide_eq_true in Hd as [o Ho].
    destruct (IH (if status_ltb w (status o) then status o else w) Hn)
      as (w' & Hrun & Hle & Hall & Hin).
    exists w'. cbn [worst_from omap list_omap].
    rewrite (bind_Some _ _ _ _ _ _ (deref_Some _ _ _ Ho)), Hrun, Ho. cbn.
    unfold status_le, status_ltb in *.
    destruct (Z.ltb_spec (status_ord w) (status_ord (status o))).
    + repeat split; [lia | constructor; [lia | exact Hall] |].
      destruct Hin as [-> | Hin]; right; [left | right; exact Hin].
    + repeat split; [lia | constructor; [lia | exact Hall] |].
      destruct Hin as [-> | Hin]; [now left | right; right; exact Hin].
Qed.


Lemma status_le_normal s : status_le s THERMAL_STATUS_NORMAL -> s = THERMAL_STATUS_NORMAL.
Proof. unfold status_le. destruct s; cbn; intros; try reflexivity; lia. Qed.

Lemma status_eqb_eq a b : status_eqb a b = true <-> a = b.
Proof.
  unfold status_eqb. rewrite Z.eqb_eq.
  split; [| intros ->; reflexivity]. destruct a, b; cbn; intros; try reflexivity; lia.
Qed.

Lemma status_eqb_neq a b : status_eqb a b = false <-> a <> b.
Proof.
  rewrite <- status_eqb_eq. destruct (status_eqb a b); split; congruence.
Qed.

Lemma worst_current_ok m :
  registry_ok m = true ->
  exists w,
    worst_current_thermal_object_status m = Some (w, m, []) /\
    is_worst_of (registered_statuses m) w.
Proof.
  intros Hok.
  destruct (worst_from_ok m (thermal_objects m) THERMAL_STATUS_NORMAL Hok)
    as (w & Hrun & _ & Hall & Hin).
  exists w. split.
  - unfold worst_current_thermal_object_status, bind, get. rewrite Hrun. reflexivity.
  - split; [exact Hall |]. unfold registered_statuses.
    destruct Hin as [-> | Hin]; [| now left].
    destruct (omap _ (thermal_objects m)) as [| s l]; [now right |].
    left. inversion Hall as [| ? ? Hs _]; subst.
    apply status_le_normal in Hs. subst. constructor.
Qed.

Lemma registry_ok_insert m p o' :
  registry_ok m = true -> registry_ok (with_heap m (<[p := o']> (heap m))) = true.
Proof.
  unfold registry_ok. cbn. intros H.
  apply forallb_forall. intros q Hq.
  eapply forallb_forall in H; [| exact Hq].
  apply bool_decide_eq_true. apply bool_decide_eq_true in H.
  apply lookup_lt_is_Some. rewrite length_insert. apply lookup_lt_is_Some, H.
Qed.

Lemma with_heap_same m o p :
  heap m !! p = Some o -> with_heap m (<[p := with_conf o (conf o)]> (heap m)) = m.
Proof.
  intros H. replace (with_conf o (conf o)) with o by (destruct o; reflexivity).
  rewrite list_insert_id by exact H. destruct m; reflexivity.
Qed.

(** The optional reload leaves everything but the object's
    configuration as it was, and that is the configuration in force. *)
Lemma read_config_exact p o m m0 :
  heap m !! p = Some o -> is_in_ta_test m = is_in_ta_test m0 ->
  when (DSME_THERMAL_TUNING && is_in_ta_test m)
       (thermal_object_try_to_read_config fopen p) m =
  Some (tt, with_heap m (<[p := with_conf o (conf_in_force DSME_THERMAL_TUNING fopen m0 o)]>
                           (heap m)), []).
Proof.
  intros Ho Hta. unfold conf_in_force. rewrite <- Hta.
  destruct (DSME_THERMAL_TUNING && is_in_ta_test m); cbn [when].
  - unfold thermal_object_try_to_read_config.
    rewrite (bind_Some _ _ _ _ _ _ (deref_Some _ _ _ Ho)).
    destruct (thermal_tuning_file fopen (name (conf o))) as [f |].
    + destruct (thermal_object_config_read (conf o) f) as [ok c'].
      rewrite (update_Some _ _ _ _ Ho). reflexivity.
    + rewrite (with_heap_same _ _ _ Ho). reflexivity.
  - rewrite (with_heap_same _ _ _ Ho). reflexivity.
Qed.

(** What [send_thermal_indication] does, by cases. *)
Lemma send_thermal_indication_run m :
  send_thermal_indication m =
  Some (tt,
        (if status_eqb (current_status m) THERMAL_STATUS_FATAL then with_overheated m true
         else if overheated m then with_overheated m false else m),
        dbus_signal (thermal_status_name (current_status m)) ::
        (if status_eqb (current_status m) THERMAL_STATUS_FATAL then [set_thermal_state true]
         else if overheated m then [set_thermal_state false] else [])).
Proof.
  unfold send_thermal_indication, current_status_name, send_overheat_status,
    bind, get, ret, send, modify. cbn.
  destruct (status_eqb (current_status m) THERMAL_STATUS_FATAL); [reflexivity |].
  destruct (overheated m); reflexivity.
Qed.

(** The run of [receive_temperature_response] on a reading, in full. *)
Lemma receive_run p o m t :
  t <> -1 -> heap m !! p = Some o -> registry_ok m = true ->
  let c' := conf_in_force DSME_THERMAL_TUNING fopen m o in
  exists w,
    let new_status := classify t (status o) c' in
    let o' := {| conf := c'; status := new_status; request_pending := false |} in
    let m1 := with_heap m (<[p := o']> (heap m)) in
    let m2 := with_current_status m1 w in
    is_worst_of (registered_statuses m1) w /\
    receive p t m =
    Some (tt,
          (if status_eqb new_status (status o) then m1
           else if status_eqb w (current_status m) then m2
           else if status_eqb w THERMAL_STATUS_FATAL then with_overheated m2 true
           else if overheated m then with_overheated m2 false else m2),
          (if status_eqb new_status (status o) then []
           else if status_eqb w (current_status m) then []
           else dbus_signal (thermal_status_name w) ::
                (if status_eqb w THERMAL_STATUS_FATAL then [set_thermal_state true]
                 else if overheated m then [set_thermal_state false] else []))).
Proof.
  intros Ht Ho Hok c'.
  set (o1 := with_request_pending o false).
  set (m_a := with_heap m (<[p := o1]> (heap m))).
  assert (Ho1 : heap m_a !! p = Some o1) by (eapply lookup_updated, Ho).
  pose proof (read_config_exact p o1 m_a m Ho1 eq_refl) as Hread.
  change (conf_in_force DSME_THERMAL_TUNING fopen m o1) with c' in Hread.
  set (new_status := classify t (status o) c').
  set (o' := {| conf := c'; status := new_status; request_pending := false |}).
  set (m1 := with_heap m (<[p := o']> (heap m))).
  destruct (worst_current_ok m1 (registry_ok_insert m p o' Hok)) as (w & Hw & Hworst).
  exists w. split; [exact Hworst |].
  unfold receive_temperature_response.
  rewrite (bind_Some _ _ _ _ _ _ (update_Some _ _ _ _ Ho)). fold o1 m_a.
  destruct (Z.eqb_spec t (-1)) as [| _]; [contradiction |].
  rewrite (bind_Some _ _ _ _ _ _ (deref_Some _ _ _ Ho1)).
  rewrite (bind_Some _ _ _ _ _ _ (eq_refl : get m_a = Some (m_a, m_a, []))).
  rewrite (bind_Some _ _ _ _ _ _ Hread).
  set (m_b := with_heap m_a (<[p := with_conf o1 c']> (heap m_a))).
  assert (Ho2 : heap m_b !! p = Some (with_conf o1 c')) by (eapply lookup_updated, Ho1).
  rewrite (bind_Some _ _ _ _ _ _ (deref_Some _ _ _ Ho2)).
  rewrite (bind_Some _ _ _ _ _ _ (update_Some _ _ _ _ Ho2)).
  assert (Hm1 : with_heap m_b
                  (<[p := with_status (with_conf o1 c')
                            (classify t (status (with_conf o1 c')) (conf (with_conf o1 c')))]>
                     (heap m_b)) = m1).
  { unfold m_b, m_a, m1. cbn. rewrite !list_insert_insert_eq. reflexivity. }
  rewrite Hm1. cbn [status conf with_conf with_request_pending o1].
  subst new_status.
  destruct (status_eqb (classify t (status o) c') (status o)); cbn; [reflexivity |].
  rewrite (bind_Some _ _ _ _ _ _ Hw).
  unfold bind at 1. unfold modify at 1.
  destruct (status_eqb w (current_status m)); cbn -[send_thermal_indication];
    [reflexivity |].
  rewrite send_thermal_indication_run. cbn.
  destruct (status_eqb w THERMAL_STATUS_FATAL); [reflexivity |].
  destruct (overheated m); reflexivity.
Qed.


Ltac status_props :=
  repeat match goal with
         | H : status_eqb _ _ = true |- _ => apply status_eqb_eq in H
         | H : status_eqb _ _ = false |- _ => apply status_eqb_neq in H
         end.

Ltac signal_iff :=
  let H := fresh in
  intros payload; rewrite ?elem_of_cons, ?elem_of_nil;
  split;
  [ intros H; repeat (destruct H as [H | H]);
    try discriminate; try contradiction; inversion H; auto
  | intros [? ->]; auto; contradiction ].

(** C3. A reading other than -1 gives the object the status that
    [classify] computes from the reading, the status before and the
    configuration in force; no other object and no registration is
    touched. When that changes the object's status, the aggregate is
    recomputed as the greatest status of the registered objects, and the
    status-change signal, carrying the lowercase name of the new
    aggregate ("normal", "warning", "alert" or "fatal"), is sent if and
    only if the aggregate differs from the one indicated before; when
    the object's status stays, the aggregate stays; without a change of
    the aggregate nothing is sent. *)
Theorem aggregate_recomputed_and_signalled p o m t :
  t <> -1 -> heap m !! p = Some o -> registry_ok m = true ->
  exists m' out o',
    receive_temperature_response DSME_THERMAL_TUNING fopen p t m = Some (tt, m', out) /\
    heap m' !! p = Some o' /\
    status o' = classify t (status o) (conf_in_force DSME_THERMAL_TUNING fopen m o) /\
    (forall q, q <> p -> heap m' !! q = heap m !! q) /\
    thermal_objects m' = thermal_objects m /\
    (status o' <> status o ->
       is_worst_of (registered_statuses m') (current_status m') /\
       (forall payload,
          dbus_signal payload ∈ out <->
          current_status m' <> current_status m /\
          payload = thermal_status_name (current_status m'))) /\
    (status o' = status o -> current_status m' = current_status m) /\
    (current_status m' = current_status m -> out = []) /\
    (List.length (List.filter is_signal out) <= 1)%nat /\
    (forall payload,
       dbus_signal payload ∈ out ->
       payload = match current_status m' with
                 | THERMAL_STATUS_NORMAL => "normal"
                 | THERMAL_STATUS_WARNING => "warning"
                 | THERMAL_STATUS_ALERT => "alert"
                 | THERMAL_STATUS_FATAL => "fatal"
                 end).
Proof.
  intros Ht Ho Hok.
  destruct (receive_run p o m t Ht Ho Hok) as (w & Hworst & Hrun).
  cbn zeta in Hworst, Hrun.
  set (c' := conf_in_force DSME_THERMAL_TUNING fopen m o) in *.
  set (o' := {| conf := c'; status := classify t (status o) c'; request_pending := false |})
    in *.
  rewrite Hrun. clear Hrun.
  assert (Hname : forall payload,
             payload = thermal_status_name w ->
             payload = match w with
                       | THERMAL_STATUS_NORMAL => "normal"
                       | THERMAL_STATUS_WARNING => "warning"
                       | THERMAL_STATUS_ALERT => "alert"
                       | THERMAL_STATUS_FATAL => "fatal"
                       end)
    by (intros payload ->; destruct w; reflexivity).
  assert (Hframe : forall q, q <> p -> <[p := o']> (heap m) !! q = heap m !! q)
    by (intros q Hq; apply list_lookup_insert_ne; congruence).
  destruct (status_eqb (classify t (status o) c') (status o)) eqn:Hs;
    [| destruct (status_eqb w (current_status m)) eqn:Hw;
       [| destruct (status_eqb w THERMAL_STATUS_FATAL);
          [| destruct (overheated m)]]];
    status_props;
    eexists _, _, o'; (split; [reflexivity |]);
    (split; [cbn; eapply lookup_updated, Ho |]);
    (split; [reflexivity |]);
    (split; [exact Hframe |]);
    (split; [reflexivity |]); cbn.
  - split; [intros Hne; contradiction |].
    split; [reflexivity |]. split; [reflexivity |]. split; [lia |].
    intros payload Hin. apply elem_of_nil in Hin. contradiction.
  - split; [split; [exact Hworst | signal_iff] |].
    split; [intros He; contradiction |]. split; [reflexivity |]. split; [lia |].
    intros payload Hin. apply elem_of_nil in Hin. contradiction.
  - split; [split; [exact Hworst | signal_iff] |].
    split; [intros He; contradiction |]. split; [intros He; congruence |].
    split; [lia |].
    intros payload Hin. apply Hname.
    rewrite !elem_of_cons, elem_of_nil in Hin.
    destruct Hin as [Hin | [Hin | []]]; [congruence | discriminate].
  - split; [split; [exact Hworst | signal_iff] |].
    split; [intros He; contradiction |]. split; [intros He; congruence |].
    split; [lia |].
    intros payload Hin. apply Hname.
    rewrite !elem_of_cons, elem_of_nil in Hin.
    destruct Hin as [Hin | [Hin | []]]; [congruence | discriminate].
  - split; [split; [exact Hworst | signal_iff] |].
    split; [intros He; contradiction |]. split; [intros He; congruence |].
    split; [lia |].
    intros payload Hin. apply Hname.
    rewrite !elem_of_cons, elem_of_nil in Hin.
    destruct Hin as [Hin | []]; congruence.
Qed.

(** C4. The aggregate that the overheat broadcast follows is the one the
    handler recomputes: the greatest status of the registered objects
    whenever the reading changed the object's status, as [classify]
    gives it, and the aggregate of before otherwise. The broadcast
    follows its changes: a change to Fatal sends overheated=true and
    sets the flag, whatever the flag was; a change to another band with
    the flag set sends overheated=false and clears it; a change to
    another band with the flag clear sends neither; and without a change
    of the aggregate nothing is broadcast. *)
Theorem overheat_follows_aggregate p o m t :
  t <> -1 -> heap m !! p = Some o -> registry_ok m = true ->
  exists m' out o',
    receive_temperature_response DSME_THERMAL_TUNING fopen p t m = Some (tt, m', out) /\
    heap m' !! p = Some o' /\
    status o' = classify t (status o) (conf_in_force DSME_THERMAL_TUNING fopen m o) /\
    (status o' <> status o ->
       is_worst_of (registered_statuses m') (current_status m')) /\
    (status o' = status o -> current_status m' = current_status m) /\
    (current_status m' <> current_status m ->
       (current_status m' = THERMAL_STATUS_FATAL ->
          List.filter is_overheat out = [set_thermal_state true] /\ overheated m' = true) /\
       (current_status m' <> THERMAL_STATUS_FATAL -> overheated m = true ->
          List.filter is_overheat out = [set_thermal_state false] /\ overheated m' = false) /\
       (current_status m' <> THERMAL_STATUS_FATAL -> overheated m = false ->
          List.filter is_overheat out = [] /\ overheated m' = false)) /\
    (current_status m' = current_status m ->
       List.filter is_overheat out = [] /\ overheated m' = overheated m).
Proof.
  intros Ht Ho Hok.
  destruct (receive_run p o m t Ht Ho Hok) as (w & Hworst & Hrun).
  cbn zeta in Hworst, Hrun.
  set (c' := conf_in_force DSME_THERMAL_TUNING fopen m o) in *.
  set (o' := {| conf := c'; status := classify t (status o) c'; request_pending := false |})
    in *.
  rewrite Hrun. clear Hrun.
  destruct (status_eqb (classify t (status o) c') (status o)) eqn:Hs;
    [| destruct (status_eqb w (current_status m)) eqn:Hw;
       [| destruct (status_eqb w THERMAL_STATUS_FATAL) eqn:Hf;
          [| destruct (overheated m) eqn:Hov]]];
    status_props; eexists _, _, o'; (split; [reflexivity |]);
    (split; [cbn; eapply lookup_updated, Ho |]);
    (split; [reflexivity |]); cbn; rewrite ?Hov.
  - split; [intros Hne; contradiction |]. split; [reflexivity |].
    split; [intros Hne; contradiction | intros _; split; reflexivity].
  - split; [intros _; exact Hworst |]. split; [intros He; contradiction |].
    split; [intros Hne; contradiction | intros _; split; reflexivity].
  - split; [intros _; exact Hworst |]. split; [intros He; contradiction |].
    split; [intros _ | intros He; congruence].
    repeat split; intros; try reflexivity; contradiction.
  - split; [intros _; exact Hworst |]. split; [intros He; contradiction |].
    split; [intros _ | intros He; congruence].
    repeat split; intros; try reflexivity; try contradiction; discriminate.
  - split; [intros _; exact Hworst |]. split; [intros He; contradiction |].
    split; [intros _ | intros He; congruence].
    repeat split; intros; try reflexivity; try contradiction; discriminate.
Qed.

(** A request to a sensor that answers later, or refuses. *)
Lemma send_request_answered_later sensor p o m :
  heap m !! p = Some o -> request_pending o = false -> delivered sensor = None ->
  send_temperature_request DSME_THERMAL_TUNING fopen sensor p m =
  Some (tt, with_heap m (<[p := with_request_pending o (accepted sensor)]> (heap m)),
        [request_temperature p]).
Proof.
  intros Ho Hp Hlater. unfold send_temperature_request.
  rewrite (bind_Some _ _ _ _ _ _ (deref_Some _ _ _ Ho)), Hp. cbn [negb].
  rewrite (bind_Some _ _ _ _ _ _ (update_Some _ _ _ _ Ho)), Hlater.
  set (o1 := with_request_pending o true).
  set (m1 := with_heap m (<[p := o1]> (heap m))).
  assert (Ho1 : heap m1 !! p = Some o1) by (eapply lookup_updated, Ho).
  destruct (accepted sensor); cbn [negb when]; unfold bind, send, ret; [reflexivity |].
  rewrite (update_Some _ _ _ _ Ho1). cbn. rewrite list_insert_insert_eq. reflexivity.
Qed.

(** C6. On the failure value -1 the reading is not classified: the
    object keeps its status and configuration, the aggregate and the
    overheat flag stay as they were, nothing is sent, every other object
    is untouched, and the object's request_pending flag is false
    afterwards, so that the next wake-up asks the sensor again. *)
Theorem failed_reading_changes_nothing p o m :
  heap m !! p = Some o ->
  exists m',
    receive_temperature_response DSME_THERMAL_TUNING fopen p (-1) m = Some (tt, m', []) /\
    heap m' !! p = Some {| conf := conf o; status := status o; request_pending := false |} /\
    (forall q, q <> p -> heap m' !! q = heap m !! q) /\
    thermal_objects m' = thermal_objects m /\
    current_status m' = current_status m /\
    overheated m' = overheated m /\
    (forall sensor, delivered sensor = None ->
       exists m'',
         deliver DSME_THERMAL_TUNING fopen (WAKEUP p sensor) m' =
           Some (tt, m'',
                 [request_temperature p;
                  wait (mintime (state_get (state (conf o)) (status o)))
                       (maxtime (state_get (state (conf o)) (status o))) 0 p])).
Proof.
  intros Ho.
  set (o1 := with_request_pending o false).
  set (m1 := with_heap m (<[p := o1]> (heap m))).
  assert (Ho1 : heap m1 !! p = Some o1) by (eapply lookup_updated, Ho).
  exists m1. split; [apply receive_failure, Ho |].
  split; [exact Ho1 |].
  split; [intros q Hq; apply list_lookup_insert_ne; congruence |].
  repeat split.
  intros sensor Hlater. cbn [deliver].
  unfold thermal_object_polling_interval_expired.
  rewrite (bind_Some _ _ _ _ _ _
             (send_request_answered_later sensor p o1 m1 Ho1 eq_refl Hlater)).
  set (o2 := with_request_pending o1 (accepted sensor)).
  set (m2 := with_heap m1 (<[p := o2]> (heap m1))).
  assert (Ho2 : heap m2 !! p = Some o2) by (eapply lookup_updated, Ho1).
  rewrite (bind_Some _ _ _ _ _ _ (deref_Some _ _ _ Ho2)).
  exists m2. reflexivity.
Qed.


(** Whatever the reading, [receive_temperature_response] returns, asks
    for no wake, and leaves the object not pending. *)
Lemma receive_total p o m t :
  heap m !! p = Some o -> registry_ok m = true ->
  exists m' out o',
    receive p t m = Some (tt, m', out) /\
    heap m' !! p = Some o' /\
    registry_ok m' = true /\
    List.filter is_wait out = [] /\
    List.filter is_request out = [] /\
    request_pending o' = false /\
    (t <> -1 -> status o' = classify t (status o) (conf o')) /\
    (t = -1 -> status o' = status o).
Proof.
  intros Ho Hok. destruct (Z.eq_dec t (-1)) as [-> | Ht].
  - eexists _, _, _. split; [apply receive_failure, Ho |].
    split; [cbn; eapply lookup_updated, Ho |].
    split; [apply registry_ok_insert, Hok |].
    repeat split; intros; try reflexivity; contradiction.
  - destruct (receive_run p o m t Ht Ho Hok) as (w & _ & Hrun).
    cbn zeta in Hrun. rewrite Hrun. clear Hrun.
    set (c' := conf_in_force DSME_THERMAL_TUNING fopen m o).
    set (o' := {| conf := c'; status := classify t (status o) c'; request_pending := false |}).
    pose proof (registry_ok_insert m p o' Hok) as Hok'.
    destruct (status_eqb (classify t (status o) c') (status o));
      [| destruct (status_eqb w (current_status m));
         [| destruct (status_eqb w THERMAL_STATUS_FATAL); [| destruct (overheated m)]]];
      eexists _, _, o'; (split; [reflexivity |]);
      (split; [cbn; eapply lookup_updated, Ho |]);
      (split; [exact Hok' |]);
      repeat split; intros; try reflexivity; contradiction.
Qed.

Lemma send_request_while_pending sensor p o m :
  heap m !! p = Some o -> request_pending o = true ->
  send_temperature_request DSME_THERMAL_TUNING fopen sensor p m = Some (tt, m, []).
Proof.
  intros Ho Hp. unfold send_temperature_request.
  rewrite (bind_Some _ _ _ _ _ _ (deref_Some _ _ _ Ho)), Hp. reflexivity.
Qed.

(** A poll request returns, and the object is there afterwards with the
    status the reading gave it, if one was delivered during the call. *)
Lemma send_request_total sensor p o m :
  heap m !! p = Some o -> registry_ok m = true ->
  exists m' out o',
    send_temperature_request DSME_THERMAL_TUNING fopen sensor p m = Some (tt, m', out) /\
    heap m' !! p = Some o' /\
    List.filter is_wait out = [] /\
    (forall t, request_pending o = false -> delivered sensor = Some t -> t <> -1 ->
       status o' = classify t (status o) (conf o')) /\
    (delivered sensor = None -> status o' = status o).
Proof.
  intros Ho Hok. destruct (request_pending o) eqn:Hp.
  - exists m, [], o. rewrite (send_request_while_pending _ _ _ _ Ho Hp).
    repeat split; [exact Ho | intros; discriminate].
  - unfold send_temperature_request.
    rewrite (bind_Some _ _ _ _ _ _ (deref_Some _ _ _ Ho)), Hp. cbn [negb].
    rewrite (bind_Some _ _ _ _ _ _ (update_Some _ _ _ _ Ho)).
    set (o1 := with_request_pending o true).
    set (m1 := with_heap m (<[p := o1]> (heap m))).
    assert (Ho1 : heap m1 !! p = Some o1) by (eapply lookup_updated, Ho).
    assert (Hok1 : registry_ok m1 = true) by (apply registry_ok_insert, Hok).
    rewrite (bind_Some _ _ _ _ _ _ (eq_refl : send (request_temperature p) m1 = Some (tt, m1, [request_temperature p]))).
    destruct (delivered sensor) as [t |].
    + destruct (receive_total p o1 m1 t Ho1 Hok1)
        as (m2 & out2 & o2 & Hrun & Ho2 & _ & Hnw & _ & _ & Hst & _).
      rewrite (bind_Some _ _ _ _ _ _ Hrun).
      destruct (accepted sensor); cbn [negb when].
      * exists m2, ([] ++ [request_temperature p] ++ out2 ++ []), o2. cbn.
        rewrite app_nil_r.
        repeat split; [exact Ho2 | exact Hnw | | intros; discriminate].
        intros t' _ [= <-] Ht. apply Hst, Ht.
      * rewrite (update_Some _ _ _ _ Ho2).
        exists (with_heap m2 (<[p := with_request_pending o2 false]> (heap m2))),
          ([] ++ [request_temperature p] ++ out2 ++ []), (with_request_pending o2 false).
        cbn. rewrite app_nil_r.
        repeat split; [eapply lookup_updated, Ho2 | exact Hnw | | intros; discriminate].
        intros t' _ [= <-] Ht. apply Hst, Ht.
    + rewrite (bind_Some _ _ _ _ _ _ (eq_refl : ret tt m1 = Some (tt, m1, []))).
      destruct (accepted sensor); cbn [negb when].
      * exists m1, [request_temperature p], o1.
        repeat split; [exact Ho1 | intros; discriminate].
      * rewrite (update_Some _ _ _ _ Ho1).
        eexists _, _, _. split; [reflexivity |].
        split; [cbn; eapply lookup_updated, Ho1 |].
        repeat split. intros; discriminate.
Qed.


(** A poll ends with exactly one wake request, for the band the object
    is in at that point. *)
Lemma poll_total sensor p o m :
  heap m !! p = Some o -> registry_ok m = true ->
  exists m' out o' before,
    poll sensor p m = Some (tt, m', out) /\
    heap m' !! p = Some o' /\
    out = before ++ [wait (mintime (state_get (state (conf o')) (status o')))
                          (maxtime (state_get (state (conf o')) (status o'))) 0 p] /\
    List.filter is_wait before = [] /\
    (forall t, request_pending o = false -> delivered sensor = Some t -> t <> -1 ->
       status o' = classify t (status o) (conf o')) /\
    (delivered sensor = None -> status o' = status o).
Proof.
  intros Ho Hok.
  destruct (send_request_total sensor p o m Ho Hok)
    as (m' & out & o' & Hrun & Ho' & Hnw & Hsync & Hasync).
  exists m', (out ++ [] ++ [wait (mintime (state_get (state (conf o')) (status o')))
                            (maxtime (state_get (state (conf o')) (status o'))) 0 p]),
    o', out.
  split; [| repeat split; assumption].
  unfold thermal_object_polling_interval_expired.
  rewrite (bind_Some _ _ _ _ _ _ Hrun).
  rewrite (bind_Some _ _ _ _ _ _ (deref_Some _ _ _ Ho')). reflexivity.
Qed.

Ltac poll_cases :=
  match goal with
  | |- context [thermal_object_polling_interval_expired ?a ?b ?c ?d ?e] =>
      destruct (thermal_object_polling_interval_expired a b c d e) as [[[[] ?] ?] |]
  end; reflexivity.

(** Registration appends the object (its private copy in a tuning
    build, when the copy could be allocated) to the registry and polls
    it. *)
Lemma register_run memory sensor p o m :
  heap m !! p = Some o ->
  copy_available DSME_THERMAL_TUNING memory = true ->
  let q := if DSME_THERMAL_TUNING then List.length (heap m) else p in
  let m_reg :=
    with_thermal_objects
      (if DSME_THERMAL_TUNING then with_heap m (heap m ++ [o]) else m)
      (thermal_objects m ++ [q]) in
  heap m_reg !! q = Some o /\
  (registry_ok m = true -> registry_ok m_reg = true) /\
  dsme_register_thermal_object DSME_THERMAL_TUNING fopen memory sensor p m =
  match poll sensor q m_reg with
  | Some (b, m2, out2) => Some (b, m2, out2)
  | None => None
  end.
Proof.
  intros Ho Hmem.
  unfold dsme_register_thermal_object, thermal_object_copy, registry_ok.
  unfold copy_available in Hmem.
  destruct DSME_THERMAL_TUNING; cbn zeta.
  - cbn in Hmem. rewrite Hmem.
    split; [cbn; apply list_lookup_middle; reflexivity |]. split.
    + cbn. intros Hok. rewrite forallb_app. cbn.
      apply andb_true_intro. split.
      * apply forallb_forall. intros x Hx. eapply forallb_forall in Hok; [| exact Hx].
        apply bool_decide_eq_true. apply bool_decide_eq_true in Hok.
        destruct Hok as [ox Hox]. exists ox. apply lookup_app_l_Some, Hox.
      * rewrite andb_true_r. apply bool_decide_eq_true.
        exists o. apply list_lookup_middle. reflexivity.
    + unfold bind, deref, get, modify, ret. rewrite Ho.
      cbn -[thermal_object_polling_interval_expired]. poll_cases.
  - split; [exact Ho |]. split.
    + cbn. intros Hok. rewrite forallb_app. cbn.
      apply andb_true_intro. split; [exact Hok |].
      rewrite andb_true_r. apply bool_decide_eq_true. exists o. exact Ho.
    + unfold bind, modify, ret.
      cbn -[thermal_object_polling_interval_expired]. poll_cases.
Qed.

(** In a tuning build, registration with a failed allocation polls the
    null pointer and does not return. *)
Lemma register_without_copy memory sensor p m :
  copy_available DSME_THERMAL_TUNING memory = false ->
  dsme_register_thermal_object DSME_THERMAL_TUNING fopen memory sensor p m = None.
Proof.
  unfold copy_available, dsme_register_thermal_object, thermal_object_copy.
  destruct DSME_THERMAL_TUNING; cbn [negb orb]; [| discriminate].
  intros ->. reflexivity.
Qed.

(** C5, amended. It is the poll, not the completion of a reading, that
    re-arms the timer: every poll of an object, on a wake-up and at
    registration, ends in the same call with exactly one wake request
    carrying the mintime/maxtime of the band the object is in at that
    point, which is the band after classification when the sensor
    delivered its reading during the request. At registration the object
    polled is the object itself or, in a tuning build, its copy; when
    the copy cannot be allocated the null pointer is polled and the call
    does not return. A reading delivered to
    [receive_temperature_response] from the main loop sends no wake
    request. *)
Theorem rearm_follows_poll sensor p o m :
  heap m !! p = Some o -> registry_ok m = true ->
  (exists m' out o' before,
     deliver DSME_THERMAL_TUNING fopen (WAKEUP p sensor) m = Some (tt, m', out) /\
     heap m' !! p = Some o' /\
     out = before ++ [wait (mintime (state_get (state (conf o')) (status o')))
                           (maxtime (state_get (state (conf o')) (status o'))) 0 p] /\
     List.filter is_wait before = [] /\
     (forall t, request_pending o = false -> delivered sensor = Some t -> t <> -1 ->
        status o' = classify t (status o) (conf o')) /\
     (delivered sensor = None -> status o' = status o)) /\
  (forall memory,
     copy_available DSME_THERMAL_TUNING memory = true ->
     exists m' out o' before,
       let q := if DSME_THERMAL_TUNING then List.length (heap m) else p in
       deliver DSME_THERMAL_TUNING fopen (register p sensor memory) m = Some (tt, m', out) /\
       heap m' !! q = Some o' /\
       out = before ++ [wait (mintime (state_get (state (conf o')) (status o')))
                             (maxtime (state_get (state (conf o')) (status o'))) 0 q] /\
       List.filter is_wait before = [] /\
       (forall t, request_pending o = false -> delivered sensor = Some t -> t <> -1 ->
          status o' = classify t (status o) (conf o')) /\
       (delivered sensor = None -> status o' = status o)) /\
  (forall memory,
     copy_available DSME_THERMAL_TUNING memory = false ->
     deliver DSME_THERMAL_TUNING fopen (register p sensor memory) m = None) /\
  (forall t, exists m' out,
     deliver DSME_THERMAL_TUNING fopen (temperature_response p t) m = Some (tt, m', out) /\
     List.filter is_wait out = []).
Proof.
  intros Ho Hok. split; [| split; [| split]].
  - apply (poll_total sensor p o m Ho Hok).
  - intros memory Hmem.
    destruct (register_run memory sensor p o m Ho Hmem) as (Hq & Hreg & Hrun).
    destruct (poll_total sensor _ o _ Hq (Hreg Hok))
      as (m' & out & o' & before & Hpoll & Ho' & Hout & Hnw & Hsync & Hasync).
    exists m', out, o', before. cbn zeta. cbn [deliver].
    rewrite Hrun, Hpoll. repeat split; assumption.
  - intros memory Hmem. cbn [deliver]. apply register_without_copy, Hmem.
  - intros t. destruct (receive_total p o m t Ho Hok)
      as (m' & out & o' & Hrun & _ & _ & Hnw & _).
    exists m', out. split; assumption.
Qed.

(** C7. A poll of an object whose request is still pending does not call
    the sensor and changes nothing: neither on a wake-up, where the
    module's state stays as it is and only the wake request is sent, nor
    at registration, where the polled object (the object itself or, in a
    tuning build, its copy) keeps its flag and its status; a
    registration whose copy cannot be allocated polls the null pointer
    and does not return. *)
Theorem pending_request_is_not_repeated sensor p o m :
  heap m !! p = Some o -> request_pending o = true ->
  send_temperature_request DSME_THERMAL_TUNING fopen sensor p m = Some (tt, m, []) /\
  deliver DSME_THERMAL_TUNING fopen (WAKEUP p sensor) m =
    Some (tt, m, [wait (mintime (state_get (state (conf o)) (status o)))
                       (maxtime (state_get (state (conf o)) (status o))) 0 p]) /\
  (forall memory,
     copy_available DSME_THERMAL_TUNING memory = true ->
     let q := if DSME_THERMAL_TUNING then List.length (heap m) else p in
     deliver DSME_THERMAL_TUNING fopen (register p sensor memory) m =
       Some (tt,
             with_thermal_objects
               (if DSME_THERMAL_TUNING then with_heap m (heap m ++ [o]) else m)
               (thermal_objects m ++ [q]),
             [wait (mintime (state_get (state (conf o)) (status o)))
                   (maxtime (state_get (state (conf o)) (status o))) 0 q])) /\
  (forall memory,
     copy_available DSME_THERMAL_TUNING memory = false ->
     deliver DSME_THERMAL_TUNING fopen (register p sensor memory) m = None).
Proof.
  intros Ho Hp.
  assert (Hpoll : forall q m0, heap m0 !! q = Some o ->
            poll sensor q m0 =
            Some (tt, m0, [wait (mintime (state_get (state (conf o)) (status o)))
                                (maxtime (state_get (state (conf o)) (status o))) 0 q])).
  { intros q m0 Hq. unfold thermal_object_polling_interval_expired.
    rewrite (bind_Some _ _ _ _ _ _ (send_request_while_pending sensor q o m0 Hq Hp)).
    rewrite (bind_Some _ _ _ _ _ _ (deref_Some _ _ _ Hq)). reflexivity. }
  split; [apply (send_request_while_pending sensor p o m Ho Hp) |].
  split; [apply Hpoll, Ho |].
  split.
  - intros memory Hmem.
    destruct (register_run memory sensor p o m Ho Hmem) as (Hq & _ & Hrun).
    cbn zeta. cbn [deliver]. rewrite Hrun, (Hpoll _ _ Hq). reflexivity.
  - intros memory Hmem. cbn [deliver]. apply register_without_copy, Hmem.
Qed.

End SupervisorFacts.

(** ** The supervisor theorems at work on [two_sensors] *)

Lemma aggregate_recomputed_and_signalled_witness :
  95 <> -1 /\
  heap two_sensors !! 0%nat = Some (sensor_at THERMAL_STATUS_WARNING true) /\
  registry_ok two_sensors = true /\
  exists m' out o',
    receive_temperature_response false no_tuning_file 0 95 two_sensors = Some (tt, m', out) /\
    heap m' !! 0%nat = Some o' /\
    status o' = THERMAL_STATUS_FATAL /\
    status o' <> status (sensor_at THERMAL_STATUS_WARNING true) /\
    heap m' !! 1%nat = Some (sensor_at THERMAL_STATUS_ALERT false) /\
    registered_statuses m' = [THERMAL_STATUS_FATAL; THERMAL_STATUS_ALERT] /\
    is_worst_of (registered_statuses m') (current_status m') /\
    current_status two_sensors = THERMAL_STATUS_ALERT /\
    current_status m' = THERMAL_STATUS_FATAL /\
    (forall payload, dbus_signal payload ∈ out <-> payload = "fatal") /\
    out = [dbus_signal "fatal"; set_thermal_state true].
Proof.
  split; [lia |]. split; [reflexivity |]. split; [reflexivity |].
  destruct (aggregate_recomputed_and_signalled false no_tuning_file 0
              (sensor_at THERMAL_STATUS_WARNING true) two_sensors 95)
    as (m' & out & o' & Hrun & Ho' & Hst & Hframe & Hreg & Hchg & _ & _ & _ & _);
    [lia | reflexivity | reflexivity |].
  exists m', out, o'.
  assert (Hfatal : status o' = THERMAL_STATUS_FATAL) by (rewrite Hst; reflexivity).
  assert (Hne : status o' <> status (sensor_at THERMAL_STATUS_WARNING true))
    by (rewrite Hfatal; discriminate).
  destruct (Hchg Hne) as [Hworst Hiff].
  assert (H1 : heap m' !! 1%nat = Some (sensor_at THERMAL_STATUS_ALERT false))
    by (rewrite Hframe by lia; reflexivity).
  assert (Hsts : registered_statuses m' = [THERMAL_STATUS_FATAL; THERMAL_STATUS_ALERT]).
  { unfold registered_statuses. rewrite Hreg. cbn. rewrite Ho', H1. cbn.
    rewrite Hfatal. reflexivity. }
  assert (Hcur : current_status m' = THERMAL_STATUS_FATAL).
  { rewrite Hsts in Hworst. destruct Hworst as [Hle _].
    apply Forall_cons in Hle. destruct Hle as [Hge _].
    unfold status_le in Hge.
    destruct (current_status m'); cbn in Hge; solve [reflexivity | lia]. }
  assert (Hsig : forall payload, dbus_signal payload ∈ out <-> payload = "fatal").
  { intros payload. rewrite Hiff, Hcur. cbn. split; [intros [_ ->]; reflexivity |].
    intros ->. split; [discriminate | reflexivity]. }
  repeat (split; [assumption || reflexivity |]).
  vm_compute in Hrun. congruence.
Defined.

Lemma overheat_follows_aggregate_witness :
  exists m' out o',
    receive_temperature_response false no_tuning_file 0 95 two_sensors = Some (tt, m', out) /\
    heap m' !! 0%nat = Some o' /\
    status o' = THERMAL_STATUS_FATAL /\
    status o' <> status (sensor_at THERMAL_STATUS_WARNING true) /\
    is_worst_of (registered_statuses m') (current_status m') /\
    current_status two_sensors = THERMAL_STATUS_ALERT /\
    current_status m' = THERMAL_STATUS_FATAL /\
    overheated two_sensors = false /\
    List.filter is_overheat out = [set_thermal_state true] /\
    overheated m' = true.
Proof.
  destruct (overheat_follows_aggregate false no_tuning_file 0
              (sensor_at THERMAL_STATUS_WARNING true) two_sensors 95)
    as (m' & out & o' & Hrun & Ho' & Hst & Hworst & _ & Hchg & _);
    [lia | reflexivity | reflexivity |].
  exists m', out, o'.
  assert (Hfatal : status o' = THERMAL_STATUS_FATAL) by (rewrite Hst; reflexivity).
  assert (Hne : status o' <> status (sensor_at THERMAL_STATUS_WARNING true))
    by (rewrite Hfatal; discriminate).
  specialize (Hworst Hne).
  assert (Hcur : current_status m' = THERMAL_STATUS_FATAL).
  { destruct Hworst as [Hle _].
    assert (Hin : THERMAL_STATUS_FATAL ∈ registered_statuses m').
    { pose proof Hrun as Hrun'. vm_compute in Hrun'.
      injection Hrun' as <- _. cbn. rewrite elem_of_cons. auto. }
    pose proof (proj1 (Forall_forall _ _) Hle _ Hin) as Hge.
    unfold status_le in Hge.
    destruct (current_status m'); cbn in Hge; solve [reflexivity | lia]. }
  assert (Hcur0 : current_status m' <> current_status two_sensors)
    by (rewrite Hcur; discriminate).
  destruct (Hchg Hcur0) as (Hto_fatal & _).
  destruct (Hto_fatal Hcur) as [Hout Hflag].
  repeat (split; [assumption || reflexivity |]). exact Hflag.
Defined.

Lemma failed_reading_changes_nothing_witness :
  exists m',
    receive_temperature_response false no_tuning_file 0 (-1) two_sensors = Some (tt, m', []) /\
    heap m' !! 0%nat = Some (sensor_at THERMAL_STATUS_WARNING false) /\
    (forall q, q <> 0%nat -> heap m' !! q = heap two_sensors !! q) /\
    thermal_objects m' = thermal_objects two_sensors /\
    current_status m' = current_status two_sensors /\
    overheated m' = overheated two_sensors /\
    (forall sensor, delivered sensor = None ->
       exists m'',
         deliver false no_tuning_file (WAKEUP 0 sensor) m' =
           Some (tt, m'', [request_temperature 0; wait 30 35 0 0])).
Proof.
  apply (failed_reading_changes_nothing false no_tuning_file 0
           (sensor_at THERMAL_STATUS_WARNING true) two_sensors).
  reflexivity.
Defined.

Lemma pending_request_is_not_repeated_witness :
  send_temperature_request false no_tuning_file (answers_now 95) 0 two_sensors =
    Some (tt, two_sensors, []) /\
  deliver false no_tuning_file (WAKEUP 0 (answers_now 95)) two_sensors =
    Some (tt, two_sensors, [wait 30 35 0 0]) /\
  deliver true no_tuning_file (register 0 (answers_now 95) enough_memory) two_sensors =
    Some (tt,
          {| heap := [sensor_at THERMAL_STATUS_WARNING true; sensor_at THERMAL_STATUS_ALERT false;
                      sensor_at THERMAL_STATUS_WARNING true];
             thermal_objects := [0%nat; 1%nat; 2%nat];
             current_status := THERMAL_STATUS_ALERT;
             overheated := false;
             is_in_ta_test := false |},
          [wait 30 35 0 2]) /\
  deliver true no_tuning_file (register 0 (answers_now 95) no_memory) two_sensors = None.
Proof.
  destruct (pending_request_is_not_repeated false no_tuning_file (answers_now 95) 0
              (sensor_at THERMAL_STATUS_WARNING true) two_sensors)
    as (Hsend & Hwake & _); [reflexivity | reflexivity |].
  destruct (pending_request_is_not_repeated true no_tuning_file (answers_now 95) 0
              (sensor_at THERMAL_STATUS_WARNING true) two_sensors)
    as (_ & _ & Hreg & Hnull); [reflexivity | reflexivity |].
  split; [exact Hsend |]. split; [exact Hwake |].
  split; [apply (Hreg enough_memory eq_refl) | apply (Hnull no_memory eq_refl)].
Defined.

(** C5 as stated fails: sensor 0 of [two_sensors] has a request pending;
    when its reading 95 arrives from the main loop the object goes to
    Fatal and the indications are sent, but no wake request is. *)
Lemma response_sends_no_wake :
  deliver false no_tuning_file (temperature_response 0 95) two_sensors =
    Some (tt,
          {| heap := [sensor_at THERMAL_STATUS_FATAL false; sensor_at THERMAL_STATUS_ALERT false];
             thermal_objects := [0%nat; 1%nat];
             current_status := THERMAL_STATUS_FATAL;
             overheated := true;
             is_in_ta_test := false |},
          [dbus_signal "fatal"; set_thermal_state true]) /\
  ~ rearmed_once_after_response false no_tuning_file 0 95 two_sensors.
Proof.
  assert (Hrun : deliver false no_tuning_file (temperature_response 0 95) two_sensors =
    Some (tt,
          {| heap := [sensor_at THERMAL_STATUS_FATAL false; sensor_at THERMAL_STATUS_ALERT false];
             thermal_objects := [0%nat; 1%nat];
             current_status := THERMAL_STATUS_FATAL;
             overheated := true;
             is_in_ta_test := false |},
          [dbus_signal "fatal"; set_thermal_state true])) by (vm_compute; reflexivity).
  split; [exact Hrun |].
  intros (m' & out & o' & Hrun' & _ & Hwait).
  rewrite Hrun in Hrun'. injection Hrun' as <- <-. discriminate Hwait.
Qed.

Lemma rearm_follows_poll_witness :
  (exists m' out o' before,
     deliver false no_tuning_file (WAKEUP 1 (answers_now 95)) two_sensors = Some (tt, m', out) /\
     heap m' !! 1%nat = Some o' /\
     out = before ++ [wait (mintime (state_get (state (conf o')) (status o')))
                           (maxtime (state_get (state (conf o')) (status o'))) 0 1] /\
     List.filter is_wait before = [] /\
     (forall t, request_pending (sensor_at THERMAL_STATUS_ALERT false) = false ->
        delivered (answers_now 95) = Some t -> t <> -1 ->
        status o' = classify t (status (sensor_at THERMAL_STATUS_ALERT false)) (conf o')) /\
     (delivered (answers_now 95) = None ->
        status o' = status (sensor_at THERMAL_STATUS_ALERT false))) /\
  deliver false no_tuning_file (WAKEUP 1 (answers_now 95)) two_sensors =
    Some (tt,
          {| heap := [sensor_at THERMAL_STATUS_WARNING true; sensor_at THERMAL_STATUS_FATAL false];
             thermal_objects := [0%nat; 1%nat];
             current_status := THERMAL_STATUS_FATAL;
             overheated := true;
             is_in_ta_test := false |},
          [request_temperature 1; dbus_signal "fatal"; set_thermal_state true; wait 2 5 0 1]) /\
  (exists m' out o' before,
     deliver true no_tuning_file (register 1 (answers_now 95) enough_memory) two_sensors =
       Some (tt, m', out) /\
     heap m' !! 2%nat = Some o' /\
     out = before ++ [wait (mintime (state_get (state (conf o')) (status o')))
                           (maxtime (state_get (state (conf o')) (status o'))) 0 2] /\
     List.filter is_wait before = [] /\
     status o' = classify 95 THERMAL_STATUS_ALERT (conf o')) /\
  deliver true no_tuning_file (register 1 (answers_now 95) enough_memory) two_sensors =
    Some (tt,
          {| heap := [sensor_at THERMAL_STATUS_WARNING true; sensor_at THERMAL_STATUS_ALERT false;
                      sensor_at THERMAL_STATUS_FATAL false];
             thermal_objects := [0%nat; 1%nat; 2%nat];
             current_status := THERMAL_STATUS_FATAL;
             overheated := true;
             is_in_ta_test := false |},
          [request_temperature 2; dbus_signal "fatal"; set_thermal_state true; wait 2 5 0 2]) /\
  deliver true no_tuning_file (register 1 (answers_now 95) no_memory) two_sensors = None.
Proof.
  split; [| split; [| split; [| split]]].
  - apply (proj1 (rearm_follows_poll false no_tuning_file (answers_now 95) 1
                    (sensor_at THERMAL_STATUS_ALERT false) two_sensors
                    eq_refl eq_refl)).
  - vm_compute. reflexivity.
  - destruct (rearm_follows_poll true no_tuning_file (answers_now 95) 1
                (sensor_at THERMAL_STATUS_ALERT false) two_sensors eq_refl eq_refl)
      as (_ & Hreg & _).
    destruct (Hreg enough_memory eq_refl)
      as (m' & out & o' & before & Hrun & Ho' & Hout & Hnw & Hsync & _).
    exists m', out, o', before.
    split; [exact Hrun |]. split; [exact Ho' |]. split; [exact Hout |].
    split; [exact Hnw |]. apply (Hsync 95); [reflexivity | reflexivity | lia].
  - vm_compute. reflexivity.
  - destruct (rearm_follows_poll true no_tuning_file (answers_now 95) 1
                (sensor_at THERMAL_STATUS_ALERT false) two_sensors eq_refl eq_refl)
      as (_ & _ & Hnull & _).
    apply (Hnull no_memory eq_refl).
Defined.

(** Demoting the Alert sensor to Normal while the other stays at
    Warning moves the aggregate to Warning with one signal; changing the
    Warning sensor while the other holds Alert sends nothing. *)
Example demotion_signals_once :
  match receive_temperature_response false no_tuning_file 1 10 two_sensors with
  | Some (_, m', out) => Some (current_status m', out)
  | None => None
  end = Some (THERMAL_STATUS_WARNING, [dbus_signal "warning"]).
Proof. vm_compute. reflexivity. Qed.

Example no_signal_below_the_worst :
  match receive_temperature_response false no_tuning_file 0 10 two_sensors with
  | Some (_, m', out) => Some (status <$> heap m' !! 0%nat, current_status m', out)
  | None => None
  end = Some (Some THERMAL_STATUS_NORMAL, THERMAL_STATUS_ALERT, []).
Proof. vm_compute. reflexivity. Qed.

Example fscanf_three_items : fscanf_d_d_d "12, -3,4 rest" = (3, [12; -3; 4], " rest"%string).
Proof. vm_compute. reflexivity. Qed.

Example fscanf_space_before_comma : fst (fst (fscanf_d_d_d "12 , 3, 4")) = 1.
Proof. vm_compute. reflexivity. Qed.

(** * Properties of the tuning file reader *)

Lemma fscanf_d_d_d_count f :
  let '(n, vals, _) := fscanf_d_d_d f in
  (n = 3 /\ exists a b m, vals = [a; b; m]) \/
  (n <> 3 /\ (List.length vals < 3)%nat).
Proof.
  unfold fscanf_d_d_d.
  destruct (scan_int f) as [[a f1] |];
    [| right; split; [destruct (decide _); unfold EOF; lia | cbn; lia]].
  destruct (scan_comma f1) as [f2 |]; [| right; cbn; split; lia].
  destruct (scan_int (skip_space f2)) as [[b f3] |]; [| right; cbn; split; lia].
  destruct (scan_comma f3) as [f4 |]; [| right; cbn; split; lia].
  destruct (scan_int (skip_space f4)) as [[c f5] |]; [| right; cbn; split; lia].
  left. split; [reflexivity | exists a, b, c; reflexivity].
Qed.

Lemma state_set_twice a i v1 v2 : state_set (state_set a i v1) i v2 = state_set a i v2.
Proof. destruct i; reflexivity. Qed.

Lemma state_get_set a i v : state_get (state_set a i v) i = v.
Proof. destruct i; reflexivity. Qed.

(** One turn of the loop on a record that parses. *)
Lemma config_read_loop_step i rest c f a b m f' :
  tuning_line f = Some (a, b, m, f') ->
  config_read_loop (i :: rest) c f =
  config_read_loop rest (set_state c i (band_of_line (a, b, m))) f'.
Proof.
  unfold tuning_line. intros Hl. cbn [config_read_loop].
  pose proof (fscanf_d_d_d_count f) as Hc.
  destruct (fscanf_d_d_d f) as [[n vals] f1].
  destruct Hc as [[-> (a' & b' & m' & ->)] | [Hn Hlen]].
  - injection Hl as -> -> -> ->. cbn.
    unfold set_state. cbn. rewrite state_get_set, state_set_twice. reflexivity.
  - exfalso. destruct n as [| n | n]; try discriminate.
    repeat (destruct n as [n | n |]; try discriminate).
    destruct vals as [| ? [| ? [| ? [| ? ?]]]]; try discriminate; cbn in Hlen; lia.
Qed.

(** One turn of the loop on a record that does not parse. *)
Lemma config_read_loop_stop i rest c f :
  tuning_line f = None -> fst (config_read_loop (i :: rest) c f) = false.
Proof.
  unfold tuning_line. intros Hl. cbn [config_read_loop].
  pose proof (fscanf_d_d_d_count f) as Hc.
  destruct (fscanf_d_d_d f) as [[n vals] f1].
  destruct Hc as [[-> (a' & b' & m' & ->)] | [Hn Hlen]]; [discriminate |].
  apply Z.eqb_neq in Hn. rewrite Hn. reflexivity.
Qed.

Lemma config_read_loop_lines indices c f :
  match tuning_lines (List.length indices) f with
  | Some ls => config_read_loop indices c f = (true, with_lines c indices ls)
  | None => fst (config_read_loop indices c f) = false
  end.
Proof.
  revert c f. induction indices as [| i rest IH]; intros c f; [reflexivity |].
  cbn [List.length tuning_lines].
  destruct (tuning_line f) as [[[[a b] m] f'] |] eqn:Hl.
  - rewrite (config_read_loop_step _ _ _ _ _ _ _ _ Hl).
    specialize (IH (set_state c i (band_of_line (a, b, m))) f').
    destruct (tuning_lines (List.length rest) f') as [ls |]; exact IH.
  - apply config_read_loop_stop, Hl.
Qed.

(** The reload, by the records the file gives. *)
Lemma config_read_by_records c f :
  (tuning_lines 4 f = None -> thermal_object_config_read c f = (false, c)) /\
  (forall l0 l1 l2 l3,
     tuning_lines 4 f = Some [l0; l1; l2; l3] ->
     thermal_object_config_read c f =
       (true,
        {| name := name c;
           state := {| at_normal := band_of_line l0; at_warning := band_of_line l1;
                       at_alert := band_of_line l2; at_fatal := band_of_line l3 |} |})).
Proof.
  pose proof (config_read_loop_lines all_statuses c f) as H.
  change (List.length all_statuses) with 4%nat in H.
  unfold thermal_object_config_read. split.
  - intros Hnone. rewrite Hnone in H.
    destruct (config_read_loop all_statuses c f) as [ok c']. cbn in H. subst ok.
    reflexivity.
  - intros l0 l1 l2 l3 Hsome.
    rewrite Hsome in H. rewrite H. reflexivity.
Qed.

(** What is stored is an [int]. *)
Lemma to_int_range z : INT_MIN <= to_int z <= INT_MAX.
Proof.
  unfold to_int, INT_MIN, INT_MAX.
  pose proof (Z.mod_pos_bound (z + 2 ^ 31) (2 ^ 32) ltac:(lia)). lia.
Qed.


Lemma scan_int_range f v f' : scan_int f = Some (v, f') -> INT_MIN <= v <= INT_MAX.
Proof.
  unfold scan_int, stored_by_d. intros H.
  repeat match type of H with
         | match ?x with _ => _ end = _ => destruct x
         | (if ?x then _ else _) = _ => destruct x
         | (let '(_, _) := ?x in _) = _ => destruct x
         end;
    try discriminate; injection H as <- _; apply to_int_range.
Qed.

Lemma tuning_line_range f a b m f' :
  tuning_line f = Some (a, b, m, f') ->
  INT_MIN <= a <= INT_MAX /\ INT_MIN <= b <= INT_MAX /\ INT_MIN <= m <= INT_MAX.
Proof.
  unfold tuning_line, fscanf_d_d_d.
  destruct (scan_int f) as [[a' f1] |] eqn:Ha; [| destruct (decide _); discriminate].
  destruct (scan_comma f1) as [f2 |]; [| discriminate].
  destruct (scan_int (skip_space f2)) as [[b' f3] |] eqn:Hb; [| discriminate].
  destruct (scan_comma f3) as [f4 |]; [| discriminate].
  destruct (scan_int (skip_space f4)) as [[m' f5] |] eqn:Hm; [| discriminate].
  intros [= <- <- <- <-].
  repeat split; eapply scan_int_range; eassumption.
Qed.

Lemma tuning_lines_range n f ls :
  tuning_lines n f = Some ls ->
  Forall (fun l => let '(a, b, m) := l in
                   INT_MIN <= a <= INT_MAX /\ INT_MIN <= b <= INT_MAX /\
                   INT_MIN <= m <= INT_MAX) ls.
Proof.
  revert f ls. induction n as [| n IH]; intros f ls; cbn [tuning_lines].
  - intros [= <-]. constructor.
  - destruct (tuning_line f) as [[[[a b] m] f'] |] eqn:Hl; [| discriminate].
    destruct (tuning_lines n f') as [ls' |] eqn:Hls; [| discriminate].
    intros [= <-]. constructor; [eapply tuning_line_range, Hl | eapply IH, Hls].
Qed.


(** The reader sees either four records or a failure. *)
Lemma tuning_lines_four f :
  tuning_lines 4 f = None \/
  exists l0 l1 l2 l3, tuning_lines 4 f = Some [l0; l1; l2; l3].
Proof.
  cbn [tuning_lines].
  repeat match goal with
         | |- context [tuning_line ?g] =>
             destruct (tuning_line g) as [[[[? ?] ?] ?] |]; [| left; reflexivity]
         end.
  right. eexists _, _, _, _. reflexivity.
Qed.



(** What [%d] stores for numbers that do not fit an [int]. *)
Example scan_int_truncates :
  scan_int "99999999999" = Some (1215752191, ""%string) /\
  scan_int "2147483648" = Some (-2147483648, ""%string) /\
  scan_int "-99999999999999999999999" = Some (0, ""%string).
Proof. vm_compute. repeat split. Qed.

(** * Properties of the temp reaper *)

Import TempReaper.

(** C10. A disk-space message starts the reaper (forks) exactly when its
    mount path is the string "/" and no reaper is running; a message for
    any other mount path forks nothing and leaves [reaper_pid] as it
    was. *)
Theorem reaper_started_only_for_root reaper_pid msg r :
  (forks (snd (handle_DISK_SPACE reaper_pid msg r)) <->
     mount_path msg = "/"%string /\ reaper_pid = -1) /\
  (mount_path msg <> "/"%string ->
     handle_DISK_SPACE reaper_pid msg r = (reaper_pid, [])).
Proof.
  unfold handle_DISK_SPACE, disk_space_running_out, forks, reaper_process_new.
  destruct (Z.eqb_spec reaper_pid (-1)) as [Hpid | Hpid]; cbn [negb];
    destruct (String.eqb_spec (mount_path msg) "/") as [Hpath | Hpath].
  - split; [| contradiction]. split; [auto |]. intros _.
    destruct (negb (pid_of r =? -1)); cbn; rewrite elem_of_cons; auto.
  - split; [| reflexivity]. cbn. rewrite elem_of_nil. tauto.
  - split; [| contradiction]. cbn. rewrite elem_of_nil. tauto.
  - split; [| reflexivity]. cbn. rewrite elem_of_nil. tauto.
Qed.

Lemma reaper_started_only_for_root_witness :
  forks (snd (handle_DISK_SPACE (-1) {| mount_path := "/" |} (forked 4711))) /\
  handle_DISK_SPACE (-1) {| mount_path := "/home" |} (forked 4711) = (-1, []).
Proof.
  split.
  - apply (proj1 (reaper_started_only_for_root (-1) {| mount_path := "/" |} (forked 4711))).
    split; reflexivity.
  - apply (proj2 (reaper_started_only_for_root (-1) {| mount_path := "/home" |} (forked 4711))).
    cbn. discriminate.
Defined.

(** * Further properties of the classifier *)

Import ThermalManager.

Lemma settled_is_fixed c t r :
  settled c t r -> new_thermal_object_status c t r = r.
Proof.
  unfold settled, status_lt, new_thermal_object_status. intros [Hdown Hup].
  destruct r; cbn in *; walk; try reflexivity; lia.
Qed.

Lemma tiles_contiguous c : tiles c -> contiguous_increasing c.
Proof.
  intros [Hne Hnext]. split; [exact Hne |].
  intros s Hs. rewrite (Hnext s Hs). lia.
Qed.

(** X1. With contiguous ranges one call reaches the final band:
    classifying the same reading again, from the band just returned,
    returns that band. *)
Theorem classify_settles_in_one_call raw s c :
  contiguous_increasing c ->
  classify raw (classify raw s c) c = classify raw s c.
Proof.
  intros Hc. unfold classify. apply settled_is_fixed, new_status_settled, Hc.
Qed.

Lemma classify_settles_in_one_call_witness :
  classify 70 (classify 70 THERMAL_STATUS_NORMAL ladder) ladder =
  classify 70 THERMAL_STATUS_NORMAL ladder.
Proof.
  apply (classify_settles_in_one_call 70 THERMAL_STATUS_NORMAL ladder).
  apply ladder_ranges_contiguous. repeat split.
Defined.

(** With a gap between two bands a temperature inside the gap makes the
    band swing back and forth from call to call. *)
Lemma gap_makes_classification_swing :
  classify 15 THERMAL_STATUS_NORMAL gapped = THERMAL_STATUS_WARNING /\
  classify 15 THERMAL_STATUS_WARNING gapped = THERMAL_STATUS_NORMAL.
Proof. split; vm_compute; reflexivity. Qed.

(** X2. With contiguous ranges the band returned contains the converted
    temperature whenever that lies between Normal's min and Fatal's max;
    below Normal's min the result is Normal and above Fatal's max it is
    Fatal. *)
Theorem classified_band_contains_temperature raw s c :
  contiguous_increasing c ->
  let t := convert_to_degrees_C raw in
  let r := classify raw s c in
  (min (state_get (state c) THERMAL_STATUS_NORMAL) <= t <=
     max (state_get (state c) THERMAL_STATUS_FATAL) ->
   min (state_get (state c) r) <= t <= max (state_get (state c) r)) /\
  (t < min (state_get (state c) THERMAL_STATUS_NORMAL) -> r = THERMAL_STATUS_NORMAL) /\
  (t > max (state_get (state c) THERMAL_STATUS_FATAL) -> r = THERMAL_STATUS_FATAL).
Proof.
  intros Hc t r. subst r. unfold classify. fold t.
  pose proof (new_status_settled c t s Hc) as Hs.
  apply contiguous_facts in Hc. cbn in Hc.
  unfold settled, status_lt in Hs.
  destruct (new_thermal_object_status c t s); cbn in *;
    repeat split; intros; try reflexivity; first [lia | exfalso; lia].
Qed.

Lemma classified_band_contains_temperature_witness :
  min (state_get (state ladder) (classify 345 THERMAL_STATUS_FATAL ladder)) <= 72 <=
  max (state_get (state ladder) (classify 345 THERMAL_STATUS_FATAL ladder)).
Proof.
  apply (proj1 (classified_band_contains_temperature 345 THERMAL_STATUS_FATAL ladder
                  (ladder_ranges_contiguous ladder ladder_has_ladder_ranges))).
  vm_compute. split; discriminate.
Defined.

(** X3. When the ranges tile the scale, each band starting right after
    the one below, the band returned does not depend on the band the
    object was in: the walk is a plain lookup. *)
Theorem classification_is_lookup_when_tiled raw s1 s2 c :
  tiles c -> classify raw s1 c = classify raw s2 c.
Proof.
  intros Ht.
  pose proof (new_status_settled c (convert_to_degrees_C raw) s1 (tiles_contiguous c Ht)) as H1.
  pose proof (new_status_settled c (convert_to_degrees_C raw) s2 (tiles_contiguous c Ht)) as H2.
  unfold classify.
  destruct Ht as [Hne Hnext].
  pose proof (Hne THERMAL_STATUS_NORMAL). pose proof (Hne THERMAL_STATUS_WARNING).
  pose proof (Hne THERMAL_STATUS_ALERT). pose proof (Hne THERMAL_STATUS_FATAL).
  pose proof (Hnext THERMAL_STATUS_NORMAL). pose proof (Hnext THERMAL_STATUS_WARNING).
  pose proof (Hnext THERMAL_STATUS_ALERT).
  unfold settled, status_lt in *.
  destruct (new_thermal_object_status c (convert_to_degrees_C raw) s1),
    (new_thermal_object_status c (convert_to_degrees_C raw) s2);
    cbn in *; try reflexivity; exfalso; lia.
Qed.

Lemma classification_is_lookup_when_tiled_witness :
  classify 313 THERMAL_STATUS_NORMAL ladder = classify 313 THERMAL_STATUS_FATAL ladder.
Proof.
  apply (classification_is_lookup_when_tiled 313 THERMAL_STATUS_NORMAL THERMAL_STATUS_FATAL ladder).
  split; intros s; destruct s; unfold status_lt; cbn; lia.
Defined.

(** Where two bands share a boundary value the band stays where it is:
    the hysteresis of the walk. *)
Lemma shared_boundary_keeps_the_band :
  classify 40 THERMAL_STATUS_NORMAL shared = THERMAL_STATUS_NORMAL /\
  classify 40 THERMAL_STATUS_WARNING shared = THERMAL_STATUS_WARNING.
Proof. split; vm_compute; reflexivity. Qed.

(** X4. The unit heuristics never raise a reading and never take it
    below -49 unless it was lower already; so the converted value of an
    [int] is an [int]. *)
Theorem conversion_is_bounded_by_reading raw :
  Z.min raw (-49) <= convert_to_degrees_C raw <= raw.
Proof.
  rewrite convert_by_range.
  destruct (Z.leb_spec raw 223); [lia |].
  destruct (Z.leb_spec raw 1000); [lia |].
  pose proof (quot_1000_bounds raw ltac:(lia)).
  destruct (Z.ltb_spec raw 224000); lia.
Qed.

(** X18. Whatever the configuration, well formed or not, the walk goes
    toward the breached side only: a temperature below the current band's
    min never raises the band, and a temperature not below it never
    lowers the band; a temperature inside the current band's range keeps
    the band. *)
Theorem classification_moves_toward_breach raw s c :
  let t := convert_to_degrees_C raw in
  (t < min (state_get (state c) s) -> status_le (classify raw s c) s) /\
  (min (state_get (state c) s) <= t -> status_le s (classify raw s c)) /\
  (min (state_get (state c) s) <= t <= max (state_get (state c) s) -> classify raw s c = s).
Proof.
  intros t. unfold classify, new_thermal_object_status. fold t.
  split; [| split].
  - intros Hlo. apply Z.ltb_lt in Hlo. rewrite Hlo.
    eapply descends_le, lower_descends.
  - intros Hlo. apply Z.ltb_ge in Hlo. rewrite Hlo.
    destruct (t >? max (state_get (state c) s)).
    + eapply ascends_ge, raise_ascends.
    + unfold status_le. lia.
  - intros [Hlo Hhi]. apply Z.ltb_ge in Hlo. rewrite Hlo.
    rewrite Z.gtb_ltb. apply Z.ltb_ge in Hhi. rewrite Hhi. reflexivity.
Qed.

Lemma classification_moves_toward_breach_witness :
  status_le (classify 7 THERMAL_STATUS_ALERT gapped) THERMAL_STATUS_ALERT /\
  status_le THERMAL_STATUS_NORMAL (classify 15 THERMAL_STATUS_NORMAL gapped).
Proof.
  split.
  - apply (proj1 (classification_moves_toward_breach 7 THERMAL_STATUS_ALERT gapped)).
    vm_compute. reflexivity.
  - apply (proj1 (proj2 (classification_moves_toward_breach 15 THERMAL_STATUS_NORMAL gapped))).
    vm_compute. discriminate.
Defined.

(** * Further properties of the supervisor *)

Section SupervisorRuns.

Variable DSME_THERMAL_TUNING : bool.
Variable fopen : string -> option string.

Local Abbreviation receive := (receive_temperature_response DSME_THERMAL_TUNING fopen).
Local Abbreviation request := (send_temperature_request DSME_THERMAL_TUNING fopen).
Local Abbreviation poll := (thermal_object_polling_interval_expired DSME_THERMAL_TUNING fopen).

Lemma status_eqb_refl s : status_eqb s s = true.
Proof. apply status_eqb_eq. reflexivity. Qed.

Lemma registered_statuses_same m m' :
  thermal_objects m' = thermal_objects m ->
  (forall q, status <$> heap m' !! q = status <$> heap m !! q) ->
  registered_statuses m' = registered_statuses m.
Proof.
  unfold registered_statuses. intros -> Hq.
  induction (thermal_objects m) as [| p l IH]; [reflexivity |].
  cbn. rewrite Hq, IH. reflexivity.
Qed.

Lemma insert_same_status (h : list thermal_object_t) p o o' q :
  h !! p = Some o -> status o' = status o ->
  status <$> <[p := o']> h !! q = status <$> h !! q.
Proof.
  intros Hp Hs. destruct (decide (p = q)) as [<- | Hne].
  - rewrite (lookup_updated h p o o' Hp), Hp. cbn. rewrite Hs. reflexivity.
  - rewrite list_lookup_insert_ne by exact Hne. reflexivity.
Qed.

Lemma insert_keeps_objects (h : list thermal_object_t) p o' q :
  is_Some (h !! q) -> is_Some (<[p := o']> h !! q).
Proof.
  intros H. apply lookup_lt_is_Some. rewrite length_insert. apply lookup_lt_is_Some, H.
Qed.

Lemma update_silent p o o' m :
  heap m !! p = Some o -> registry_ok m = true -> status o' = status o ->
  silent m [] (with_heap m (<[p := o']> (heap m))).
Proof.
  intros Ho Hok Hs. unfold silent.
  split; [apply registry_ok_insert, Hok |].
  split; [intros q; apply insert_keeps_objects |].
  repeat (split; [reflexivity |]).
  apply registered_statuses_same; [reflexivity |].
  intros q. cbn. apply (insert_same_status _ _ _ _ _ Ho Hs).
Qed.

Lemma quiet_output_silent m o :
  registry_ok m = true -> is_signal o = false -> is_overheat o = false -> silent m [o] m.
Proof.
  intros Hok Hs Hov. unfold silent. cbn. rewrite Hs, Hov. repeat split; auto.
Qed.

Lemma silent_nothing m : registry_ok m = true -> silent m [] m.
Proof. intros Hok. unfold silent. repeat split; auto. Qed.

Lemma silent_then_silent m o1 m1 o2 m2 :
  silent m o1 m1 -> silent m1 o2 m2 -> silent m (o1 ++ o2) m2.
Proof.
  intros (_ & Hd1 & Hc1 & Hv1 & Hs1 & Hh1 & Hr1) (Hok & Hd2 & Hc2 & Hv2 & Hs2 & Hh2 & Hr2).
  unfold silent. rewrite !List.filter_app, Hs1, Hs2, Hh1, Hh2.
  repeat split; try congruence; auto.
Qed.

Lemma silent_reports m out m' : silent m out m' -> reports m out m'.
Proof.
  intros (Hok & Hd & Hc & Hv & Hs & Hh & Hr). unfold reports.
  rewrite Hc, status_eqb_refl. repeat (split; [solve [auto] |]). auto.
Qed.

Lemma silent_is_step m out m' : silent m out m' -> step_ok m out m'.
Proof.
  intros H. split; [apply silent_reports, H |].
  destruct H as (_ & _ & Hc & _ & _ & _ & Hr). unfold aggregate_consistent.
  rewrite Hc, Hr. auto.
Qed.

Lemma silent_then_reports m o1 m1 o2 m2 :
  silent m o1 m1 -> reports m1 o2 m2 -> reports m (o1 ++ o2) m2.
Proof.
  intros (_ & Hd1 & Hc1 & Hv1 & Hs1 & Hh1 & Hr1) (Hok & Hd2 & Hs2 & Hh2 & Hv2).
  unfold reports in *.
  rewrite !List.filter_app, Hs1, Hh1, <- Hc1, <- Hv1.
  repeat (split; [solve [auto] |]). auto.
Qed.

Lemma reports_then_silent m o1 m1 o2 m2 :
  reports m o1 m1 -> silent m1 o2 m2 -> reports m (o1 ++ o2) m2.
Proof.
  intros (_ & Hd1 & Hs1 & Hh1 & Hv1) (Hok & Hd2 & Hc2 & Hv2 & Hs2 & Hh2 & Hr2).
  unfold reports in *.
  rewrite !List.filter_app, Hs2, Hh2, !app_nil_r, Hc2, Hv2.
  repeat (split; [solve [auto] |]). auto.
Qed.

Lemma silent_then_step m o1 m1 o2 m2 :
  silent m o1 m1 -> step_ok m1 o2 m2 -> step_ok m (o1 ++ o2) m2.
Proof.
  intros H1 [H2 Ha]. split; [apply (silent_then_reports _ _ _ _ _ H1 H2) |].
  destruct H1 as (_ & _ & Hc & _ & _ & _ & Hr). unfold aggregate_consistent in *.
  rewrite <- Hc, <- Hr. exact Ha.
Qed.

Lemma step_then_silent m o1 m1 o2 m2 :
  step_ok m o1 m1 -> silent m1 o2 m2 -> step_ok m (o1 ++ o2) m2.
Proof.
  intros [H1 Ha] H2. split; [apply (reports_then_silent _ _ _ _ _ H1 H2) |].
  destruct H2 as (_ & _ & Hc & _ & _ & _ & Hr). unfold aggregate_consistent in *.
  rewrite Hc, Hr. exact Ha.
Qed.

(** The handler of a reading, as a step. *)
Lemma receive_step p o m t :
  heap m !! p = Some o -> registry_ok m = true ->
  exists m' out o',
    receive p t m = Some (tt, m', out) /\
    heap m' = <[p := o']> (heap m) /\
    thermal_objects m' = thermal_objects m /\
    is_in_ta_test m' = is_in_ta_test m /\
    request_pending o' = false /\
    List.filter is_request out = [] /\
    List.filter is_wait out = [] /\
    step_ok m out m'.
Proof.
  intros Ho Hok. destruct (Z.eq_dec t (-1)) as [-> | Ht].
  - eexists _, [], _. split; [apply receive_failure, Ho |].
    repeat (split; [reflexivity |]).
    apply silent_is_step, (update_silent _ _ _ _ Ho Hok). reflexivity.
  - destruct (receive_run DSME_THERMAL_TUNING fopen p o m t Ht Ho Hok)
      as (w & Hworst & Hrun).
    cbn zeta in Hworst, Hrun. rewrite Hrun. clear Hrun.
    set (c' := conf_in_force DSME_THERMAL_TUNING fopen m o) in *.
    set (o' := {| conf := c'; status := classify t (status o) c'; request_pending := false |})
      in *.
    set (m1 := with_heap m (<[p := o']> (heap m))) in *.
    assert (Hok1 : registry_ok m1 = true) by (apply registry_ok_insert, Hok).
    assert (Hdom : forall q, is_Some (heap m !! q) -> is_Some (heap m1 !! q))
      by (intros q; apply insert_keeps_objects).
    destruct (status_eqb (classify t (status o) c') (status o)) eqn:Hs.
    + apply status_eqb_eq in Hs.
      eexists _, _, o'. split; [reflexivity |]. repeat (split; [reflexivity |]).
      apply silent_is_step, (update_silent _ _ _ _ Ho Hok). exact Hs.
    + destruct (status_eqb w (current_status m)) eqn:Hw;
        [| destruct (status_eqb w THERMAL_STATUS_FATAL) eqn:Hf;
           [| destruct (overheated m) eqn:Hov]];
        eexists _, _, o'; (split; [reflexivity |]);
        repeat (split; [reflexivity |]);
        unfold step_ok, reports, aggregate_consistent; cbn;
        rewrite ?Hw, ?Hf, ?Hov;
        (split; [| intros _; exact Hworst]);
        (split; [exact Hok1 |]); (split; [exact Hdom |]);
        repeat split.
Qed.


(** Whether a request is pending after a poll of an object in [o]. *)
Local Abbreviation pending_after o sensor :=
  (if request_pending o then true
   else match delivered sensor with
        | Some _ => false
        | None => accepted sensor
        end).

(** The request for a reading, as a step. *)
Lemma request_step sensor p o m :
  heap m !! p = Some o -> registry_ok m = true ->
  exists m' out o',
    request sensor p m = Some (tt, m', out) /\
    heap m' = <[p := o']> (heap m) /\
    thermal_objects m' = thermal_objects m /\
    is_in_ta_test m' = is_in_ta_test m /\
    request_pending o' = pending_after o sensor /\
    List.filter is_request out =
      (if request_pending o then [] else [request_temperature p]) /\
    List.filter is_wait out = [] /\
    step_ok m out m'.
Proof.
  intros Ho Hok. destruct (request_pending o) eqn:Hp.
  - exists m, [], o.
    rewrite (send_request_while_pending DSME_THERMAL_TUNING fopen _ _ _ _ Ho Hp).
    rewrite (list_insert_id _ _ _ Ho).
    repeat (split; [solve [auto] |]). apply silent_is_step, silent_nothing, Hok.
  - unfold send_temperature_request.
    rewrite (bind_Some _ _ _ _ _ _ (deref_Some _ _ _ Ho)), Hp. cbn [negb].
    rewrite (bind_Some _ _ _ _ _ _ (update_Some _ _ _ _ Ho)).
    set (o1 := with_request_pending o true).
    set (m1 := with_heap m (<[p := o1]> (heap m))).
    assert (Ho1 : heap m1 !! p = Some o1) by (eapply lookup_updated, Ho).
    assert (Hs1 : silent m [] m1) by (apply (update_silent _ _ _ _ Ho Hok); reflexivity).
    assert (Hok1 : registry_ok m1 = true) by apply Hs1.
    assert (Hsr : silent m1 [request_temperature p] m1)
      by (apply quiet_output_silent; [exact Hok1 | reflexivity | reflexivity]).
    rewrite (bind_Some _ _ _ _ _ _
               (eq_refl : send (request_temperature p) m1 =
                          Some (tt, m1, [request_temperature p]))).
    destruct (delivered sensor) as [t |].
    + destruct (receive_step p o1 m1 t Ho1 Hok1)
        as (m2 & out2 & o2 & Hrun & Hh2 & Hl2 & Hta2 & Hp2 & Hrq2 & Hw2 & Hstep2).
      rewrite (bind_Some _ _ _ _ _ _ Hrun).
      assert (Hh : heap m2 = <[p := o2]> (heap m))
        by (rewrite Hh2; cbn; apply list_insert_insert_eq).
      assert (Ho2 : heap m2 !! p = Some o2)
        by (rewrite Hh; eapply lookup_updated, Ho).
      assert (Hstep : step_ok m ([request_temperature p] ++ out2) m2).
      { apply (silent_then_step _ [] _ _ _ Hs1).
        apply (silent_then_step _ _ _ _ _ Hsr Hstep2). }
      destruct (accepted sensor); cbn [negb when].
      * exists m2, (request_temperature p :: out2), o2.
        split; [cbn; rewrite app_nil_r; reflexivity |].
        cbn. rewrite Hrq2, Hw2.
        repeat (split; [solve [auto] |]). exact Hstep.
      * rewrite (update_Some _ _ _ _ Ho2).
        assert (Hok2 : registry_ok m2 = true) by apply Hstep2.
        set (o3 := with_request_pending o2 false).
        set (m3 := with_heap m2 (<[p := o3]> (heap m2))).
        assert (Hfin : step_ok m (request_temperature p :: out2) m3).
        { rewrite <- (app_nil_r (_ :: out2)).
          apply (step_then_silent _ _ m2 [] _ Hstep).
          apply (update_silent _ _ _ _ Ho2 Hok2). reflexivity. }
        exists m3, (request_temperature p :: out2), o3.
        split; [cbn; rewrite app_nil_r; reflexivity |].
        split; [cbn; rewrite Hh; apply list_insert_insert_eq |].
        cbn [List.filter is_request is_wait]. rewrite Hrq2, Hw2.
        repeat (split; [solve [auto] |]). exact Hfin.
    + rewrite (bind_Some _ _ _ _ _ _ (eq_refl : ret tt m1 = Some (tt, m1, []))).
      destruct (accepted sensor); cbn [negb when].
      * exists m1, [request_temperature p], o1.
        repeat (split; [reflexivity |]).
        apply silent_is_step, (silent_then_silent _ [] _ _ _ Hs1 Hsr).
      * rewrite (update_Some _ _ _ _ Ho1).
        set (o3 := with_request_pending o1 false).
        set (m3 := with_heap m1 (<[p := o3]> (heap m1))).
        assert (Hfin : silent m [request_temperature p] m3).
        { apply (silent_then_silent _ [request_temperature p] m1 [] _).
          - apply (silent_then_silent _ [] _ _ _ Hs1 Hsr).
          - apply (update_silent _ _ _ _ Ho1 Hok1). reflexivity. }
        exists m3, [request_temperature p], o3.
        split; [reflexivity |].
        split; [cbn; apply list_insert_insert_eq |].
        repeat (split; [reflexivity |]).
        apply silent_is_step, Hfin.
Qed.

(** A poll, as a step: the request, then one wake request for the band
    the object is in by then. *)
Lemma poll_step sensor p o m :
  heap m !! p = Some o -> registry_ok m = true ->
  exists m' out o',
    poll sensor p m = Some (tt, m', out) /\
    heap m' = <[p := o']> (heap m) /\
    thermal_objects m' = thermal_objects m /\
    is_in_ta_test m' = is_in_ta_test m /\
    request_pending o' = pending_after o sensor /\
    List.filter is_request out =
      (if request_pending o then [] else [request_temperature p]) /\
    List.filter is_wait out =
      [wait (mintime (state_get (state (conf o')) (status o')))
            (maxtime (state_get (state (conf o')) (status o'))) 0 p] /\
    step_ok m out m'.
Proof.
  intros Ho Hok.
  destruct (request_step sensor p o m Ho Hok)
    as (m' & out & o' & Hrun & Hh & Hl & Hta & Hp & Hrq & Hw & Hstep).
  assert (Ho' : heap m' !! p = Some o') by (rewrite Hh; eapply lookup_updated, Ho).
  exists m', (out ++ [] ++ [wait (mintime (state_get (state (conf o')) (status o')))
                            (maxtime (state_get (state (conf o')) (status o'))) 0 p]), o'.
  split.
  { unfold thermal_object_polling_interval_expired.
    rewrite (bind_Some _ _ _ _ _ _ Hrun).
    rewrite (bind_Some _ _ _ _ _ _ (deref_Some _ _ _ Ho')). reflexivity. }
  rewrite !List.filter_app, Hrq, Hw. cbn. rewrite app_nil_r.
  repeat (split; [solve [auto] |]).
  apply (step_then_silent _ _ _ _ _ Hstep).
  apply quiet_output_silent; [apply Hstep | reflexivity | reflexivity].
Qed.


Lemma reports_after_quiet_change m m0 out m' :
  current_status m0 = current_status m -> overheated m0 = overheated m ->
  (forall q, is_Some (heap m !! q) -> is_Some (heap m0 !! q)) ->
  reports m0 out m' -> reports m out m'.
Proof.
  intros Hc Hv Hd (Hok & Hd' & Hs & Hh & Hv'). unfold reports.
  rewrite <- Hc, <- Hv. repeat (split; [solve [auto] |]). auto.
Qed.

Lemma is_worst_of_with_normal l w :
  is_worst_of l w -> is_worst_of (l ++ [THERMAL_STATUS_NORMAL]) w.
Proof.
  intros [Hall Hin]. split.
  - apply Forall_app. split; [exact Hall |].
    constructor; [| constructor]. unfold status_le. destruct w; cbn; lia.
  - left. destruct Hin as [Hin | [-> ->]].
    + apply elem_of_app. left. exact Hin.
    + constructor.
Qed.

Lemma omap_status_keep (h h' : list thermal_object_t) l :
  (forall x ox, h !! x = Some ox -> h' !! x = Some ox) ->
  forallb (fun p => bool_decide (is_Some (h !! p))) l = true ->
  omap (fun p => status <$> h' !! p) l = omap (fun p => status <$> h !! p) l.
Proof.
  intros Hkeep. induction l as [| x l IH]; intros Hok; [reflexivity |].
  cbn [forallb] in Hok. apply andb_prop in Hok as [Hx Hl].
  apply bool_decide_eq_true in Hx as [ox Hx].
  unfold omap, list_omap. fold (@list_omap nat THERMAL_STATUS).
  rewrite (Hkeep _ _ Hx), Hx. cbn [fmap option_fmap option_map].
  f_equal. apply (IH Hl).
Qed.

(** The state in which registration polls the object. *)
Lemma registered_state p o m :
  heap m !! p = Some o -> registry_ok m = true ->
  let q := if DSME_THERMAL_TUNING then List.length (heap m) else p in
  let m_reg :=
    with_thermal_objects
      (if DSME_THERMAL_TUNING then with_heap m (heap m ++ [o]) else m)
      (thermal_objects m ++ [q]) in
  current_status m_reg = current_status m /\
  overheated m_reg = overheated m /\
  (forall x, is_Some (heap m !! x) -> is_Some (heap m_reg !! x)) /\
  (forall x ox, heap m !! x = Some ox -> heap m_reg !! x = Some ox) /\
  registered_statuses m_reg = registered_statuses m ++ [status o].
Proof.
  intros Ho Hok q m_reg.
  assert (Hkeep : forall x ox, heap m !! x = Some ox -> heap m_reg !! x = Some ox).
  { intros x ox Hx. subst m_reg. destruct DSME_THERMAL_TUNING; cbn;
      [apply lookup_app_l_Some, Hx | exact Hx]. }
  assert (Hq : heap m_reg !! q = Some o).
  { subst m_reg q. destruct DSME_THERMAL_TUNING; cbn;
      [apply list_lookup_middle; reflexivity | exact Ho]. }
  split; [subst m_reg; destruct DSME_THERMAL_TUNING; reflexivity |].
  split; [subst m_reg; destruct DSME_THERMAL_TUNING; reflexivity |].
  split; [intros x [ox Hx]; exists ox; apply Hkeep, Hx |].
  split; [exact Hkeep |].
  unfold registered_statuses.
  replace (thermal_objects m_reg) with (thermal_objects m ++ [q])
    by (subst m_reg; destruct DSME_THERMAL_TUNING; reflexivity).
  rewrite omap_app. f_equal.
  - apply (omap_status_keep _ _ _ Hkeep Hok).
  - unfold omap, list_omap. rewrite Hq. reflexivity.
Qed.

(** Registration, as a step. *)
Lemma register_step memory sensor p o m :
  heap m !! p = Some o -> registry_ok m = true ->
  copy_available DSME_THERMAL_TUNING memory = true ->
  let q := if DSME_THERMAL_TUNING then List.length (heap m) else p in
  exists m' out o',
    dsme_register_thermal_object DSME_THERMAL_TUNING fopen memory sensor p m =
      Some (tt, m', out) /\
    thermal_objects m' = thermal_objects m ++ [q] /\
    heap m' = <[q := o']> (if DSME_THERMAL_TUNING then heap m ++ [o] else heap m) /\
    request_pending o' = pending_after o sensor /\
    List.filter is_request out =
      (if request_pending o then [] else [request_temperature q]) /\
    is_in_ta_test m' = is_in_ta_test m /\
    reports m out m' /\
    (status o = THERMAL_STATUS_NORMAL -> aggregate_consistent m -> aggregate_consistent m').
Proof.
  intros Ho Hok Hmem q.
  destruct (register_run DSME_THERMAL_TUNING fopen memory sensor p o m Ho Hmem)
    as (Hq & Hreg & Hrun).
  destruct (registered_state p o m Ho Hok) as (Hc & Hv & Hd & _ & Hr).
  fold q in Hq, Hreg, Hrun, Hc, Hv, Hd, Hr.
  set (m_reg := with_thermal_objects
                  (if DSME_THERMAL_TUNING then with_heap m (heap m ++ [o]) else m)
                  (thermal_objects m ++ [q])) in *.
  destruct (poll_step sensor q o m_reg Hq (Hreg Hok))
    as (m' & out & o' & Hpoll & Hh & Hl & Hta & Hp & Hrq & _ & Hrep & Hagg).
  exists m', out, o'. rewrite Hrun, Hpoll.
  split; [reflexivity |].
  split; [rewrite Hl; subst m_reg; destruct DSME_THERMAL_TUNING; reflexivity |].
  split; [rewrite Hh; subst m_reg; destruct DSME_THERMAL_TUNING; reflexivity |].
  split; [exact Hp |]. split; [exact Hrq |].
  split; [rewrite Hta; subst m_reg; destruct DSME_THERMAL_TUNING; reflexivity |].
  split; [apply (reports_after_quiet_change m m_reg out m' Hc Hv Hd Hrep) |].
  intros Hn Ha. apply Hagg. unfold aggregate_consistent in *.
  rewrite Hr, Hc, Hn. apply is_worst_of_with_normal, Ha.
Qed.

Lemma bind_inv {A B : Type} (x : M A) (k : A -> M B) m b m' out :
  bind x k m = Some (b, m', out) ->
  exists a m1 out1 out2,
    x m = Some (a, m1, out1) /\ k a m1 = Some (b, m', out2) /\ out = out1 ++ out2.
Proof.
  unfold bind. destruct (x m) as [[[a m1] out1] |]; [| discriminate].
  destruct (k a m1) as [[[b' m2] out2] |] eqn:Hk; [| discriminate].
  intros [= <- <- <-]. exists a, m1, out1, out2. rewrite Hk. repeat split.
Qed.

(** An event that names an address without a thermal object is not
    handled: the module dereferences the address. *)
Lemma deliver_needs_object e p m out m' :
  deliver DSME_THERMAL_TUNING fopen e m = Some (tt, m', out) ->
  match e with
  | register q _ _ | WAKEUP q _ | temperature_response q _ => q = p
  | _ => False
  end ->
  is_Some (heap m !! p).
Proof.
  intros Hrun He. destruct (heap m !! p) as [o |] eqn:Hp; [eexists; reflexivity |].
  exfalso. destruct e as [q sensor memory | q | q sensor | | q t]; try contradiction; subst q;
    cbn [deliver] in Hrun.
  - unfold dsme_register_thermal_object, thermal_object_copy,
      thermal_object_polling_interval_expired, send_temperature_request in Hrun.
    destruct DSME_THERMAL_TUNING; [destruct (copy_object memory && copy_config memory) |];
      unfold bind, deref, modify, ret in Hrun; cbn in Hrun;
      rewrite ?Hp in Hrun; discriminate.
  - unfold thermal_object_polling_interval_expired, send_temperature_request,
      bind, deref in Hrun. rewrite Hp in Hrun. discriminate.
  - unfold receive_temperature_response, update, bind, deref in Hrun.
    rewrite Hp in Hrun. discriminate.
Qed.

(** A registration that returns had its object to poll. *)
Lemma register_needs_copy p sensor memory m m' out :
  deliver DSME_THERMAL_TUNING fopen (register p sensor memory) m = Some (tt, m', out) ->
  copy_available DSME_THERMAL_TUNING memory = true.
Proof.
  intros Hrun. destruct (copy_available DSME_THERMAL_TUNING memory) eqn:Hmem;
    [reflexivity |].
  cbn [deliver] in Hrun.
  rewrite (register_without_copy DSME_THERMAL_TUNING fopen memory sensor p m Hmem) in Hrun.
  discriminate.
Qed.

(** Every handled event reports the aggregate it leaves, and keeps the
    aggregate the worst registered status if objects are registered in
    Normal. *)
Lemma deliver_step e m m' out :
  registry_ok m = true ->
  deliver DSME_THERMAL_TUNING fopen e m = Some (tt, m', out) ->
  reports m out m' /\
  (registers_normal e m -> aggregate_consistent m -> aggregate_consistent m').
Proof.
  intros Hok Hrun.
  destruct e as [p sensor memory | p | p sensor | | p t].
  - destruct (deliver_needs_object _ p _ _ _ Hrun eq_refl) as [o Ho].
    pose proof (register_needs_copy _ _ _ _ _ _ Hrun) as Hmem.
    destruct (register_step memory sensor p o m Ho Hok Hmem)
      as (m2 & out2 & o' & Hrun2 & _ & _ & _ & _ & _ & Hrep & Hagg).
    cbn [deliver] in Hrun. rewrite Hrun2 in Hrun. injection Hrun as <- <-.
    split; [exact Hrep |]. intros Hn. apply Hagg, (Hn o Ho).
  - injection Hrun as <- <-. split; [| auto].
    apply silent_reports, silent_nothing, Hok.
  - destruct (deliver_needs_object _ p _ _ _ Hrun eq_refl) as [o Ho].
    destruct (poll_step sensor p o m Ho Hok)
      as (m2 & out2 & o' & Hrun2 & _ & _ & _ & _ & _ & _ & Hrep & Hagg).
    cbn [deliver] in Hrun. rewrite Hrun2 in Hrun. injection Hrun as <- <-.
    split; [exact Hrep | intros _; exact Hagg].
  - cbn [deliver] in Hrun. destruct DSME_THERMAL_TUNING; injection Hrun as <- <-;
      (split; [| auto]); apply silent_reports; unfold silent; repeat split; auto.
  - destruct (deliver_needs_object _ p _ _ _ Hrun eq_refl) as [o Ho].
    destruct (receive_step p o m t Ho Hok)
      as (m2 & out2 & o' & Hrun2 & _ & _ & _ & _ & _ & _ & Hrep & Hagg).
    cbn [deliver] in Hrun. rewrite Hrun2 in Hrun. injection Hrun as <- <-.
    split; [exact Hrep | intros _; exact Hagg].
Qed.


Lemma thermal_status_name_inj a b :
  thermal_status_name a = thermal_status_name b -> a = b.
Proof. destruct a, b; cbn; intros H; try reflexivity; discriminate H. Qed.

Lemma last_signal_app prev o1 o2 :
  last_signal prev (o1 ++ o2) = last_signal (last_signal prev o1) o2.
Proof.
  revert prev. induction o1 as [| [payload | b | a b c d | q] o1 IH]; intros prev; cbn; auto.
Qed.

Lemma signals_change_app prev o1 o2 :
  signals_change prev (o1 ++ o2) <->
  signals_change prev o1 /\ signals_change (last_signal prev o1) o2.
Proof.
  revert prev. induction o1 as [| [payload | b | a b c d | q] o1 IH]; intros prev; cbn;
    rewrite ?IH; tauto.
Qed.

Lemma last_overheat_app prev o1 o2 :
  last_overheat prev (o1 ++ o2) = last_overheat (last_overheat prev o1) o2.
Proof.
  revert prev. induction o1 as [| [payload | b | a b c d | q] o1 IH]; intros prev; cbn; auto.
Qed.

Lemma overheat_alternates_app prev o1 o2 :
  overheat_alternates prev (o1 ++ o2) <->
  overheat_alternates prev o1 /\ overheat_alternates (last_overheat prev o1) o2.
Proof.
  revert prev. induction o1 as [| [payload | b | a b c d | q] o1 IH]; intros prev; cbn;
    rewrite ?IH; tauto.
Qed.

Lemma signals_of_filter prev out :
  last_signal prev out = last_signal prev (List.filter is_signal out) /\
  (signals_change prev out <-> signals_change prev (List.filter is_signal out)).
Proof.
  revert prev. induction out as [| [payload | b | a b c d | q] out IH]; intros prev; cbn;
    try apply IH; [tauto |].
  destruct (IH payload) as [-> ->]. tauto.
Qed.

Lemma overheat_of_filter prev out :
  last_overheat prev out = last_overheat prev (List.filter is_overheat out) /\
  (overheat_alternates prev out <-> overheat_alternates prev (List.filter is_overheat out)).
Proof.
  revert prev. induction out as [| [payload | b | a b c d | q] out IH]; intros prev; cbn;
    try apply IH; [tauto |].
  destruct (IH b) as [-> ->]. tauto.
Qed.

(** What one reported step means for a listener of the signal. *)
Lemma reports_signals m out m' :
  reports m out m' ->
  signals_change (thermal_status_name (current_status m)) out /\
  last_signal (thermal_status_name (current_status m)) out =
    thermal_status_name (current_status m').
Proof.
  intros (_ & _ & Hs & _).
  destruct (signals_of_filter (thermal_status_name (current_status m)) out) as [-> ->].
  rewrite Hs.
  destruct (status_eqb (current_status m') (current_status m)) eqn:He; cbn.
  - apply status_eqb_eq in He. rewrite He. auto.
  - apply status_eqb_neq in He. repeat split.
    intros Hn. apply He, thermal_status_name_inj, Hn.
Qed.

(** What one reported step means for a listener of the broadcast. *)
Lemma reports_overheat m out m' :
  reports m out m' -> flag_consistent m ->
  flag_consistent m' /\
  overheat_alternates (overheated m) out /\
  last_overheat (overheated m) out = overheated m'.
Proof.
  unfold flag_consistent. intros (_ & _ & _ & Hh & Hv) Hf.
  destruct (overheat_of_filter (overheated m) out) as [-> ->].
  rewrite Hh, Hv. clear Hh Hv.
  destruct (status_eqb (current_status m') (current_status m)) eqn:He; cbn.
  - apply status_eqb_eq in He. rewrite He. auto.
  - destruct (status_eqb (current_status m') THERMAL_STATUS_FATAL) eqn:Hfat; cbn.
    + apply status_eqb_eq in Hfat. rewrite Hfat in He.
      assert (Hm : overheated m = false).
      { rewrite Hf. apply status_eqb_neq. apply status_eqb_neq in He. congruence. }
      rewrite Hm. auto.
    + destruct (overheated m); cbn; auto.
Qed.

(** X5. The overheat broadcasts tell a listener whether the device is in
    Fatal: over any handled sequence of events, starting where the
    internal flag says whether the indicated status is Fatal, the flag
    keeps saying so, every broadcast negates the one before it (no
    value is sent twice in a row), and the last value broadcast is the
    flag at the end. *)
Theorem overheat_broadcasts_track_fatal es m m' out :
  registry_ok m = true -> flag_consistent m ->
  deliver_all DSME_THERMAL_TUNING fopen es m = Some (tt, m', out) ->
  flag_consistent m' /\
  overheat_alternates (overheated m) out /\
  last_overheat (overheated m) out = overheated m'.
Proof.
  revert m out. induction es as [| e es IH]; intros m out Hok Hf Hrun.
  - injection Hrun as <- <-. cbn. auto.
  - cbn [deliver_all] in Hrun.
    apply bind_inv in Hrun as ([] & m1 & out1 & out2 & He & Hes & ->).
    destruct (deliver_step e m m1 out1 Hok He) as [Hrep _].
    destruct (reports_overheat m out1 m1 Hrep Hf) as (Hf1 & Ha1 & Hl1).
    destruct (IH m1 out2 (proj1 Hrep) Hf1 Hes) as (Hf' & Ha2 & Hl2).
    split; [exact Hf' |].
    rewrite overheat_alternates_app, last_overheat_app, Hl1. auto.
Qed.

(** X6. A client that listens to the status-change signal always knows
    what [get_thermal_state] would answer: over any handled sequence of
    events every signal carries another name than the one before it, and
    the query at the end returns the name of the last signal, or the name
    indicated at the start if no signal was sent. *)
Theorem status_query_agrees_with_signals es m m' out :
  registry_ok m = true ->
  deliver_all DSME_THERMAL_TUNING fopen es m = Some (tt, m', out) ->
  signals_change (thermal_status_name (current_status m)) out /\
  get_thermal_state m' =
    Some (last_signal (thermal_status_name (current_status m)) out, m', []).
Proof.
  assert (Hgen : forall es m m' out,
            registry_ok m = true ->
            deliver_all DSME_THERMAL_TUNING fopen es m = Some (tt, m', out) ->
            signals_change (thermal_status_name (current_status m)) out /\
            last_signal (thermal_status_name (current_status m)) out =
              thermal_status_name (current_status m')).
  { clear es m m' out. induction es as [| e es IH]; intros m m' out Hok Hrun.
    - injection Hrun as <- <-. cbn. auto.
    - cbn [deliver_all] in Hrun.
      apply bind_inv in Hrun as ([] & m1 & out1 & out2 & He & Hes & ->).
      destruct (deliver_step e m m1 out1 Hok He) as [Hrep _].
      destruct (reports_signals m out1 m1 Hrep) as (Hc1 & Hl1).
      destruct (IH m1 m' out2 (proj1 Hrep) Hes) as (Hc2 & Hl2).
      rewrite signals_change_app, last_signal_app, Hl1. auto. }
  intros Hok Hrun. destruct (Hgen es m m' out Hok Hrun) as [Hc Hl].
  split; [exact Hc |]. rewrite Hl. reflexivity.
Qed.

(** X7. The indicated status stays the worst status of the registered
    objects: every handled event keeps it so, provided an object is in
    Normal when it is registered (registration does not recompute the
    aggregate). *)
Theorem aggregate_stays_worst e m m' out :
  registry_ok m = true -> aggregate_consistent m -> registers_normal e m ->
  deliver DSME_THERMAL_TUNING fopen e m = Some (tt, m', out) ->
  registry_ok m' = true /\ aggregate_consistent m'.
Proof.
  intros Hok Ha Hn Hrun.
  destruct (deliver_step e m m' out Hok Hrun) as [Hrep Hagg].
  split; [apply Hrep | apply Hagg; assumption].
Qed.

(** X8. A poll of an object without a pending request calls the sensor
    exactly once; afterwards a request is pending exactly when the sensor
    accepted it and has not answered during the call.  The one wake
    request is for the band the object is in by then. *)
Theorem poll_asks_once_and_marks_pending sensor p o m :
  heap m !! p = Some o -> registry_ok m = true -> request_pending o = false ->
  exists m' out o',
    deliver DSME_THERMAL_TUNING fopen (WAKEUP p sensor) m = Some (tt, m', out) /\
    heap m' !! p = Some o' /\
    List.filter is_request out = [request_temperature p] /\
    request_pending o' =
      match delivered sensor with
      | Some _ => false
      | None => accepted sensor
      end /\
    List.filter is_wait out =
      [wait (mintime (state_get (state (conf o')) (status o')))
            (maxtime (state_get (state (conf o')) (status o'))) 0 p] /\
    (forall q, q <> p -> heap m' !! q = heap m !! q) /\
    thermal_objects m' = thermal_objects m.
Proof.
  intros Ho Hok Hp.
  destruct (poll_step sensor p o m Ho Hok)
    as (m' & out & o' & Hrun & Hh & Hl & _ & Hp' & Hrq & Hw & _).
  rewrite Hp in Hp', Hrq.
  exists m', out, o'. cbn [deliver].
  split; [exact Hrun |].
  split; [rewrite Hh; eapply lookup_updated, Ho |].
  repeat (split; [assumption |]).
  split; [| exact Hl].
  intros q Hq. rewrite Hh. apply list_lookup_insert_ne. congruence.
Qed.


(** X9. A sensor that answers later leads to the same state as one that
    answers during the request: polling an idle object and receiving the
    reading [t] afterwards leaves the module where a poll answered at
    once with [t] leaves it, and sends the same messages apart from the
    wake request (which is sent before the reading arrives, for the band
    held until then). *)
Theorem late_answer_reaches_same_state now later p o m t :
  heap m !! p = Some o -> registry_ok m = true -> request_pending o = false ->
  delivered now = Some t -> accepted now = true ->
  delivered later = None -> accepted later = true ->
  exists m' out_now out_later,
    deliver_all DSME_THERMAL_TUNING fopen [WAKEUP p now] m = Some (tt, m', out_now) /\
    deliver_all DSME_THERMAL_TUNING fopen [WAKEUP p later; temperature_response p t] m =
      Some (tt, m', out_later) /\
    List.filter (fun x => negb (is_wait x)) out_now =
    List.filter (fun x => negb (is_wait x)) out_later.
Proof.
  intros Ho Hok Hp Hnow Hnow_ok Hlater Hlater_ok.
  set (o1 := with_request_pending o true).
  set (m1 := with_heap m (<[p := o1]> (heap m))).
  assert (Ho1 : heap m1 !! p = Some o1) by (eapply lookup_updated, Ho).
  assert (Hok1 : registry_ok m1 = true) by (apply registry_ok_insert, Hok).
  destruct (receive_total DSME_THERMAL_TUNING fopen p o1 m1 t Ho1 Hok1)
    as (m2 & out2 & o2 & Hrun & Ho2 & _ & Hnw & _).
  assert (Hreq_now : request now p m = Some (tt, m2, request_temperature p :: out2)).
  { unfold send_temperature_request.
    rewrite (bind_Some _ _ _ _ _ _ (deref_Some _ _ _ Ho)), Hp. cbn [negb].
    rewrite (bind_Some _ _ _ _ _ _ (update_Some _ _ _ _ Ho)). fold o1 m1.
    rewrite (bind_Some _ _ _ _ _ _
               (eq_refl : send (request_temperature p) m1 =
                          Some (tt, m1, [request_temperature p]))).
    rewrite Hnow, (bind_Some _ _ _ _ _ _ Hrun), Hnow_ok. cbn.
    rewrite app_nil_r. reflexivity. }
  assert (Hreq_later : request later p m = Some (tt, m1, [request_temperature p])).
  { rewrite (send_request_answered_later DSME_THERMAL_TUNING fopen later p o m Ho Hp Hlater).
    rewrite Hlater_ok. reflexivity. }
  eexists m2, _, _. split; [| split].
  - cbn [deliver_all deliver]. unfold thermal_object_polling_interval_expired.
    erewrite (bind_Some (bind _ _)); [| rewrite (bind_Some _ _ _ _ _ _ Hreq_now),
      (bind_Some _ _ _ _ _ _ (deref_Some _ _ _ Ho2)); reflexivity].
    reflexivity.
  - cbn [deliver_all deliver]. unfold thermal_object_polling_interval_expired.
    erewrite (bind_Some (bind _ _)); [| rewrite (bind_Some _ _ _ _ _ _ Hreq_later),
      (bind_Some _ _ _ _ _ _ (deref_Some _ _ _ Ho1)); reflexivity].
    rewrite (bind_Some _ _ _ _ _ _ Hrun). reflexivity.
  - cbn. rewrite !app_nil_r, !List.filter_app. cbn. rewrite app_nil_r. reflexivity.
Qed.


(** X10. A reading is classified against the configuration in force:
    the object's own thresholds, or, in a tuning build in TA test mode,
    those of its tuning file when the file is there and gives four
    records.  The object keeps that configuration, whose bands are then
    the [int] values of the records with maxtime = mintime + 10 added in
    [int]; a missing file, or one that does not give four records,
    leaves its thresholds as they were. *)
Theorem reading_uses_configuration_in_force p o m t :
  t <> -1 -> heap m !! p = Some o -> registry_ok m = true ->
  exists m' out o',
    receive p t m = Some (tt, m', out) /\
    heap m' !! p = Some o' /\
    conf o' = conf_in_force DSME_THERMAL_TUNING fopen m o /\
    status o' = classify t (status o) (conf_in_force DSME_THERMAL_TUNING fopen m o) /\
    (forall f, DSME_THERMAL_TUNING && is_in_ta_test m = true ->
       thermal_tuning_file fopen (name (conf o)) = Some f ->
       (tuning_lines 4 f = None -> conf o' = conf o) /\
       (forall l0 l1 l2 l3, tuning_lines 4 f = Some [l0; l1; l2; l3] ->
          state (conf o') =
            {| at_normal := band_of_line l0; at_warning := band_of_line l1;
               at_alert := band_of_line l2; at_fatal := band_of_line l3 |} /\
          Forall (fun s =>
                    let v := state_get (state (conf o')) s in
                    INT_MIN <= min v <= INT_MAX /\ INT_MIN <= max v <= INT_MAX /\
                    INT_MIN <= mintime v <= INT_MAX /\
                    maxtime v = to_int (mintime v + 10))
                 all_statuses)) /\
    (DSME_THERMAL_TUNING && is_in_ta_test m = false -> conf o' = conf o) /\
    (thermal_tuning_file fopen (name (conf o)) = None -> conf o' = conf o).
Proof.
  intros Ht Ho Hok.
  destruct (receive_run DSME_THERMAL_TUNING fopen p o m t Ht Ho Hok) as (w & _ & Hrun).
  cbn zeta in Hrun.
  set (c' := conf_in_force DSME_THERMAL_TUNING fopen m o) in *.
  set (o' := {| conf := c'; status := classify t (status o) c'; request_pending := false |})
    in *.
  assert (Hrest : exists m' out,
            receive p t m = Some (tt, m', out) /\ heap m' = <[p := o']> (heap m)).
  { rewrite Hrun.
    destruct (status_eqb (classify t (status o) c') (status o));
      [| destruct (status_eqb w (current_status m));
         [| destruct (status_eqb w THERMAL_STATUS_FATAL); [| destruct (overheated m)]]];
      eexists _, _; split; reflexivity. }
  destruct Hrest as (m' & out & Hrun' & Hheap).
  exists m', out, o'. split; [exact Hrun' |].
  split; [rewrite Hheap; eapply lookup_updated, Ho |].
  split; [reflexivity |]. split; [reflexivity |].
  cbn [conf o']. subst c'. unfold conf_in_force.
  split; [| split].
  - intros f Hmode Hfile. rewrite Hmode, Hfile. split.
    + intros Hnone.
      rewrite (proj1 (config_read_by_records (conf o) f) Hnone). reflexivity.
    + intros l0 l1 l2 l3 Hsome.
      rewrite (proj2 (config_read_by_records (conf o) f) _ _ _ _ Hsome).
      split; [reflexivity |].
      pose proof (tuning_lines_range _ _ _ Hsome) as Hr.
      destruct l0 as [[a0 b0] m0], l1 as [[a1 b1] m1'], l2 as [[a2 b2] m2],
               l3 as [[a3 b3] m3].
      repeat (apply Forall_cons in Hr; destruct Hr as [(? & ? & ?) Hr]).
      repeat constructor; cbn; tauto.
  - intros ->. reflexivity.
  - intros ->. destruct (DSME_THERMAL_TUNING && is_in_ta_test m); reflexivity.
Qed.



(** X19. TA test mode is entered by the message SET_TA_TEST_MODE, in a
    tuning build only, and never left: after a handled event the mode is
    on exactly if it was on before or the event was that message in a
    tuning build. *)
Theorem test_mode_is_only_switched_on e m m' out :
  registry_ok m = true ->
  deliver DSME_THERMAL_TUNING fopen e m = Some (tt, m', out) ->
  is_in_ta_test m' =
    (is_in_ta_test m ||
     match e with
     | SET_TA_TEST_MODE => DSME_THERMAL_TUNING
     | _ => false
     end).
Proof.
  intros Hok Hrun.
  destruct e as [p sensor memory | p | p sensor | | p t].
  - destruct (deliver_needs_object _ p _ _ _ Hrun eq_refl) as [o Ho].
    pose proof (register_needs_copy _ _ _ _ _ _ Hrun) as Hmem.
    destruct (register_step memory sensor p o m Ho Hok Hmem)
      as (m2 & out2 & o' & Hrun2 & _ & _ & _ & _ & Hta & _).
    cbn [deliver] in Hrun. rewrite Hrun2 in Hrun. injection Hrun as <- <-.
    rewrite Hta, orb_false_r. reflexivity.
  - injection Hrun as <- <-. rewrite orb_false_r. reflexivity.
  - destruct (deliver_needs_object _ p _ _ _ Hrun eq_refl) as [o Ho].
    destruct (poll_step sensor p o m Ho Hok)
      as (m2 & out2 & o' & Hrun2 & _ & _ & Hta & _).
    cbn [deliver] in Hrun. rewrite Hrun2 in Hrun. injection Hrun as <- <-.
    rewrite Hta, orb_false_r. reflexivity.
  - cbn [deliver] in Hrun. destruct DSME_THERMAL_TUNING; injection Hrun as <- <-; cbn.
    + rewrite orb_true_r. reflexivity.
    + rewrite orb_false_r. reflexivity.
  - destruct (deliver_needs_object _ p _ _ _ Hrun eq_refl) as [o Ho].
    destruct (receive_step p o m t Ho Hok)
      as (m2 & out2 & o' & Hrun2 & _ & _ & Hta & _).
    cbn [deliver] in Hrun. rewrite Hrun2 in Hrun. injection Hrun as <- <-.
    rewrite Hta, orb_false_r. reflexivity.
Qed.

End SupervisorRuns.

(** Outside TA test mode the handler of a reading does not look at the
    file system. *)
Lemma receive_ignores_files tuning fopen1 fopen2 p t m :
  tuning && is_in_ta_test m = false ->
  receive_temperature_response tuning fopen1 p t m =
  receive_temperature_response tuning fopen2 p t m.
Proof.
  intros Hmode. unfold receive_temperature_response, update, bind, deref, get, modify.
  destruct (heap m !! p) as [o |] eqn:Ho; [| reflexivity].
  destruct (t =? -1); [reflexivity |]. cbn.
  erewrite !lookup_updated by exact Ho. cbn. rewrite Hmode. reflexivity.
Qed.

Lemma bind_congr {A B : Type} (x1 x2 : M A) (k : A -> M B) m :
  x1 m = x2 m -> bind x1 k m = bind x2 k m.
Proof. intros H. unfold bind. rewrite H. reflexivity. Qed.

Lemma request_ignores_files tuning fopen1 fopen2 sensor q m :
  tuning && is_in_ta_test m = false ->
  send_temperature_request tuning fopen1 sensor q m =
  send_temperature_request tuning fopen2 sensor q m.
Proof.
  intros Hmode. unfold send_temperature_request.
  destruct (heap m !! q) as [o |] eqn:Ho;
    [| unfold bind, deref; rewrite Ho; reflexivity].
  rewrite !(bind_Some _ _ _ _ _ _ (deref_Some _ _ _ Ho)).
  destruct (request_pending o); cbn [negb]; [reflexivity |].
  rewrite !(bind_Some _ _ _ _ _ _ (update_Some _ _ _ _ Ho)).
  rewrite !(bind_Some _ _ _ _ _ _
              (eq_refl : send (request_temperature q) _ = Some (tt, _, [_]))).
  destruct (delivered sensor) as [t |]; [| reflexivity].
  rewrite (bind_congr (receive_temperature_response tuning fopen1 q t)
                      (receive_temperature_response tuning fopen2 q t));
    [reflexivity |].
  apply receive_ignores_files. exact Hmode.
Qed.

Lemma poll_ignores_files tuning fopen1 fopen2 sensor q m :
  tuning && is_in_ta_test m = false ->
  thermal_object_polling_interval_expired tuning fopen1 sensor q m =
  thermal_object_polling_interval_expired tuning fopen2 sensor q m.
Proof.
  intros Hmode. unfold thermal_object_polling_interval_expired.
  apply bind_congr, request_ignores_files, Hmode.
Qed.

(** X12. Unless the module is built for tuning and has been put in TA
    test mode, no handler consults a tuning file: every event is handled
    the same way whatever the file system holds. *)
Theorem files_are_read_only_in_test_mode tuning fopen1 fopen2 e m :
  tuning && is_in_ta_test m = false ->
  deliver tuning fopen1 e m = deliver tuning fopen2 e m.
Proof.
  intros Hmode.
  destruct e as [p sensor memory | p | p sensor | | p t]; cbn [deliver].
  - unfold dsme_register_thermal_object.
    destruct tuning.
    + unfold thermal_object_copy.
      destruct (copy_object memory && copy_config memory); [| reflexivity].
      destruct (heap m !! p) as [o |] eqn:Ho;
        [| unfold bind, deref; rewrite Ho; reflexivity].
      assert (Hcopy : (o <- deref p ;; m0 <- get ;;
                       modify (fun m => with_heap m (heap m ++ [o])) ;;;
                       ret (Some (List.length (heap m0)))) m =
                      Some (Some (List.length (heap m)), with_heap m (heap m ++ [o]), [])).
      { unfold bind, deref, get, modify, ret. rewrite Ho. reflexivity. }
      rewrite !(bind_Some _ _ _ _ _ _ Hcopy).
      rewrite !(bind_Some _ _ _ _ _ _ (eq_refl : modify _ _ = Some (tt, _, []))).
      rewrite (poll_ignores_files true fopen1 fopen2); [reflexivity | exact Hmode].
    + rewrite !(bind_Some _ _ _ _ _ _ (eq_refl : ret (Some p) m = Some (Some p, m, []))).
      rewrite !(bind_Some _ _ _ _ _ _ (eq_refl : modify _ _ = Some (tt, _, []))).
      rewrite (poll_ignores_files false fopen1 fopen2); reflexivity.
  - reflexivity.
  - apply poll_ignores_files, Hmode.
  - reflexivity.
  - apply receive_ignores_files, Hmode.
Qed.

Lemma files_are_read_only_in_test_mode_witness :
  deliver true (tuning_file_at "/etc/dsme/temp_ladder" good_tuning_file)
    (temperature_response 0 95) two_sensors =
  deliver true no_tuning_file (temperature_response 0 95) two_sensors.
Proof.
  apply (files_are_read_only_in_test_mode true
           (tuning_file_at "/etc/dsme/temp_ladder" good_tuning_file) no_tuning_file
           (temperature_response 0 95) two_sensors).
  reflexivity.
Defined.

Lemma status_le_antisym a b : status_le a b -> status_le b a -> a = b.
Proof. unfold status_le. destruct a, b; cbn; intros; try reflexivity; lia. Qed.

Lemma is_worst_of_unique l1 l2 w1 w2 :
  l1 ≡ₚ l2 -> is_worst_of l1 w1 -> is_worst_of l2 w2 -> w1 = w2.
Proof.
  intros Hp [Hall1 Hin1] [Hall2 Hin2].
  rewrite Forall_forall in Hall1, Hall2.
  destruct Hin1 as [Hin1 | [-> ->]], Hin2 as [Hin2 | [-> ->]].
  - apply status_le_antisym.
    + apply Hall2. rewrite <- Hp. exact Hin1.
    + apply Hall1. rewrite Hp. exact Hin2.
  - apply Permutation_nil_r in Hp. subst l1. inversion Hin1.
  - symmetry in Hp. apply Permutation_nil_r in Hp. subst l2. inversion Hin2.
  - reflexivity.
Qed.

(** X13. The worst status does not depend on the order in which the
    objects were registered: two registries with the same entries in
    another order over the same objects give the same result, and the
    computation leaves the state alone.  An empty registry gives
    Normal. *)
Theorem worst_status_ignores_registry_order m1 m2 :
  heap m1 = heap m2 -> thermal_objects m1 ≡ₚ thermal_objects m2 ->
  registry_ok m1 = true ->
  exists w,
    worst_current_thermal_object_status m1 = Some (w, m1, []) /\
    worst_current_thermal_object_status m2 = Some (w, m2, []) /\
    is_worst_of (registered_statuses m1) w /\
    (thermal_objects m1 = [] -> w = THERMAL_STATUS_NORMAL).
Proof.
  intros Hh Hp Hok1.
  assert (Hok2 : registry_ok m2 = true).
  { unfold registry_ok in *. apply forallb_forall. intros x Hx.
    rewrite <- Hh. eapply forallb_forall in Hok1; [exact Hok1 |].
    apply list_elem_of_In. rewrite Hp. apply list_elem_of_In, Hx. }
  destruct (worst_current_ok m1 Hok1) as (w1 & Hrun1 & Hw1).
  destruct (worst_current_ok m2 Hok2) as (w2 & Hrun2 & Hw2).
  assert (Hperm : registered_statuses m1 ≡ₚ registered_statuses m2).
  { unfold registered_statuses. rewrite Hh, Hp. reflexivity. }
  assert (w1 = w2) as -> by (eapply is_worst_of_unique; eassumption).
  exists w2. repeat (split; [assumption |]).
  intros Hnil. unfold registered_statuses in Hw1. rewrite Hnil in Hw1.
  destruct Hw1 as [_ [Hin | [_ ->]]]; [inversion Hin | reflexivity].
Qed.

Lemma worst_status_ignores_registry_order_witness :
  exists w,
    worst_current_thermal_object_status two_sensors = Some (w, two_sensors, []) /\
    worst_current_thermal_object_status (with_thermal_objects two_sensors [1%nat; 0%nat]) =
      Some (w, with_thermal_objects two_sensors [1%nat; 0%nat], []) /\
    is_worst_of (registered_statuses two_sensors) w /\
    (thermal_objects two_sensors = [] -> w = THERMAL_STATUS_NORMAL).
Proof.
  apply (worst_status_ignores_registry_order two_sensors
           (with_thermal_objects two_sensors [1%nat; 0%nat])).
  - reflexivity.
  - apply perm_swap.
  - reflexivity.
Defined.

(** * Further properties of the temp reaper *)

Import TempReaper.

(** X14. A child watch is added exactly for a fork that succeeded, with
    the child's pid, which then is [reaper_pid]; after a fork that failed
    [reaper_pid] is still -1, so that the next message for the root
    partition tries again. *)
Theorem watch_follows_successful_fork reaper_pid msg r :
  (forall pid,
     child_watch_add pid ∈ snd (handle_DISK_SPACE reaper_pid msg r) <->
     reaper_pid = -1 /\ mount_path msg = "/"%string /\
     exists child, r = forked child /\ pid = Z.pos child) /\
  (forall pid,
     child_watch_add pid ∈ snd (handle_DISK_SPACE reaper_pid msg r) ->
     fst (handle_DISK_SPACE reaper_pid msg r) = pid) /\
  (reaper_pid = -1 -> r = fork_failed ->
     fst (handle_DISK_SPACE reaper_pid msg r) = -1 /\
     forall r', fst (handle_DISK_SPACE (fst (handle_DISK_SPACE reaper_pid msg r))
                       {| mount_path := "/" |} r') = pid_of r').
Proof.
  unfold handle_DISK_SPACE, disk_space_running_out, reaper_process_new.
  destruct (Z.eqb_spec reaper_pid (-1)) as [Hpid | Hpid]; cbn [negb].
  - destruct (String.eqb_spec (mount_path msg) "/") as [Hpath | Hpath].
    + destruct r as [| child]; cbn.
      * split; [| split].
        -- intros pid. rewrite elem_of_cons, elem_of_nil. split.
           ++ intros [H | []]. discriminate H.
           ++ intros (_ & _ & child & H & _). discriminate H.
        -- intros pid. rewrite elem_of_cons, elem_of_nil. intros [H | []]. discriminate H.
        -- intros _ _. split; [reflexivity |]. intros r'. destruct r'; reflexivity.
      * split; [| split].
        -- intros pid. rewrite !elem_of_cons, elem_of_nil. split.
           ++ intros [H | [H | []]]; [discriminate H |]. injection H as ->.
              repeat split; auto. exists child. auto.
           ++ intros (_ & _ & child' & Hc & ->). injection Hc as <-. auto.
        -- intros pid. rewrite !elem_of_cons, elem_of_nil.
           intros [H | [H | []]]; [discriminate H |]. injection H as ->. reflexivity.
        -- intros _ H. discriminate H.
    + cbn. split; [| split].
      * intros pid. rewrite elem_of_nil. split; [intros [] |].
        intros (_ & H & _). contradiction.
      * intros pid. rewrite elem_of_nil. intros [].
      * intros _ _. split; [exact Hpid |]. rewrite Hpid. cbn.
        intros r'. destruct r'; reflexivity.
  - cbn. split; [| split].
    + intros pid. rewrite elem_of_nil. split; [intros [] |].
      intros (H & _). contradiction.
    + intros pid. rewrite elem_of_nil. intros [].
    + intros H. contradiction.
Qed.

Lemma watch_follows_successful_fork_witness :
  fst (handle_DISK_SPACE (-1) {| mount_path := "/" |} fork_failed) = -1 /\
  fst (handle_DISK_SPACE (-1) {| mount_path := "/" |} (forked 4711)) = 4711.
Proof.
  split.
  - apply (proj2 (proj2 (watch_follows_successful_fork (-1) {| mount_path := "/" |}
                           fork_failed))); reflexivity.
  - apply (proj1 (proj2 (watch_follows_successful_fork (-1) {| mount_path := "/" |}
                           (forked 4711)))).
    cbn. rewrite !elem_of_cons. auto.
Defined.

Lemma reaper_run_app pid es1 es2 :
  reaper_run pid (es1 ++ es2) =
  let '(pid1, done1) := reaper_run pid es1 in
  let '(pid2, done2) := reaper_run pid1 es2 in
  (pid2, done1 ++ done2).
Proof.
  revert pid. induction es1 as [| e es1 IH]; intros pid; cbn.
  - destruct (reaper_run pid es2). reflexivity.
  - destruct (reaper_step pid e) as [pid1 done1]. rewrite IH.
    destruct (reaper_run pid1 es1) as [pid2 done2].
    destruct (reaper_run pid2 es2) as [pid3 done3]. rewrite app_assoc. reflexivity.
Qed.

(** One event keeps [reaper_pid] either -1 or the pid of a watched
    child. *)
Lemma reaper_step_pid pid e :
  pid = -1 \/ 0 < pid ->
  let '(pid', done) := reaper_step pid e in
  (pid' = -1 \/ 0 < pid') /\
  (pid' = pid \/ pid' = -1 \/ child_watch_add pid' ∈ done).
Proof.
  intros Hpid. destruct e as [msg r | k st]; cbn;
    [| split; [left; reflexivity | right; left; reflexivity]].
  unfold handle_DISK_SPACE, reaper_process_new.
  destruct (Z.eqb_spec pid (-1)) as [-> | Hne]; cbn [negb]; [| auto].
  destruct (disk_space_running_out msg); [| auto].
  destruct r as [| child]; cbn.
  - auto.
  - split; [right; lia |]. right. right. rewrite !elem_of_cons. auto.
Qed.

(** X15. Over any sequence of disk-space messages and child exits,
    starting with no reaper, [reaper_pid] is -1 or the positive pid of a
    child that was forked and put under watch during the run; so at
    shutdown [module_fini] sends SIGKILL to at most one process, such a
    child, and never to pid -1 or 0. *)
Theorem shutdown_kills_only_the_reaper es :
  let '(pid, done) := reaper_run initial_reaper_pid es in
  (pid = -1 \/ (0 < pid /\ child_watch_add pid ∈ done)) /\
  (forall k, k ∈ module_fini pid -> 0 < k /\ k = pid /\ child_watch_add k ∈ done) /\
  (List.length (module_fini pid) <= 1)%nat.
Proof.
  assert (Hgen : forall es pid0, pid0 = -1 \/ 0 < pid0 ->
            let '(pid, done) := reaper_run pid0 es in
            (pid = -1 \/ 0 < pid) /\
            (pid = pid0 \/ pid = -1 \/ child_watch_add pid ∈ done)).
  { clear es. induction es as [| e es IH]; intros pid0 H0; cbn; [auto |].
    pose proof (reaper_step_pid pid0 e H0) as Hs.
    destruct (reaper_step pid0 e) as [pid1 done1]. destruct Hs as [H1 Hw1].
    specialize (IH pid1 H1). destruct (reaper_run pid1 es) as [pid2 done2].
    destruct IH as [H2 Hw2]. split; [exact H2 |].
    destruct Hw2 as [-> | [-> | Hin]]; [| auto |].
    - destruct Hw1 as [-> | [-> | Hin]]; auto.
      right. right. apply elem_of_app. auto.
    - right. right. apply elem_of_app. auto. }
  specialize (Hgen es initial_reaper_pid (or_introl eq_refl)).
  destruct (reaper_run initial_reaper_pid es) as [pid done].
  destruct Hgen as [Hpid Hw]. unfold initial_reaper_pid in Hw.
  assert (Hinv : pid = -1 \/ (0 < pid /\ child_watch_add pid ∈ done)).
  { destruct Hw as [-> | [-> | Hin]]; auto. destruct Hpid as [-> | Hpos]; auto. }
  split; [exact Hinv |]. unfold module_fini.
  destruct (Z.eqb_spec pid (-1)) as [-> | Hne]; cbn.
  - split; [| lia]. intros k Hk. inversion Hk.
  - split; [| lia]. intros k Hk. apply list_elem_of_singleton in Hk. subst k.
    destruct Hinv as [-> | [Hpos Hin]]; [contradiction | auto].
Qed.


(** One event adds at most the watch that makes the reaper live. *)
Lemma reaper_step_count pid e :
  let '(pid', done) := reaper_step pid e in
  (List.length (List.filter is_watch done) + live pid <=
   (if is_exit e then 1 else 0) + live pid')%nat.
Proof.
  destruct e as [msg r | k st]; cbn; [| unfold live; destruct (pid =? -1); cbn; lia].
  unfold handle_DISK_SPACE, reaper_process_new, live.
  destruct (Z.eqb_spec pid (-1)) as [-> | Hne]; cbn [negb].
  - destruct (disk_space_running_out msg); [| cbn; lia].
    destruct r as [| child]; cbn; lia.
  - cbn. destruct (Z.eqb_spec pid (-1)); [contradiction | lia].
Qed.

(** X16. At most one reaper runs at a time: over any sequence of events
    the number of children put under watch exceeds the number of child
    exits by at most one, and not at all while [reaper_pid] is -1. *)
Theorem at_most_one_reaper es :
  let '(pid, done) := reaper_run initial_reaper_pid es in
  (List.length (List.filter is_watch done) <=
   List.length (List.filter is_exit es) + live pid)%nat /\
  (live pid <= 1)%nat.
Proof.
  assert (Hgen : forall es pid0,
            let '(pid, done) := reaper_run pid0 es in
            (List.length (List.filter is_watch done) + live pid0 <=
             List.length (List.filter is_exit es) + live pid)%nat).
  { clear es. induction es as [| e es IH]; intros pid0; cbn; [lia |].
    pose proof (reaper_step_count pid0 e) as Hs.
    destruct (reaper_step pid0 e) as [pid1 done1].
    specialize (IH pid1). destruct (reaper_run pid1 es) as [pid2 done2].
    rewrite List.filter_app, length_app.
    destruct (is_exit e); cbn [List.length]; lia. }
  specialize (Hgen es initial_reaper_pid).
  destruct (reaper_run initial_reaper_pid es) as [pid done].
  split; [cbn in Hgen; lia |]. unfold live. destruct (pid =? -1); lia.
Qed.

(** Membership in a list written out, case by case. *)
Ltac not_in_list H :=
  repeat (apply elem_of_cons in H as [H | H]; [discriminate H |]);
  apply elem_of_nil in H; contradiction.

Ltac exec_in_list H :=
  repeat (apply elem_of_cons in H as [H | H];
          [first [discriminate H | injection H as -> ->] |]);
  [.. | apply elem_of_nil in H; contradiction].

(** X17. The child runs rpdir only without privileges: [execv] is called
    if and only if the priority was set, the account "user" (or, when
    there is none, "nobody") exists, and [setgid] and then [setuid] to
    that account both succeeded; it is called right after these two, on
    the fixed program with the arguments "rpdir" and "/var/tmp".  In
    every other case the child ends in [_exit(EXIT_FAILURE)]. *)
Theorem child_execs_only_unprivileged RPDIR_PATH w :
  let calls := reaper_child RPDIR_PATH w in
  ((exists path argv, sys_execv path argv ∈ calls) <->
   setpriority_returns w = 0 /\
   exists pwd, unprivileged_account w = Some pwd /\
     setgid_returns w (pw_gid pwd) = 0 /\ setuid_returns w (pw_uid pwd) = 0) /\
  (forall path argv, sys_execv path argv ∈ calls ->
     path = RPDIR_PATH /\ argv = ["rpdir"; "/var/tmp"]%string /\
     exists pwd before after,
       unprivileged_account w = Some pwd /\
       calls = before ++ [sys_setgid (pw_gid pwd); sys_setuid (pw_uid pwd);
                          sys_execv path argv] ++ after /\
       (forall g, sys_setgid g ∉ before) /\ (forall u, sys_setuid u ∉ before)) /\
  ((forall path argv, sys_execv path argv ∉ calls) ->
   last calls = Some (sys__exit EXIT_FAILURE)).
Proof.
  unfold reaper_child, drop_privileges, unprivileged_account.
  destruct (Z.eqb_spec (setpriority_returns w) 0) as [Hprio | Hprio]; cbn [negb].
  2: { split; [| split].
       - split; [intros (path & argv & H); not_in_list H | intros [H _]; contradiction].
       - intros path argv H. not_in_list H.
       - reflexivity. }
  destruct (getpwnam_r_result w "user") as [pwd |] eqn:Huser;
    [| destruct (getpwnam_r_result w "nobody") as [pwd |] eqn:Hnobody].
  3: { cbn. split; [| split].
       - split; [intros (path & argv & H); not_in_list H |].
         intros (_ & pwd & H & _). discriminate H.
       - intros path argv H. not_in_list H.
       - reflexivity. }
  all: destruct (Z.eqb_spec (setgid_returns w (pw_gid pwd)) 0) as [Hgid | Hgid]; cbn [negb];
    [destruct (Z.eqb_spec (setuid_returns w (pw_uid pwd)) 0) as [Huid | Huid]; cbn [negb] |].
  all: try (destruct (execv_fails w)); cbn.
  all: split; [| split].
  all: try (intros _; reflexivity).
  all: try (intros Hno; exfalso; eapply Hno; rewrite !elem_of_cons; eauto 8; fail).
  all: try (split;
            [ intros (path & argv & H); not_in_list H
            | intros (_ & pwd' & Hacc & Hg & Hu); injection Hacc as <-; contradiction ]; fail).
  all: try (intros path argv H; not_in_list H; fail).
  all: try (split;
            [ intros _; split; [exact Hprio |]; exists pwd; auto
            | intros _; eexists _, _; rewrite !elem_of_cons; eauto 8 ]; fail).
  all: intros path argv H; exec_in_list H; (split; [reflexivity |]); (split; [reflexivity |]);
    exists pwd;
    first [ eexists [_; _], _; (split; [reflexivity |]); (split; [reflexivity |])
          | eexists [_; _; _], _; (split; [reflexivity |]); (split; [reflexivity |]) ];
    split; intros x Hx; not_in_list Hx.
Qed.

(** * The further theorems at work *)

Lemma overheat_broadcasts_track_fatal_witness :
  exists m' out,
    deliver_all false no_tuning_file busy_run two_sensors = Some (tt, m', out) /\
    List.filter is_overheat out = [set_thermal_state true; set_thermal_state false] /\
    flag_consistent m' /\
    overheat_alternates (overheated two_sensors) out /\
    last_overheat (overheated two_sensors) out = overheated m'.
Proof.
  eexists _, _. split; [vm_compute; reflexivity |].
  split; [reflexivity |].
  match goal with
  | |- flag_consistent ?m' /\ overheat_alternates _ ?out /\ _ =>
      apply (overheat_broadcasts_track_fatal false no_tuning_file busy_run two_sensors m' out)
  end; [reflexivity | reflexivity | vm_compute; reflexivity].
Defined.

Lemma status_query_agrees_with_signals_witness :
  exists m' out,
    deliver_all false no_tuning_file busy_run two_sensors = Some (tt, m', out) /\
    List.filter is_signal out = [dbus_signal "fatal"; dbus_signal "warning"] /\
    signals_change (thermal_status_name (current_status two_sensors)) out /\
    get_thermal_state m' =
      Some (last_signal (thermal_status_name (current_status two_sensors)) out, m', []).
Proof.
  eexists _, _. split; [vm_compute; reflexivity |].
  split; [reflexivity |].
  match goal with
  | |- signals_change _ ?out /\ get_thermal_state ?m' = _ =>
      apply (status_query_agrees_with_signals false no_tuning_file busy_run two_sensors m' out)
  end; [reflexivity | vm_compute; reflexivity].
Defined.

Lemma two_sensors_aggregate_consistent : aggregate_consistent two_sensors.
Proof.
  split.
  - repeat constructor; unfold status_le; cbn; lia.
  - left. cbn. rewrite !elem_of_cons. auto.
Qed.

Lemma aggregate_stays_worst_witness :
  exists m' out,
    deliver false no_tuning_file (WAKEUP 1 (answers_now 95)) two_sensors = Some (tt, m', out) /\
    current_status m' = THERMAL_STATUS_FATAL /\
    registry_ok m' = true /\ aggregate_consistent m'.
Proof.
  eexists _, _. split; [vm_compute; reflexivity |].
  split; [reflexivity |].
  match goal with
  | |- registry_ok ?m' = true /\ _ =>
      apply (aggregate_stays_worst false no_tuning_file (WAKEUP 1 (answers_now 95))
               two_sensors m'
               [request_temperature 1; dbus_signal "fatal"; set_thermal_state true;
                wait 2 5 0 1])
  end; [reflexivity | exact two_sensors_aggregate_consistent | exact I | vm_compute; reflexivity].
Defined.

Lemma poll_asks_once_and_marks_pending_witness :
  exists m' out o',
    deliver false no_tuning_file (WAKEUP 1 answers_later) two_sensors = Some (tt, m', out) /\
    heap m' !! 1%nat = Some o' /\
    List.filter is_request out = [request_temperature 1] /\
    request_pending o' = true /\
    List.filter is_wait out =
      [wait (mintime (state_get (state (conf o')) (status o')))
            (maxtime (state_get (state (conf o')) (status o'))) 0 1] /\
    (forall q, q <> 1%nat -> heap m' !! q = heap two_sensors !! q) /\
    thermal_objects m' = thermal_objects two_sensors.
Proof.
  apply (poll_asks_once_and_marks_pending false no_tuning_file answers_later 1
           (sensor_at THERMAL_STATUS_ALERT false) two_sensors);
    reflexivity.
Defined.

Lemma late_answer_reaches_same_state_witness :
  exists m' out_now out_later,
    deliver_all false no_tuning_file [WAKEUP 1 (answers_now 95)] two_sensors =
      Some (tt, m', out_now) /\
    deliver_all false no_tuning_file
      [WAKEUP 1 answers_later; temperature_response 1 95] two_sensors =
      Some (tt, m', out_later) /\
    List.filter (fun x => negb (is_wait x)) out_now =
    List.filter (fun x => negb (is_wait x)) out_later.
Proof.
  apply (late_answer_reaches_same_state false no_tuning_file
           (answers_now 95) answers_later 1 (sensor_at THERMAL_STATUS_ALERT false)
           two_sensors 95);
    reflexivity.
Defined.

(** The wake request is where the two differ: for Fatal's window when
    the reading came during the poll, for Alert's when it came later. *)
Example late_answer_keeps_old_window :
  (snd <$> deliver_all false no_tuning_file [WAKEUP 1 (answers_now 95)] two_sensors,
   snd <$> deliver_all false no_tuning_file
             [WAKEUP 1 answers_later; temperature_response 1 95] two_sensors) =
  (Some [request_temperature 1; dbus_signal "fatal"; set_thermal_state true; wait 2 5 0 1],
   Some [request_temperature 1; wait 10 15 0 1; dbus_signal "fatal"; set_thermal_state true]).
Proof. vm_compute. reflexivity. Qed.

Lemma reading_uses_configuration_in_force_witness :
  exists m' out o',
    receive_temperature_response true
      (tuning_file_at "/etc/dsme/temp_ladder" good_tuning_file) 1 50 two_sensors_in_test =
      Some (tt, m', out) /\
    heap m' !! 1%nat = Some o' /\
    maxtime (at_fatal (state (conf o'))) = 12 /\
    status o' = THERMAL_STATUS_WARNING.
Proof.
  destruct (reading_uses_configuration_in_force true
              (tuning_file_at "/etc/dsme/temp_ladder" good_tuning_file)
              1 (sensor_at THERMAL_STATUS_ALERT false) two_sensors_in_test 50)
    as (m' & out & o' & Hrun & Ho' & Hconf & Hstatus & _);
    [lia | reflexivity | reflexivity |].
  exists m', out, o'. split; [exact Hrun |]. split; [exact Ho' |].
  rewrite Hconf, Hstatus. split; vm_compute; reflexivity.
Defined.

(** A tuning file whose last mintime is INT_MAX: the wake window of
    Fatal gets a negative maxtime. *)
Example reading_with_overflowing_file :
  match receive_temperature_response true
          (tuning_file_at "/etc/dsme/temp_ladder" overflowing_tuning_file) 1 95
          two_sensors_in_test with
  | Some (_, m', _) =>
      (fun o' => (status o', state_get (state (conf o')) (status o'))) <$> heap m' !! 1%nat
  | None => None
  end =
  Some (THERMAL_STATUS_FATAL,
        {| min := 80; max := 999; mintime := 2147483647; maxtime := -2147483639 |}).
Proof. vm_compute. reflexivity. Qed.


Lemma test_mode_is_only_switched_on_witness :
  exists m' out,
    deliver true no_tuning_file SET_TA_TEST_MODE two_sensors = Some (tt, m', out) /\
    is_in_ta_test m' = true.
Proof.
  eexists _, _. split; [reflexivity |].
  rewrite (test_mode_is_only_switched_on true no_tuning_file SET_TA_TEST_MODE
             two_sensors _ [] eq_refl eq_refl).
  reflexivity.
Defined.

Lemma shutdown_kills_only_the_reaper_witness :
  module_fini (fst (reaper_run initial_reaper_pid
                      [DISK_SPACE {| mount_path := "/" |} (forked 4711);
                       DISK_SPACE {| mount_path := "/" |} (forked 5)])) = [4711] /\
  child_watch_add 4711 ∈
    snd (reaper_run initial_reaper_pid
           [DISK_SPACE {| mount_path := "/" |} (forked 4711);
            DISK_SPACE {| mount_path := "/" |} (forked 5)]).
Proof.
  split; [reflexivity |].
  pose proof (shutdown_kills_only_the_reaper
                [DISK_SPACE {| mount_path := "/" |} (forked 4711);
                 DISK_SPACE {| mount_path := "/" |} (forked 5)]) as H.
  cbn in H. destruct H as (_ & Hk & _).
  apply (Hk 4711). cbn. rewrite elem_of_cons. auto.
Defined.

Lemma child_execs_only_unprivileged_witness :
  sys_execv "/sbin/rpdir" ["rpdir"; "/var/tmp"]%string ∈ reaper_child "/sbin/rpdir" friendly_world /\
  reaper_child "/sbin/rpdir" friendly_world =
    [sys_setpriority 0 0 5; sys_getpwnam_r "user"; sys_getpwnam_r "nobody";
     sys_setgid 65534; sys_setuid 65534; sys_execv "/sbin/rpdir" ["rpdir"; "/var/tmp"]%string].
Proof.
  split; [| reflexivity].
  destruct (proj2 (proj1 (child_execs_only_unprivileged "/sbin/rpdir" friendly_world)))
    as (path & argv & Hin).
  - split; [reflexivity |].
    exists {| pw_uid := 65534; pw_gid := 65534 |}. repeat split.
  - destruct (proj1 (proj2 (child_execs_only_unprivileged "/sbin/rpdir" friendly_world))
                path argv Hin) as (-> & -> & _).
    exact Hin.
Defined.
